(** * identify-ligands.py: a shallow embedding and its checked properties

    The script reads one Excel workbook, looks up every metabolite
    identifier of every row in EcoCyc (HTTP) and HMDB (local XML), and
    sorts the rows into five output workbooks.

    The embedding follows the script function by function.  Python
    objects that the script mutates in place (the pandas Series of a
    row, the DataFrames returned by [retrieve]) live in a store and are
    passed by reference; everything else is a value.  Exceptions are a
    result type; HTTP traffic and written files are recorded in the
    world.  [print] calls are left out: they do not influence control
    flow or any value.

    A Python string is modelled by the sequence of its code points, one
    [ascii] each: the model covers text whose code points are below
    256, and the character classes below are Python's on that range. *)

From Stdlib Require Import ZArith Ascii String List Lia Bool DecimalString Sorted.
From stdpp Require Import base decidable option list strings.

Import ListNotations.
Local Open Scope string_scope.
Local Open Scope list_scope.

(** ** Python values *)

(** The values that occur in spreadsheet cells, lookup records and
    DataFrame cells.  [VMatch g] is an [re.Match] object whose
    [group()] is [g]; [VFloat s] is a float cell carried with its
    Python [str()]; [VNaN] is numpy's [nan]. *)
Inductive value : Type :=
  | VNone
  | VNaN
  | VStr (s : string)
  | VInt (z : Z)
  | VFloat (repr : string)
  | VMatch (group : string).

#[global] Instance value_eq_dec : EqDecision value.
Proof. solve_decision. Defined.

(** [pandas.isna] on a single cell: [None] and [nan] are missing. *)
Definition isna (v : value) : bool :=
  match v with
  | VNone | VNaN => true
  | _ => false
  end.

Definition string_of_Z (z : Z) : string :=
  NilZero.string_of_int (Z.to_int z).

(** Python's [str(x)] on a cell of the spreadsheet. *)
Definition py_str (v : value) : string :=
  match v with
  | VNone => "None"
  | VNaN => "nan"
  | VStr s => s
  | VInt z => string_of_Z z
  | VFloat r => r
  | VMatch _ => "<re.Match object>"
  end.

(** ** Exceptions and results *)

Inductive exn : Type :=
  | AssertionError (msg : string)
  | NameError (name : string)
  | ValueError (msg : string)
  | KeyError (key : string)
  | IndexError
  | TypeError
  | HTTPError (status : Z)
  | RequestException (msg : string)
  | SyntaxError (msg : string)
  | RuntimeError (msg : string)
  | WriteError (msg : string)
  | DanglingReference.

Inductive result (A : Type) : Type :=
  | Ok (a : A)
  | Raise (e : exn).
Arguments Ok {A} a.
Arguments Raise {A} e.

Definition is_assertion {A} (r : result A) : bool :=
  match r with
  | Raise (AssertionError _) => true
  | _ => false
  end.

Definition rbind {A B} (r : result A) (k : A -> result B) : result B :=
  match r with
  | Ok a => k a
  | Raise e => Raise e
  end.

(** ** Characters and the two regular-expression uses *)

Definition in_range (lo hi : nat) (c : ascii) : bool :=
  let n := nat_of_ascii c in (lo <=? n)%nat && (n <=? hi)%nat.

(** [str.isdigit] on one character: the decimal digits and the
    superscripts 2, 3 and 1 (code points 178, 179, 185). *)
Definition is_digit (c : ascii) : bool :=
  in_range 48 57 c || in_range 178 179 c || in_range 185 185 c.

(** [str.isalpha] on one character: the ASCII letters, the ordinal
    indicators and the micro sign (170, 186, 181), and the accented
    letters 192..255 without the signs 215 and 247. *)
Definition is_alpha (c : ascii) : bool :=
  in_range 65 90 c || in_range 97 122 c ||
  in_range 170 170 c || in_range 181 181 c || in_range 186 186 c ||
  in_range 192 214 c || in_range 216 246 c || in_range 248 255 c.

(** [\w] of a [str] pattern: alphanumeric (letters, digits, and the
    fractions 188..190, which are numeric) or the underscore. *)
Definition is_word (c : ascii) : bool :=
  is_alpha c || is_digit c || in_range 188 190 c || Ascii.eqb c "_".

(** [\s] of a [str] pattern. *)
Definition is_space (c : ascii) : bool :=
  in_range 9 13 c || in_range 28 32 c || in_range 133 133 c || in_range 160 160 c.

(** The class [[\w:/\-]] of the split pattern. *)
Definition is_tail_char (c : ascii) : bool :=
  is_word c || Ascii.eqb c ":" || Ascii.eqb c "/" || Ascii.eqb c "-".

Fixpoint take_while {A} (p : A -> bool) (l : list A) : list A :=
  match l with
  | [] => []
  | x :: l' => if p x then x :: take_while p l' else []
  end.

Fixpoint drop_while {A} (p : A -> bool) (l : list A) : list A :=
  match l with
  | [] => []
  | x :: l' => if p x then drop_while p l' else l
  end.

Fixpoint starts_with (p s : list ascii) : bool :=
  match p, s with
  | [], _ => true
  | _ :: _, [] => false
  | a :: p', b :: s' => Ascii.eqb a b && starts_with p' s'
  end.

(** The lookahead body [[\w:/\-]+\)] matched at the head of [rest]: a
    non-empty run of class characters directly followed by [")"].  The
    class does not contain [")"], so only the maximal run can succeed. *)
Definition tail_closes (rest : list ascii) : bool :=
  match take_while is_tail_char rest, drop_while is_tail_char rest with
  | _ :: _, c :: _ => Ascii.eqb c ")"
  | _, _ => false
  end.

(** [re.split(r"; |/(?![\w:/\-]+\))", s)]: [cur] holds the current piece
    in reverse. *)
Fixpoint split_ids_aux (s cur : list ascii) : list (list ascii) :=
  match s with
  | [] => [rev cur]
  | c :: s' =>
      if Ascii.eqb c ";" then
        match s' with
        | d :: s'' =>
            if Ascii.eqb d " " then rev cur :: split_ids_aux s'' []
            else split_ids_aux s' (c :: cur)
        | [] => split_ids_aux s' (c :: cur)
        end
      else if Ascii.eqb c "/" && negb (tail_closes s') then
        rev cur :: split_ids_aux s' []
      else split_ids_aux s' (c :: cur)
  end.

Definition split_ids (s : string) : list string :=
  map string_of_list_ascii (split_ids_aux (list_ascii_of_string s) []).

(** [str.isdigit]: non-empty and all digits. *)
Definition isdigit (s : string) : bool :=
  match list_ascii_of_string s with
  | [] => false
  | l => forallb is_digit l
  end.

(** Greedy body of a search [(?<=pre)C*(?=post)] once the lookbehind holds
    at the head of [rest]: the longest prefix of class-[C] characters
    after which [post] follows.  [n] counts down from the length of the
    maximal run. *)
Fixpoint longest_before (post rest : list ascii) (n : nat) : option (list ascii) :=
  if starts_with post (drop n rest) then Some (take n rest)
  else match n with
       | O => None
       | S n' => longest_before post rest n'
       end.

(** [re.search] for a pattern [(?<=pre)C*(?=post)]: leftmost start,
    longest body.  [seen] holds the text before the current position in
    reverse. *)
Fixpoint search_aux (pre_rev post : list ascii) (cls : ascii -> bool)
    (seen rest : list ascii) : option (list ascii) :=
  let here :=
    if starts_with pre_rev seen
    then longest_before post rest (length (take_while cls rest))
    else None in
  match here with
  | Some g => Some g
  | None =>
      match rest with
      | [] => None
      | c :: rest' => search_aux pre_rev post cls (c :: seen) rest'
      end
  end.

Definition re_search (pre : string) (cls : ascii -> bool) (post : string)
    (s : string) : option string :=
  string_of_list_ascii <$>
    search_aux (rev (list_ascii_of_string pre)) (list_ascii_of_string post)
      cls [] (list_ascii_of_string s).

Definition not_lt (c : ascii) : bool := negb (Ascii.eqb c "<").
(** [.] without DOTALL: anything but a newline. *)
Definition dot (c : ascii) : bool := negb (Ascii.eqb c "010").


(** ** Dicts, Series and DataFrames *)

(** A Python [dict] with string keys, in insertion order. *)
Definition dict := list (string * value).

(** A pandas [Series]: labels and values, in order. *)
Definition Series := list (string * value).

Definition has_key {V} (k : string) (d : list (string * V)) : bool :=
  existsb (fun kv => String.eqb k (fst kv)) d.

Fixpoint dict_get {V} (k : string) (d : list (string * V)) : option V :=
  match d with
  | [] => None
  | (k', v) :: d' => if String.eqb k k' then Some v else dict_get k d'
  end.

(** [d[k] = v]: an existing key keeps its place, a new one goes last. *)
Fixpoint dict_set {V} (k : string) (v : V) (d : list (string * V)) : list (string * V) :=
  match d with
  | [] => [(k, v)]
  | (k', v') :: d' =>
      if String.eqb k k' then (k, v) :: d' else (k', v') :: dict_set k v d'
  end.

Definition dict_remove {V} (k : string) (d : list (string * V)) : list (string * V) :=
  List.filter (fun kv => negb (String.eqb k (fst kv))) d.

(** [d.pop(k)] *)
Definition dict_pop (k : string) (d : dict) : result (value * dict) :=
  match dict_get k d with
  | Some v => Ok (v, dict_remove k d)
  | None => Raise (KeyError k)
  end.

(** [d.update(d2)] *)
Definition dict_update (d d2 : dict) : dict :=
  fold_left (fun acc kv => dict_set (fst kv) (snd kv) acc) d2 d.

Definition str_in (s : string) (l : list string) : bool :=
  existsb (String.eqb s) l.

(** [series[label]] *)
Definition series_get (label : string) (s : Series) : result value :=
  match dict_get label s with
  | Some v => Ok v
  | None => Raise (KeyError label)
  end.

(** [Series.drop(labels)]: pandas raises when a label is not in the index. *)
Definition series_drop (labels : list string) (s : Series) : result Series :=
  if forallb (fun l => has_key l s) labels
  then Ok (List.filter (fun kv => negb (str_in (fst kv) labels)) s)
  else Raise (KeyError "labels not found in axis").

(** A pandas [DataFrame]: column names, and the rows with their index
    label.  A fresh frame has the labels [0, 1, ...]; [dropna] keeps the
    labels of the rows that survive. *)
Record DataFrame : Type := mkDF {
  df_columns : list string;
  df_rows : list (nat * list value)
}.

(** [pd.DataFrame(empty([n, len(columns)], dtype=str), columns=columns,
    dtype=str)]: [n] rows of empty strings. *)
Definition empty_frame (n : nat) (columns : list string) : DataFrame :=
  mkDF columns (map (fun i => (i, repeat (VStr "") (length columns))) (seq 0 n)).

(** [df.iloc[i] = d] for a dict [d]: pandas aligns the dict with the
    columns; a column without a key becomes [nan]. *)
Definition iloc_set (i : nat) (d : dict) (df : DataFrame) : result DataFrame :=
  match df_rows df !! i with
  | Some (lbl, _) =>
      Ok (mkDF (df_columns df)
               (<[i := (lbl, map (fun c => default VNaN (dict_get c d)) (df_columns df))]>
                  (df_rows df)))
  | None => Raise IndexError
  end.

(** [df.dropna()]: rows with a missing cell are removed. *)
Definition dropna (df : DataFrame) : DataFrame :=
  mkDF (df_columns df)
       (List.filter (fun r => forallb (fun v => negb (isna v)) (snd r)) (df_rows df)).

Fixpoint index_of (c : string) (cols : list string) : option nat :=
  match cols with
  | [] => None
  | c' :: cols' => if String.eqb c c' then Some O else S <$> index_of c cols'
  end.

(** [df[c]]: the column as a Series indexed by the row labels. *)
Definition frame_col (c : string) (df : DataFrame) : result (list (nat * value)) :=
  match index_of c (df_columns df) with
  | Some p => Ok (map (fun r => (fst r, nth p (snd r) VNaN)) (df_rows df))
  | None => Raise (KeyError c)
  end.

(** Elementwise [==] of pandas against a scalar: missing cells compare
    unequal to everything. *)
Definition cell_eqb (v key : value) : bool :=
  negb (isna v) && bool_decide (v = key).

(** [df.loc[df[c] == key]] *)
Definition loc_eq (c : string) (key : value) (df : DataFrame) : result DataFrame :=
  match index_of c (df_columns df) with
  | Some p =>
      Ok (mkDF (df_columns df)
               (List.filter (fun r => cell_eqb (nth p (snd r) VNaN) key) (df_rows df)))
  | None => Raise (KeyError c)
  end.

(** [df.iloc[0].to_dict()] *)
Definition iloc0_to_dict (df : DataFrame) : result dict :=
  match df_rows df with
  | r :: _ => Ok (combine (df_columns df) (snd r))
  | [] => Raise IndexError
  end.

(** [series[0]] on a Series with integer labels: a lookup by label. *)
Definition label0 (s : list (nat * value)) : result value :=
  match List.find (fun r => Nat.eqb (fst r) 0) s with
  | Some r => Ok (snd r)
  | None => Raise (KeyError "0")
  end.

(** [list(set(xs) & set(ys))].  Python leaves the order of a set open;
    the model lists the common values in the order of their first
    occurrence in [xs]. *)
Fixpoint dedup_values (l : list value) : list value :=
  match l with
  | [] => []
  | x :: l' => x :: List.filter (fun y => negb (bool_decide (y = x))) (dedup_values l')
  end.

Definition value_in (x : value) (l : list value) : bool :=
  existsb (fun y => bool_decide (x = y)) l.

Definition set_inter (xs ys : list value) : list value :=
  List.filter (fun x => value_in x ys) (dedup_values xs).

(** ** The world: store, HTTP traffic, written files *)

Definition loc := nat.

Inductive object : Type :=
  | OSeries (s : Series)
  | OFrame (df : DataFrame).

(** An output DataFrame of the main loop: its rows as dicts, the first
    being the sub-header row. *)
Definition out_frame := list dict.

(** A workbook written by [ExcelWriter]: file name, and the sheets passed
    to [to_excel] in order. *)
Definition xlsx := (string * list (string * out_frame))%type.

Record world : Type := mkWorld {
  http_log : list string;   (* URLs requested with [requests.get], oldest first *)
  store : list object;      (* mutable pandas objects, by reference *)
  files : list xlsx         (* workbooks saved, oldest first *)
}.

Record response : Type := mkResponse {
  status_code : Z;
  text : string
}.

(** What [requests.get] comes back with: a response, or an exception
    of the requests library (connection error, timeout, ...). *)
Inductive net_result : Type :=
  | Responded (resp : response)
  | Failed (msg : string).

(** An XML element of [xml.etree.ElementTree]. *)
#[warnings="-register-all"] Inductive Element : Type :=
  | Elem (tag : string) (etext : option string) (children : list Element).

Definition elem_tag (e : Element) : string := let 'Elem t _ _ := e in t.
Definition elem_text (e : Element) : option string := let 'Elem _ t _ := e in t.
Definition elem_children (e : Element) : list Element := let 'Elem _ _ c := e in c.

(** ["".join(e.itertext())]; tail text between children is not modelled. *)
Fixpoint itertext (e : Element) : string :=
  match e with
  | Elem _ t cs => default "" t +:+ String.concat "" (map itertext cs)
  end.

(** The state-and-exception monad of the script.  The world survives a
    raise: what was requested or mutated before stays so. *)
Definition M (A : Type) : Type := world -> result A * world.

Definition ret {A} (a : A) : M A := fun w => (Ok a, w).

Definition raise {A} (e : exn) : M A := fun w => (Raise e, w).

Definition bind {A B} (c : M A) (k : A -> M B) : M B :=
  fun w =>
    match c w with
    | (Ok a, w') => k a w'
    | (Raise e, w') => (Raise e, w')
    end.

Definition lift {A} (r : result A) : M A := fun w => (r, w).

Notation "x <- c ;; k" := (bind c (fun x => k))
  (at level 100, c at next level, right associativity).
Notation "x <~ c ;; k" := (rbind c (fun x => k))
  (at level 100, c at next level, right associativity).

(** A Python [assert]. *)
Definition py_assert (b : bool) (msg : string) : result unit :=
  if b then Ok tt else Raise (AssertionError msg).

(** [for x in xs: acc = body(acc, x)] *)
Fixpoint for_each {A S} (xs : list A) (body : S -> A -> M S) (acc : S) : M S :=
  match xs with
  | [] => ret acc
  | x :: xs' => acc' <- body acc x ;; for_each xs' body acc'
  end.

Definition alloc (o : object) : M loc :=
  fun w => (Ok (length (store w)),
            mkWorld (http_log w) (store w ++ [o]) (files w)).

Definition read_series (r : loc) : M Series :=
  fun w => match store w !! r with
           | Some (OSeries s) => (Ok s, w)
           | _ => (Raise DanglingReference, w)
           end.

Definition read_frame (r : loc) : M DataFrame :=
  fun w => match store w !! r with
           | Some (OFrame df) => (Ok df, w)
           | _ => (Raise DanglingReference, w)
           end.

Definition write_obj (r : loc) (o : object) : M unit :=
  fun w => (Ok tt, mkWorld (http_log w) (<[r := o]> (store w)) (files w)).

(** What [find] can come to for a search path with further steps: an
    element or [None], or one of the exceptions that ElementPath
    raises: [SyntaxError] for an invalid step or predicate, [KeyError]
    for a token that starts no step, [TypeError] for a step without a
    selector, [RuntimeError] of its tag matcher. *)
Inductive path_outcome : Type :=
  | Selected (e : option Element)
  | InvalidPath (msg : string)
  | UnknownStep (token : string)
  | NoSelector
  | ParserError (msg : string).

(** ** Global variables of the script *)

Definition ecocyc : Z := 0.
Definition hmdb : Z := 1.
Definition invalid_mids : list string := ["NA"; "multiple charge"; "neg"; "nan"].
Definition skipsheets : list string := ["Samplelist of essential"; "TFs"].

Section Script.

(** The HMDB dump parsed at import time ([hmdbroot]); what its [find]
    gives for an identifier whose text leaves the quoted string and the
    predicate of the search path ([reparsed], see [find_metabolite]);
    the network: what [requests.get] produces for a URL given the
    requests made so far; and the disk: whether writing a workbook,
    given the workbooks saved so far, goes through or raises (an
    [OSError] for a missing output directory, an exception of the Excel
    writer), with the message of the exception. *)
Variable hmdbroot : Element.
Variable reparsed : string -> path_outcome.
Variable net : list string -> string -> net_result.
Variable disk : list xlsx -> xlsx -> option string.

(** [requests.get(url)]: one request, recorded in the world. *)
Definition get (url : string) : M response :=
  fun w => (match net (http_log w) url with
            | Responded resp => Ok resp
            | Failed msg => Raise (RequestException msg)
            end,
            mkWorld (http_log w ++ [url]) (store w) (files w)).

(** [Response.raise_for_status()]: client (4xx) and server (5xx) errors
    raise [HTTPError]. *)
Definition raise_for_status (resp : response) : result unit :=
  if ((400 <=? status_code resp) && (status_code resp <? 600))%Z
  then Raise (HTTPError (status_code resp))
  else Ok tt.

(** The value of a variable holding [None] or a string. *)
Definition of_text (t : option string) : value :=
  match t with
  | Some s => VStr s
  | None => VNone
  end.

(** The value of a variable holding the outcome of [re.search]. *)
Definition of_search (m : option string) : value :=
  match m with
  | Some g => VMatch g
  | None => VNone
  end.

(** [m.group()] on the outcome of [re.search]. *)
Definition group (v : value) : result value :=
  match v with
  | VMatch g => Ok (VStr g)
  | _ => Raise TypeError
  end.

(** What ElementPath makes of the predicate [[{ns}name='mid']] into
    which [mid] is pasted.  Without an apostrophe in [mid] the quoted
    text is one token and the predicate compares the text of the [name]
    children with [mid].  With one, the quoted text ends at the first
    apostrophe.  Any token between it and the next ["]"] makes the
    predicate invalid ([SyntaxError]); white space and a ["!"] not
    followed by ["="] are no tokens.  When only such characters stand
    before the ["]"], the predicate closes there and the rest of [mid]
    is read as further path steps: the model does not parse those, and
    takes the outcome of the search from [reparsed]. *)
Fixpoint after_apostrophe (s : list ascii) : option (list ascii) :=
  match s with
  | [] => None
  | c :: s' => if Ascii.eqb c "'" then Some s' else after_apostrophe s'
  end.

Fixpoint closes_predicate (s : list ascii) : bool :=
  match s with
  | [] => false
  | c :: s' =>
      if Ascii.eqb c "]" then true
      else if is_space c then closes_predicate s'
      else if Ascii.eqb c "!" then
        match s' with
        | d :: _ => if Ascii.eqb d "=" then false else closes_predicate s'
        | [] => false
        end
      else false
  end.

Definition path_result (o : path_outcome) : result (option Element) :=
  match o with
  | Selected e => Ok e
  | InvalidPath msg => Raise (SyntaxError msg)
  | UnknownStep token => Raise (KeyError token)
  | NoSelector => Raise TypeError
  | ParserError msg => Raise (RuntimeError msg)
  end.

(** [hmdbroot.find("./{ns}metabolite/[{ns}name='mid']")]: the path is
    parsed; then the first metabolite child of the root with a [name]
    child whose text is [mid] is looked for. *)
Definition find_metabolite (xmlns mid : string) : result (option Element) :=
  match after_apostrophe (list_ascii_of_string mid) with
  | None =>
      Ok (List.find
            (fun e =>
               String.eqb (elem_tag e) (xmlns +:+ "metabolite") &&
               existsb (fun c => String.eqb (elem_tag c) (xmlns +:+ "name") &&
                                 String.eqb (itertext c) mid)
                       (elem_children e))
            (elem_children hmdbroot))
  | Some rest =>
      if closes_predicate rest then path_result (reparsed mid)
      else Raise (SyntaxError "invalid predicate")
  end.

(** [e[i]] *)
Definition child (e : Element) (i : nat) : result Element :=
  match elem_children e !! i with
  | Some c => Ok c
  | None => Raise IndexError
  end.

Definition record_dict (inchi inchikey smile : value) (mid : string) : dict :=
  [("InChI", inchi); ("InChIKey", inchikey); ("SMILES", smile);
   ("MetaboliteID", VStr mid)].

Definition hmdb_lookup (mid : string) : result dict :=
  let xmlns := "{http://www.hmdb.ca}" in
  e <~ find_metabolite xmlns mid ;;
  match e with
  | Some e =>
      c16 <~ child e 16 ;;
      let smile := of_text (elem_text c16) in
      c17 <~ child e 17 ;;
      inchi <~ match elem_text c17 with
               | Some t => Ok (VStr (string_of_list_ascii (drop 6 (list_ascii_of_string t))))
               | None => Raise TypeError
               end ;;
      c18 <~ child e 18 ;;
      let inchikey := of_text (elem_text c18) in
      Ok (record_dict inchi inchikey smile mid)
  | None => Ok (record_dict VNone VNone VNone mid)
  end.

Definition ecocyc_url (mid : string) : string :=
  "https://websvc.biocyc.org/getxml?" +:+ "ECOLI" +:+ ":" +:+ mid.

Definition ecocyc_lookup (mid : string) : M dict :=
  let url := ecocyc_url mid in
  resp <- get url ;;
  _ <- lift (raise_for_status resp) ;;
  let resp := text resp in
  let inchi := of_search (re_search "InChI=" not_lt "</inchi>" resp) in
  let inchikey := of_search (re_search "InChIKey=" dot "</inchi-key>" resp) in
  let smile := of_search (re_search "<string title='smiles'>" dot "</string>" resp) in
  if negb (value_in VNone [inchi; inchikey; smile]) then
    inchi <- lift (group inchi) ;;
    inchikey <- lift (group inchikey) ;;
    smile <- lift (group smile) ;;
    ret (record_dict inchi inchikey smile mid)
  else ret (record_dict inchi inchikey smile mid).

(** *** General functions *)

(** [d[k1] = d[k2] = ... = v]: the targets are assigned left to right. *)
Definition chain_assign (keys : list string) (v : value) (d : dict) : dict :=
  fold_left (fun acc k => dict_set k v acc) keys d.

(** The first row of the five output frames, in the order [nodata],
    [simple], [match], [multimatch], [ambiguous]. *)
Definition init_file_dfs (subheaders : Series)
    : result (out_frame * out_frame * out_frame * out_frame * out_frame) :=
  nodata <~ series_drop ["EcoCyc"; "HMDB"] subheaders ;;
  let match_ := nodata in
  let match_ := chain_assign ["InChI"; "InChIKey"] VNaN match_ in
  let match_ := chain_assign ["eMetaboliteID"; "eSMILES"] (VStr "EcoCyc") match_ in
  let match_ := chain_assign ["hMetaboliteID"; "hSMILES"] (VStr "HMDB") match_ in
  let multimatch := match_ in
  let simple := nodata in
  let simple :=
    chain_assign ["InChI"; "InChIKey"; "SMILES"; "MetaboliteID"; "Database"] VNaN simple in
  let ambiguous := nodata in
  let ambiguous :=
    chain_assign ["eMetaboliteID"; "eInChI"; "eInChIKey"; "eSMILES"] (VStr "EcoCyc") ambiguous in
  let ambiguous :=
    chain_assign ["hMetaboliteID"; "hInChI"; "hInChIKey"; "hSMILES"] (VStr "HMDB") ambiguous in
  Ok ([nodata], [simple], [match_], [multimatch], [ambiguous]).

(** [for x in xs: acc = body(acc, x)] without effects on the world. *)
Fixpoint rfor_each {A S} (xs : list A) (body : S -> A -> result S) (acc : S) : result S :=
  match xs with
  | [] => Ok acc
  | x :: xs' => acc' <~ body acc x ;; rfor_each xs' body acc'
  end.

(** [l[i]] for a list. *)
Definition list_get {A} (l : list A) (i : nat) : result A :=
  match l !! i with
  | Some x => Ok x
  | None => Raise IndexError
  end.

(** Reading the name [j] inside [getlists], outside the comprehension
    that binds it: [j] is neither a local of [getlists] (a comprehension
    has its own scope) nor a global of the module. *)
Definition load_name_j : result value := Raise (NameError "j").

(** [pieces[j]]: a list indexed by an integer gives one string, and
    iterating over a string gives its characters. *)
Definition subscript_chars (pieces : list string) (j : value) : result (list string) :=
  match j with
  | VInt z =>
      if (z <? 0)%Z then Raise IndexError
      else piece <~ list_get pieces (Z.to_nat z) ;;
           Ok (map (fun c => String c EmptyString) (list_ascii_of_string piece))
  | _ => Raise TypeError
  end.

(** [d[k]] for a dict. *)
Definition dict_item {V} (k : string) (d : list (string * V)) : result V :=
  match dict_get k d with
  | Some v => Ok v
  | None => Raise (KeyError k)
  end.

Definition getlists (excelrow : Series) : result (list string * list string) :=
  _ <~ py_assert (has_key "HMDB" excelrow && has_key "EcoCyc" excelrow)
         "DB columns not in provided row" ;;
  ids <~ rfor_each ["EcoCyc"; "HMDB"]
           (fun (ids : list (string * list string)) i =>
              (* extract metabolite strings and split *)
              cell <~ series_get i excelrow ;;
              let s := py_str cell in
              let pieces := split_ids s in
              (* throw out invalid values; the iterable is [ids[i][j]] *)
              j <~ load_name_j ;;
              iter <~ subscript_chars pieces j ;;
              Ok (dict_set i
                    (List.filter (fun j => negb (str_in j invalid_mids) && negb (isdigit j)) iter)
                    ids))
           [] ;;
  e <~ dict_item "EcoCyc" ids ;;
  h <~ dict_item "HMDB" ids ;;
  Ok (e, h).

Definition retrieve (mids : list string) (db : Z) : M DataFrame :=
  let columns := ["InChI"; "MetaboliteID"; "InChIKey"; "SMILES"] in
  _ <- lift (py_assert ((db =? hmdb)%Z || (db =? ecocyc)%Z) "Invalid database") ;;
  let df := empty_frame (length mids) columns in
  df <- for_each (seq 0 (length mids))
          (fun df i =>
             mid <- lift (list_get mids i) ;;
             rec <- (if (db =? ecocyc)%Z then ecocyc_lookup mid
                     else lift (hmdb_lookup mid)) ;;
             lift (iloc_set i rec df))
          df ;;
  ret (dropna df).

Definition getmatches (einfo hinfo : DataFrame) : result (option DataFrame) :=
  let columns :=
    ["InChI"; "InChIKey"; "hSMILES"; "eSMILES"; "eMetaboliteID"; "hMetaboliteID"] in
  ekeys <~ frame_col "InChIKey" einfo ;;
  hkeys <~ frame_col "InChIKey" hinfo ;;
  let matchkeys := set_inter (map snd ekeys) (map snd hkeys) in
  let df := if (length matchkeys =? 0)%nat then None
            else Some (empty_frame (length matchkeys) columns) in
  rfor_each (seq 0 (length matchkeys))
    (fun df i =>
       key <~ list_get matchkeys i ;;
       hsel <~ loc_eq "InChIKey" key hinfo ;;
       d <~ iloc0_to_dict hsel ;;
       p <~ dict_pop "MetaboliteID" d ;;
       let d := dict_set "hMetaboliteID" (fst p) (snd p) in
       p <~ dict_pop "SMILES" d ;;
       let d := dict_set "hSMILES" (fst p) (snd p) in
       esel <~ loc_eq "InChIKey" key einfo ;;
       col <~ frame_col "MetaboliteID" esel ;;
       v <~ label0 col ;;
       let d := dict_set "eMetaboliteID" v d in
       esel <~ loc_eq "InChIKey" key einfo ;;
       col <~ frame_col "SMILES" esel ;;
       v <~ label0 col ;;
       let d := dict_set "eSMILES" v d in
       match df with
       | Some f => f' <~ iloc_set i d f ;; Ok (Some f')
       | None => Raise TypeError
       end)
    df.

(** *** Row building functions *)

Definition str_of (v : value) : result string :=
  match v with
  | VStr s => Ok s
  | _ => Raise TypeError
  end.

Fixpoint strs_of (l : list value) : result (list string) :=
  match l with
  | [] => Ok []
  | v :: l' => s <~ str_of v ;; r <~ strs_of l' ;; Ok (s :: r)
  end.

(** [sep.join(list(x))]: only strings can be joined. *)
Definition joinvalues (x : list value) : result value :=
  l <~ strs_of x ;; Ok (VStr (String.concat "|" l)).

(** The row is dropped [inplace]: the caller's Series changes. *)
Definition process_ogrow (ogrow : loc) : M dict :=
  s <- read_series ogrow ;;
  s' <- lift (series_drop ["EcoCyc"; "HMDB"] s) ;;
  _ <- write_obj ogrow (OSeries s') ;;
  ret s'.

Definition build_simplerow (ogrow minfo : loc) (db : Z) : M dict :=
  d <- process_ogrow ogrow ;;
  m <- read_frame minfo ;;
  r <- lift (iloc0_to_dict m) ;;
  let d := dict_update d r in
  let d := dict_set "Database" (VInt db) d in
  ret d.

(** [{ i : joinvalues(df[i]) for i in df }] *)
Definition joined_columns (df : DataFrame) : result dict :=
  rfor_each (df_columns df)
    (fun acc i =>
       col <~ frame_col i df ;;
       v <~ joinvalues (map snd col) ;;
       Ok (dict_set i v acc))
    [].

(** Assigning to [ambig_df.columns] renames the caller's frame. *)
Definition getdict_ambiguousinfo (ambig_df : loc) (db : Z) : M dict :=
  _ <- lift (py_assert ((db =? ecocyc)%Z || (db =? hmdb)%Z) "Invalid database") ;;
  let prefix := if (db =? ecocyc)%Z then "e" else "h" in
  df <- read_frame ambig_df ;;
  let df := mkDF (map (fun i => prefix +:+ i) (df_columns df)) (df_rows df) in
  _ <- write_obj ambig_df (OFrame df) ;;
  lift (joined_columns df).

Definition build_ambiguousrow (ogrow minfo1 : loc) (db1 : Z)
    (minfo2 : option loc) (db2 : option Z) : M dict :=
  d <- process_ogrow ogrow ;;
  r <- getdict_ambiguousinfo minfo1 db1 ;;
  let d := dict_update d r in
  match minfo2, db2 with
  | Some minfo2, Some db2 =>
      r <- getdict_ambiguousinfo minfo2 db2 ;;
      ret (dict_update d r)
  | _, _ => ret d
  end.

Definition build_matchrow (ogrow : loc) (match_ : DataFrame) : M dict :=
  d <- process_ogrow ogrow ;;
  r <- lift (joined_columns match_) ;;
  ret (dict_update d r).

(** *** The main program *)

(** The five frames a sheet is sorted into. *)
Record outs : Type := mkOuts {
  nodata_df : out_frame;
  simple_df : out_frame;
  match_df : out_frame;
  multimatch_df : out_frame;
  ambiguous_df : out_frame
}.

(** An element of the tuple built in the single-database branch. *)
Inductive pyobj : Type :=
  | PList (l : list string)
  | PInt (z : Z).

(** [a, b = t] *)
Definition unpack2 (t : list pyobj) : result (pyobj * pyobj) :=
  match t with
  | [a; b] => Ok (a, b)
  | _ :: _ :: _ :: _ => Raise (ValueError "too many values to unpack (expected 2)")
  | _ => Raise (ValueError "not enough values to unpack")
  end.

Definition as_mids (o : pyobj) : result (list string) :=
  match o with
  | PList l => Ok l
  | PInt _ => Raise TypeError
  end.

Definition as_tag (o : pyobj) : result Z :=
  match o with
  | PInt z => Ok z
  | PList _ => Raise (AssertionError "Invalid database")
  end.

(** The body of the row loop once [getlists] has returned [emids] and
    [hmids]. *)
Definition row_body (row : loc) (emids hmids : list string) (o : outs) : M outs :=
  (* skip rows lacking valid entries *)
  if (length emids =? 0)%nat && (length hmids =? 0)%nat then
    rowdict <- process_ogrow row ;;
    ret (mkOuts (nodata_df o ++ [rowdict]) (simple_df o) (match_df o)
                (multimatch_df o) (ambiguous_df o))
  (* if only one database is empty, get info *)
  else if (length emids =? 0)%nat || (length hmids =? 0)%nat then
    p <- lift (unpack2 [PList hmids;
                        (if (length emids =? 0)%nat then PInt hmdb else PList emids);
                        PInt ecocyc]) ;;
    ids <- lift (as_mids (fst p)) ;;
    database <- lift (as_tag (snd p)) ;;
    info <- retrieve ids database ;;
    info_ref <- alloc (OFrame info) ;;
    if (length (df_rows info) =? 1)%nat then
      rowdict <- build_simplerow row info_ref database ;;
      ret (mkOuts (nodata_df o) (simple_df o ++ [rowdict]) (match_df o)
                  (multimatch_df o) (ambiguous_df o))
    else
      rowdict <- build_ambiguousrow row info_ref database None None ;;
      ret (mkOuts (nodata_df o) (simple_df o) (match_df o)
                  (multimatch_df o) (ambiguous_df o ++ [rowdict]))
  (* if both databases have entries, get info for both *)
  else
    einfo <- retrieve emids ecocyc ;;
    ecocycinfo <- alloc (OFrame einfo) ;;
    hinfo <- retrieve hmids hmdb ;;
    hmdbinfo <- alloc (OFrame hinfo) ;;
    matches <- lift (getmatches einfo hinfo) ;;
    o <- match matches with
         | Some m =>
             rowdict <- build_matchrow row m ;;
             if (length (df_rows m) =? 1)%nat then
               ret (mkOuts (nodata_df o) (simple_df o) (match_df o ++ [rowdict])
                           (multimatch_df o) (ambiguous_df o))
             else
               ret (mkOuts (nodata_df o) (simple_df o) (match_df o)
                           (multimatch_df o ++ [rowdict]) (ambiguous_df o))
         | None => ret o
         end ;;
    (* whether or not any matches, add to ambiguous_df *)
    rowdict <- build_ambiguousrow row ecocycinfo ecocyc (Some hmdbinfo) (Some hmdb) ;;
    ret (mkOuts (nodata_df o) (simple_df o) (match_df o)
                (multimatch_df o) (ambiguous_df o ++ [rowdict])).

(** One pass of the row loop: [row] is the Series [sheet.iloc[i]]. *)
Definition process_row (row : loc) (o : outs) : M outs :=
  excelrow <- read_series row ;;
  ids <- lift (getlists excelrow) ;;
  row_body row (fst ids) (snd ids) o.

(** [sheet[cols]] *)
Definition select_columns (cols : list string) (sheet : DataFrame) : DataFrame :=
  mkDF cols
       (map (fun r => (fst r,
                       map (fun c => nth (default 0 (index_of c (df_columns sheet))) (snd r) VNaN)
                           cols))
            (df_rows sheet)).

(** [sheet.iloc[i]]: a new Series with the columns as labels. *)
Definition frame_iloc (i : nat) (sheet : DataFrame) : result Series :=
  match df_rows sheet !! i with
  | Some r => Ok (combine (df_columns sheet) (snd r))
  | None => Raise IndexError
  end.

(** [fdict]: for each output file name the [(sheetname, df)] tuples. *)
Definition fdict_t := list (string * list (string * out_frame)).

Definition fdict_append (name : string) (x : string * out_frame) (fdict : fdict_t)
    : fdict_t :=
  map (fun kv => if String.eqb (fst kv) name then (fst kv, snd kv ++ [x]) else kv) fdict.

(** The body of the sheet loop; [sheet0] is [data.parse(sheetname)]. *)
Definition process_sheet (fdict : fdict_t) (tab : string * DataFrame) : M fdict_t :=
  let sheetname := fst tab in
  if str_in sheetname skipsheets then ret fdict
  else
    let sheet := snd tab in
    let cols :=
      List.filter (fun i => negb (String.eqb (substring 0 7 i) "Unnamed"))
                  (df_columns sheet) in
    let sheet := select_columns cols sheet in
    _ <- lift (py_assert (str_in "EcoCyc" (df_columns sheet) &&
                          str_in "HMDB" (df_columns sheet))
                 "Sheet lacks EcoCyc and HMDB columns") ;;
    subheaders <- lift (frame_iloc 0 sheet) ;;
    dfs <- lift (init_file_dfs subheaders) ;;
    let '(nodata, simple, match_, multimatch, ambiguous) := dfs in
    o <- for_each (seq 1 (length (df_rows sheet) - 1))
           (fun o i =>
              r <- lift (frame_iloc i sheet) ;;
              row <- alloc (OSeries r) ;;
              process_row row o)
           (mkOuts nodata simple match_ multimatch ambiguous) ;;
    let fdict := fdict_append "nodata" (sheetname, nodata_df o) fdict in
    let fdict := fdict_append "simple" (sheetname, simple_df o) fdict in
    let fdict := fdict_append "match" (sheetname, match_df o) fdict in
    let fdict := fdict_append "multimatch" (sheetname, multimatch_df o) fdict in
    let fdict := fdict_append "ambiguous" (sheetname, ambiguous_df o) fdict in
    ret fdict.

(** [writer = ExcelWriter(fname); df.to_excel(writer, ...) ...;
    writer.save()]: when nothing raises, the workbook is on disk with
    the sheets written; when something raises, this workbook is not
    saved and the ones saved before stay. *)
Definition write_workbook (fname : string) (tuplelist : list (string * out_frame))
    : M unit :=
  fun w =>
    match disk (files w) (fname, tuplelist) with
    | None => (Ok tt, mkWorld (http_log w) (store w) (files w ++ [(fname, tuplelist)]))
    | Some msg => (Raise (WriteError msg), w)
    end.

(** The script, for the parsed input workbook [data] (its sheets in
    the order of [sheet_names]) and the [--outdir] argument. *)
Definition main (data : list (string * DataFrame)) (outdir : string) : M unit :=
  let fdict : fdict_t :=
    [("nodata", []); ("simple", []); ("match", []); ("multimatch", []);
     ("ambiguous", [])] in
  fdict <- for_each data process_sheet fdict ;;
  for_each fdict
    (fun _ item =>
       let fname := outdir +:+ "/" +:+ fst item +:+ ".xlsx" in
       write_workbook fname (snd item))
    tt.

End Script.

(** ** Sample data

    A small HMDB dump, a small EcoCyc service and a few spreadsheet
    rows, used to run the definitions above. *)

Module Sample.

Definition ns : string := "{http://www.hmdb.ca}".

(** A metabolite element with [name] second and SMILES, InChI and
    InChIKey at positions 16, 17 and 18. *)
Definition metabolite (name smiles inchi key : string) : Element :=
  Elem (ns +:+ "metabolite") None
    ([Elem (ns +:+ "accession") (Some "HMDB00001") [];
      Elem (ns +:+ "name") (Some name) []]
     ++ repeat (Elem (ns +:+ "filler") None []) 14
     ++ [Elem (ns +:+ "smiles") (Some smiles) [];
         Elem (ns +:+ "inchi") (Some ("InChI=" +:+ inchi)) [];
         Elem (ns +:+ "inchikey") (Some key) []]).

Definition hmdbroot : Element :=
  Elem (ns +:+ "hmdb") None
    [metabolite "ethanol" "CCO" "1S/C2H6O" "LFQSCWFLJHTTHZ";
     metabolite "methane" "C" "1S/CH4" "VNWKTOKETHGBQD"].

Definition compound_xml (inchi key smiles : string) : string :=
  "<inchi>InChI=" +:+ inchi +:+ "</inchi><inchi-key>InChIKey=" +:+ key
  +:+ "</inchi-key><string title='smiles'>" +:+ smiles +:+ "</string>".

(** EcoCyc knows METHANE and ETOH in full, WATER without a SMILES
    string, and answers 404 for everything else. *)
Definition net (history : list string) (url : string) : net_result :=
  if String.eqb url (ecocyc_url "METHANE") then
    Responded (mkResponse 200 (compound_xml "1S/CH4" "VNWKTOKETHGBQD" "C"))
  else if String.eqb url (ecocyc_url "ETOH") then
    Responded (mkResponse 200 (compound_xml "1S/C2H6O" "LFQSCWFLJHTTHZ" "CCO"))
  else if String.eqb url (ecocyc_url "WATER") then
    Responded (mkResponse 200 "<inchi>InChI=1S/H2O/h1H2</inchi>")
  else Responded (mkResponse 404 "").

(** The one identifier of this kind that is tried: the predicate closes
    after [a'], and the rest is the token ["]"]. *)
Definition reparsed (mid : string) : path_outcome := UnknownStep "]".

(** A disk that takes every workbook, and one without the output
    directory. *)
Definition disk (saved : list xlsx) (book : xlsx) : option string := None.


(** A disk that is full once two workbooks are saved. *)
Definition disk_full (saved : list xlsx) (book : xlsx) : option string :=
  if (length saved <? 2)%nat then None else Some "No space left on device".

Definition w0 : world := mkWorld [] [] [].

Definition no_outs : outs := mkOuts [] [] [] [] [].

Definition row1 : Series :=
  [("Name", VStr "methane"); ("EcoCyc", VStr "METHANE"); ("HMDB", VStr "methane")].

(** A world whose store holds [row1] at reference 0. *)
Definition w_row1 : world := mkWorld [] [OSeries row1] [].

Definition columns : list string := ["InChI"; "MetaboliteID"; "InChIKey"; "SMILES"].

(** What [retrieve] gives for the EcoCyc ids ETOH and METHANE ... *)
Definition einfo : DataFrame :=
  mkDF columns
    [(0, [VStr "1S/C2H6O"; VStr "ETOH"; VStr "LFQSCWFLJHTTHZ"; VStr "CCO"]);
     (1, [VStr "1S/CH4"; VStr "METHANE"; VStr "VNWKTOKETHGBQD"; VStr "C"])].

(** ... and for the HMDB id methane. *)
Definition hinfo : DataFrame :=
  mkDF columns
    [(0, [VStr "1S/CH4"; VStr "methane"; VStr "VNWKTOKETHGBQD"; VStr "C"])].

(** A sheet with its sub-header row only, and one with a data row. *)
Definition sheet_headers : DataFrame :=
  mkDF ["Name"; "EcoCyc"; "Unnamed: 2"; "HMDB"]
    [(0, [VStr "name"; VStr "ecocyc id"; VNaN; VStr "hmdb id"])].

Definition sheet_one_row : DataFrame :=
  mkDF ["Name"; "EcoCyc"; "Unnamed: 2"; "HMDB"]
    [(0, [VStr "name"; VStr "ecocyc id"; VNaN; VStr "hmdb id"]);
     (1, [VStr "methane"; VStr "METHANE"; VNaN; VStr "methane"])].

Definition workbook : list (string * DataFrame) :=
  [("TFs", sheet_one_row); ("Metabolites", sheet_headers)].

End Sample.

(** ** Notions used in the statements *)

(** What the docstring of [getlists] and the comments in its body
    describe for one cell: convert to a string, split, throw out the
    invalid values. *)
Definition described_ids (cell : value) : list string :=
  List.filter (fun j => negb (str_in j invalid_mids) && negb (isdigit j))
              (split_ids (py_str cell)).

Definition log_request (url : string) (w : world) : world :=
  mkWorld (http_log w ++ [url]) (store w) (files w).

Definition error_status (resp : response) : bool :=
  ((400 <=? status_code resp) && (status_code resp <? 600))%Z.

(** The three searches of [ecocyc_lookup] on a response text. *)
Definition found_inchi (t : string) : option string :=
  re_search "InChI=" not_lt "</inchi>" t.
Definition found_inchikey (t : string) : option string :=
  re_search "InChIKey=" dot "</inchi-key>" t.
Definition found_smiles (t : string) : option string :=
  re_search "<string title='smiles'>" dot "</string>" t.

(** The record built from a response text: strings when all three are
    found, otherwise whatever the searches gave. *)
Definition ecocyc_record (t mid : string) : dict :=
  match found_inchi t, found_inchikey t, found_smiles t with
  | Some i, Some k, Some s => record_dict (VStr i) (VStr k) (VStr s) mid
  | i, k, s => record_dict (of_search i) (of_search k) (of_search s) mid
  end.

(** The exception with which the EcoCyc lookup of [mid] stops when the
    requests made so far are [log]: that of the request, or that of the
    status check; [None] when the lookup goes through. *)
Definition lookup_fails (net : list string -> string -> net_result) (log : list string)
    (mid : string) : option exn :=
  match net log (ecocyc_url mid) with
  | Failed msg => Some (RequestException msg)
  | Responded resp =>
      if error_status resp then Some (HTTPError (status_code resp)) else None
  end.



Definition valid_db (db : Z) : bool := ((db =? ecocyc) || (db =? hmdb))%Z.

(** The lookup [retrieve] makes for one identifier, and the lookups for
    a list of identifiers, one after the other. *)
Definition lookup_one (hmdbroot : Element) (reparsed : string -> path_outcome)
    (net : list string -> string -> net_result) (db : Z) (mid : string) : M dict :=
  if (db =? ecocyc)%Z then ecocyc_lookup net mid else lift (hmdb_lookup hmdbroot reparsed mid).

Fixpoint lookup_all (hmdbroot : Element) (reparsed : string -> path_outcome)
    (net : list string -> string -> net_result) (db : Z) (mids : list string) : M (list dict) :=
  match mids with
  | [] => ret []
  | mid :: mids' =>
      rec <- lookup_one hmdbroot reparsed net db mid ;;
      recs <- lookup_all hmdbroot reparsed net db mids' ;;
      ret (rec :: recs)
  end.

Definition retrieve_columns : list string :=
  ["InChI"; "MetaboliteID"; "InChIKey"; "SMILES"].

(** A lookup record laid out along the columns of [retrieve]. *)
Definition record_row (d : dict) : list value :=
  map (fun c => default VNaN (dict_get c d)) retrieve_columns.

(** The frame holding record [i] in the row labelled [i]. *)
Definition frame_of_records (recs : list dict) : DataFrame :=
  mkDF retrieve_columns (imap (fun i d => (i, record_row d)) recs).

(** A row of a fresh frame of [retrieve]. *)
Definition blank_row (i : nat) : nat * list value :=
  (i, repeat (VStr "") (length retrieve_columns)).

(** No cell of the row is [None] or [nan]. *)
Definition complete (cells : list value) : bool :=
  forallb (fun v => negb (isna v)) cells.

(** The row without its two database columns, all else in place. *)
Definition without_db_labels (s : Series) : Series :=
  List.filter (fun kv => negb (str_in (fst kv) ["EcoCyc"; "HMDB"])) s.

Definition db_prefix (db : Z) : string := if (db =? ecocyc)%Z then "e" else "h".

(** The frame with every column name prefixed, rows untouched. *)
Definition prefixed (p : string) (df : DataFrame) : DataFrame :=
  mkDF (map (fun c => p +:+ c) (df_columns df)) (df_rows df).

(** The world with the object at reference [r] replaced. *)
Definition set_object (r : loc) (o : object) (w : world) : world :=
  mkWorld (http_log w) (<[r := o]> (store w)) (files w).

(** The key columns of two frames share no value. *)
Definition disjoint_keys (einfo hinfo : DataFrame) : Prop :=
  exists ekeys hkeys,
    frame_col "InChIKey" einfo = Ok ekeys /\
    frame_col "InChIKey" hinfo = Ok hkeys /\
    set_inter (map snd ekeys) (map snd hkeys) = [].

(** The five outcome categories and their frames. *)
Inductive category : Type := Nodata | Simple | Match | Multimatch | Ambiguous.

Definition frame_of (c : category) (o : outs) : out_frame :=
  match c with
  | Nodata => nodata_df o
  | Simple => simple_df o
  | Match => match_df o
  | Multimatch => multimatch_df o
  | Ambiguous => ambiguous_df o
  end.

(** One row was appended to the frame of category [c]. *)
Definition appended_to (c : category) (o o' : outs) : Prop :=
  exists rowdict, frame_of c o' = frame_of c o ++ [rowdict].

(** The row went to the categories [cs] and to no other. *)
Definition assigned_to (cs : list category) (o o' : outs) : Prop :=
  forall c, (In c cs -> appended_to c o o') /\
            (~ In c cs -> frame_of c o' = frame_of c o).

Definition file_names (outdir : string) : list string :=
  map (fun name => outdir +:+ "/" +:+ name +:+ ".xlsx")
      ["nodata"; "simple"; "match"; "multimatch"; "ambiguous"].

(** The workbooks that the write loop is to save for [fdict], in its
    order. *)
Definition planned_workbooks (outdir : string) (fdict : fdict_t) : list xlsx :=
  map (fun item => (outdir +:+ "/" +:+ fst item +:+ ".xlsx", snd item)) fdict.

(** The names of the sheets that the sheet loop does not skip. *)
Definition kept_sheets (data : list (string * DataFrame)) : list string :=
  List.filter (fun n => negb (str_in n skipsheets)) (map fst data).

(** The sheet names held in each list of [fdict]. *)
Definition sheet_names (fdict : fdict_t) : list (string * list string) :=
  map (fun kv => (fst kv, map fst (snd kv))) fdict.

Definition five_names : list string :=
  ["nodata"; "simple"; "match"; "multimatch"; "ambiguous"].

(** The value is a Python string. *)
Definition is_string (v : value) : Prop := exists s, v = VStr s.

(** The world with a list of URLs added to the log of requests. *)
Definition log_requests (urls : list string) (w : world) : world :=
  mkWorld (http_log w ++ urls) (store w) (files w).

(** The columns of a sheet that the sheet loop keeps. *)
Definition kept_columns (sheet : DataFrame) : list string :=
  List.filter (fun i => negb (String.eqb (substring 0 7 i) "Unnamed")) (df_columns sheet).

(** The sheet has the two database columns. *)
Definition has_db_columns (sheet : DataFrame) : bool :=
  str_in "EcoCyc" (df_columns sheet) && str_in "HMDB" (df_columns sheet).

(** The Series that the row loop gets for the row [r] of a sheet. *)
Definition row_series (sheet : DataFrame) (r : nat * list value) : Series :=
  combine (kept_columns sheet)
          (map (fun c => nth (default 0 (index_of c (df_columns sheet))) (snd r) VNaN)
               (kept_columns sheet)).

(** The sheets on which the sheet loop does not raise: the skipped ones,
    and those with both database columns and the sub-header row only. *)
Definition sheet_completes (tab : string * DataFrame) : bool :=
  str_in (fst tab) skipsheets ||
  (has_db_columns (snd tab) && (length (df_rows (snd tab)) =? 1)%nat).

(** The five frames of a sheet of which only the sub-header row is
    processed: what [init_file_dfs] makes of that row. *)
Definition header_frames (sheet : DataFrame) : outs :=
  match df_rows sheet with
  | r0 :: _ =>
      match init_file_dfs (row_series sheet r0) with
      | Ok (nodata, simple, match_, multimatch, ambiguous) =>
          mkOuts nodata simple match_ multimatch ambiguous
      | Raise _ => mkOuts [] [] [] [] []
      end
  | [] => mkOuts [] [] [] [] []
  end.

(** [fdict] after such a sheet: unchanged for a skipped sheet, else with
    the sheet's five frames appended under the sheet's name. *)
Definition with_sheet (fdict : fdict_t) (tab : string * DataFrame) : fdict_t :=
  if str_in (fst tab) skipsheets then fdict
  else
    let o := header_frames (snd tab) in
    fdict_append "ambiguous" (fst tab, ambiguous_df o)
      (fdict_append "multimatch" (fst tab, multimatch_df o)
         (fdict_append "match" (fst tab, match_df o)
            (fdict_append "simple" (fst tab, simple_df o)
               (fdict_append "nodata" (fst tab, nodata_df o) fdict)))).

Definition empty_fdict : fdict_t :=
  [("nodata", []); ("simple", []); ("match", []); ("multimatch", []);
   ("ambiguous", [])].

(** [fdict] after the sheet loop over a workbook of such sheets. *)
Definition header_books (data : list (string * DataFrame)) : fdict_t :=
  fold_left with_sheet data empty_fdict.


(** A character that is neither [";"] nor ["/"]. *)
Definition plain (c : ascii) : bool := negb (Ascii.eqb c ";") && negb (Ascii.eqb c "/").

(** ** Proof steps for the two monads *)

Lemma bind_run {A B} (c : M A) (k : A -> M B) (w : world) :
  bind c k w = match c w with
               | (Ok a, w') => k a w'
               | (Raise e, w') => (Raise e, w')
               end.
Proof. reflexivity. Qed.

Lemma lift_run {A} (r : result A) (w : world) : lift r w = (r, w).
Proof. reflexivity. Qed.

(** A run of [rbind]s that ended in [Ok]: every step was [Ok]. *)
Ltac rbind_ok H :=
  repeat match type of H with
         | rbind ?c _ = Ok _ =>
             let E := fresh "E" in
             destruct c eqn:E; cbn [rbind] in H; [|discriminate H]
         end.

(** One [bind] of a run that ended in [Ok]: its first part was [Ok]. *)
Ltac step_as H E :=
  rewrite bind_run in H;
  match type of H with
  | (let (_, _) := ?c in _) = _ =>
      destruct c as [[?|?] ?] eqn:E; [|discriminate H]
  end.

Ltac step H := let E := fresh "E" in step_as H E.


(** Settles [assigned_to] for explicit categories and frames. *)
Ltac solve_assigned :=
  let c := fresh "c" in
  let Hc := fresh "Hc" in
  intros c; split; intros Hc; destruct c; cbn in *;
  first [ eexists; reflexivity
        | reflexivity
        | exfalso; intuition congruence ].
(** * Properties *)

(** ** Dicts and Series *)

Lemma has_key_dict_get {V} (k : string) (d : list (string * V)) :
  has_key k d = true <-> exists v, dict_get k d = Some v.
Proof.
  induction d as [|[k' v'] d IH]; simpl.
  - split; [discriminate | intros [v Hv]; discriminate].
  - destruct (String.eqb k k'); simpl.
    + split; eauto.
    + exact IH.
Qed.

Lemma has_key_false_dict_get {V} (k : string) (d : list (string * V)) :
  has_key k d = false -> dict_get k d = None.
Proof.
  intros Hk. destruct (dict_get k d) eqn:E; [|reflexivity].
  assert (has_key k d = true) by (apply has_key_dict_get; eauto). congruence.
Qed.

(** ** getlists *)

(** With both columns present the assertion passes and the first pass of
    the loop reads the unbound name [j]. *)
Lemma getlists_unbound_j (excelrow : Series) :
  has_key "HMDB" excelrow = true ->
  has_key "EcoCyc" excelrow = true ->
  getlists excelrow = Raise (NameError "j").
Proof.
  intros Hh He. unfold getlists. rewrite Hh, He. simpl.
  apply has_key_dict_get in He as [v Hv].
  unfold series_get. rewrite Hv. reflexivity.
Qed.

Lemma getlists_missing_column (excelrow : Series) :
  has_key "HMDB" excelrow && has_key "EcoCyc" excelrow = false ->
  getlists excelrow = Raise (AssertionError "DB columns not in provided row").
Proof. intros H. unfold getlists. rewrite H. reflexivity. Qed.

(** C2 (defect of the code): for every row whose [EcoCyc] and [HMDB]
    cells are present, [getlists] does not return the two lists of
    identifiers that its docstring promises; it raises [NameError],
    because the iterable of its list comprehension is [ids[i][j]]. *)
Theorem C2_getlists_raises_name_error (excelrow : Series) (e h : value) :
  dict_get "EcoCyc" excelrow = Some e ->
  dict_get "HMDB" excelrow = Some h ->
  getlists excelrow = Raise (NameError "j") /\
  getlists excelrow <> Ok (described_ids e, described_ids h).
Proof.
  intros He Hh.
  assert (getlists excelrow = Raise (NameError "j")) as ->.
  { apply getlists_unbound_j; apply has_key_dict_get; eauto. }
  split; [reflexivity | discriminate].
Qed.

Lemma C2_getlists_raises_name_error_witness :
  getlists Sample.row1 = Raise (NameError "j") /\
  getlists Sample.row1 <> Ok (described_ids (VStr "METHANE"), described_ids (VStr "methane")).
Proof.
  apply (C2_getlists_raises_name_error Sample.row1 (VStr "METHANE") (VStr "methane"));
    reflexivity.
Defined.

(** ** ecocyc_lookup *)

Lemma ecocyc_lookup_run net (mid : string) (w : world) :
  ecocyc_lookup net mid w =
  (match net (http_log w) (ecocyc_url mid) with
   | Failed msg => Raise (RequestException msg)
   | Responded resp =>
       if error_status resp then Raise (HTTPError (status_code resp))
       else Ok (ecocyc_record (text resp) mid)
   end,
   log_request (ecocyc_url mid) w).
Proof.
  unfold ecocyc_lookup, bind, get, lift, raise_for_status, error_status, log_request.
  destruct (net (http_log w) (ecocyc_url mid)) as [resp|msg]; [|reflexivity].
  destruct ((400 <=? status_code resp)%Z && (status_code resp <? 600)%Z); [reflexivity|].
  unfold ecocyc_record, found_inchi, found_inchikey, found_smiles.
  destruct (re_search "InChI=" not_lt "</inchi>" (text resp));
    destruct (re_search "InChIKey=" dot "</inchi-key>" (text resp));
    destruct (re_search "<string title='smiles'>" dot "</string>" (text resp));
    reflexivity.
Qed.

(** C7: for every metabolite ID and every state of the network,
    [ecocyc_lookup] makes exactly one GET, to the EcoCyc URL of that ID,
    and touches nothing else; when the response carries an error status
    (4xx or 5xx) the call raises [HTTPError], and when the request
    itself fails that exception is passed on: there is no second
    request and no recovery. *)
Theorem C7_ecocyc_lookup_one_get net (mid : string) (w : world) :
  snd (ecocyc_lookup net mid w) = log_request (ecocyc_url mid) w /\
  (forall resp,
     net (http_log w) (ecocyc_url mid) = Responded resp ->
     (400 <= status_code resp < 600)%Z ->
     fst (ecocyc_lookup net mid w) = Raise (HTTPError (status_code resp))) /\
  (forall msg,
     net (http_log w) (ecocyc_url mid) = Failed msg ->
     fst (ecocyc_lookup net mid w) = Raise (RequestException msg)).
Proof.
  rewrite ecocyc_lookup_run. simpl. split; [reflexivity|]. split.
  - intros resp -> [Hlo Hhi]. unfold error_status.
    apply Z.leb_le in Hlo. apply Z.ltb_lt in Hhi. rewrite Hlo, Hhi. reflexivity.
  - intros msg ->. reflexivity.
Qed.

Lemma C7_ecocyc_lookup_one_get_witness :
  http_log (snd (ecocyc_lookup Sample.net "UNKNOWN" Sample.w0))
    = ["https://websvc.biocyc.org/getxml?ECOLI:UNKNOWN"] /\
  fst (ecocyc_lookup Sample.net "UNKNOWN" Sample.w0) = Raise (HTTPError 404).
Proof.
  destruct (C7_ecocyc_lookup_one_get Sample.net "UNKNOWN" Sample.w0) as (Hw & Herr & _).
  split.
  - rewrite Hw. reflexivity.
  - apply (Herr (mkResponse 404 "")); [reflexivity | simpl; lia].
Defined.

(** C9: a record returned by [ecocyc_lookup] is all-or-nothing.  When
    all three patterns are found in the response, InChI, InChIKey and
    SMILES are the matched strings; when one is absent, each of the
    three fields is [None] if its pattern was not found and the
    unconverted match object if it was.  So the three fields are plain
    strings exactly when all three patterns are found. *)
Theorem C9_ecocyc_lookup_all_or_nothing net (mid : string) (w w' : world) (d : dict) :
  ecocyc_lookup net mid w = (Ok d, w') ->
  exists resp,
    net (http_log w) (ecocyc_url mid) = Responded resp /\
    let i := found_inchi (text resp) in
    let k := found_inchikey (text resp) in
    let s := found_smiles (text resp) in
    (forall gi gk gs, i = Some gi -> k = Some gk -> s = Some gs ->
       d = record_dict (VStr gi) (VStr gk) (VStr gs) mid) /\
    (i = None \/ k = None \/ s = None ->
       d = record_dict (of_search i) (of_search k) (of_search s) mid) /\
    ((exists si sk ss,
        dict_get "InChI" d = Some (VStr si) /\
        dict_get "InChIKey" d = Some (VStr sk) /\
        dict_get "SMILES" d = Some (VStr ss))
     <-> (is_Some i /\ is_Some k /\ is_Some s)).
Proof.
  rewrite ecocyc_lookup_run. intros H.
  destruct (net (http_log w) (ecocyc_url mid)) as [resp|msg]; [|discriminate].
  destruct (error_status resp); [discriminate|].
  injection H as Hd _. exists resp. split; [reflexivity|].
  unfold ecocyc_record in Hd. cbv zeta.
  destruct (found_inchi (text resp)) as [gi|];
    destruct (found_inchikey (text resp)) as [gk|];
    destruct (found_smiles (text resp)) as [gs|]; subst d; simpl;
    (split; [intros; congruence|]);
    (split; [intros [|[|]]; congruence|]);
    (split; [intros (?&?&?&?&?&?) | intros ([? ?]&[? ?]&[? ?])]);
    try congruence.
  - repeat split; eauto.
  - eauto 10.
Qed.

Lemma C9_ecocyc_lookup_all_or_nothing_witness :
  ecocyc_lookup Sample.net "WATER" Sample.w0
  = (Ok (record_dict (VMatch "1S/H2O/h1H2") VNone VNone "WATER"),
     log_request (ecocyc_url "WATER") Sample.w0) /\
  record_dict (VMatch "1S/H2O/h1H2") VNone VNone "WATER"
  = record_dict (of_search (found_inchi "<inchi>InChI=1S/H2O/h1H2</inchi>"))
                (of_search (found_inchikey "<inchi>InChI=1S/H2O/h1H2</inchi>"))
                (of_search (found_smiles "<inchi>InChI=1S/H2O/h1H2</inchi>"))
                "WATER".
Proof.
  split; [reflexivity|].
  destruct (C9_ecocyc_lookup_all_or_nothing Sample.net "WATER" Sample.w0
              (log_request (ecocyc_url "WATER") Sample.w0)
              (record_dict (VMatch "1S/H2O/h1H2") VNone VNone "WATER") eq_refl)
    as (resp & Hnet & _ & Hpart & _).
  injection Hnet as <-. apply Hpart. right. right. reflexivity.
Defined.

(** ** retrieve *)

Lemma retrieve_invalid_db hmdbroot reparsed net (mids : list string) (db : Z) (w : world) :
  valid_db db = false ->
  retrieve hmdbroot reparsed net mids db w = (Raise (AssertionError "Invalid database"), w).
Proof.
  unfold valid_db. intros H. unfold retrieve, bind, lift.
  rewrite orb_comm, H. reflexivity.
Qed.

Lemma iloc_set_middle (cols : list string) (before after : list (nat * list value))
    (i lbl : nat) (old : list value) (d : dict) :
  length before = i ->
  iloc_set i d (mkDF cols (before ++ (lbl, old) :: after))
  = Ok (mkDF cols
          (before ++ (lbl, map (fun c => default VNaN (dict_get c d)) cols) :: after)).
Proof.
  intros <-. unfold iloc_set. cbn [df_rows df_columns].
  rewrite lookup_app_r by lia. rewrite Nat.sub_diag. cbn [lookup list_lookup].
  rewrite insert_app_r_alt by lia. rewrite Nat.sub_diag. reflexivity.
Qed.

(** The fill loop of [retrieve], started after [pre] has been looked up
    and stored in [filled]: it looks up the remaining identifiers in
    order and stores record [i] in row [i]. *)
Lemma retrieve_loop hmdbroot reparsed net (db : Z) (rest pre : list string)
    (filled : list (nat * list value)) (w : world) :
  length filled = length pre ->
  for_each (seq (length pre) (length rest))
    (fun df i =>
       mid <- lift (list_get (pre ++ rest) i) ;;
       rec <- (if (db =? ecocyc)%Z then ecocyc_lookup net mid
               else lift (hmdb_lookup hmdbroot reparsed mid)) ;;
       lift (iloc_set i rec df))
    (mkDF retrieve_columns
          (filled ++ map blank_row (seq (length pre) (length rest)))) w
  = match lookup_all hmdbroot reparsed net db rest w with
    | (Ok recs, w') =>
        (Ok (mkDF retrieve_columns
                  (filled ++ imap (fun i d => (length pre + i, record_row d)) recs)), w')
    | (Raise e, w') => (Raise e, w')
    end.
Proof.
  revert pre filled w.
  induction rest as [|mid rest IH]; intros pre filled w Hlen.
  - reflexivity.
  - cbn [length seq for_each lookup_all map].
    rewrite !bind_run. unfold lift at 1.
    assert (list_get (pre ++ mid :: rest) (length pre) = Ok mid) as ->.
    { unfold list_get. rewrite lookup_app_r by lia. rewrite Nat.sub_diag. reflexivity. }
    rewrite bind_run. unfold lookup_one at 1.
    destruct ((if (db =? ecocyc)%Z then ecocyc_lookup net mid
               else lift (hmdb_lookup hmdbroot reparsed mid)) w) as [[rec|e] w1]; [|reflexivity].
    unfold lift at 1. unfold blank_row at 1.
    rewrite iloc_set_middle by exact Hlen.
    specialize (IH (pre ++ [mid]) (filled ++ [(length pre, record_row rec)]) w1).
    rewrite !length_app in IH. cbn [length] in IH.
    rewrite <- !app_assoc in IH. cbn [app] in IH.
    replace (length pre + 1) with (S (length pre)) in IH by lia.
    specialize (IH ltac:(lia)).
    change (map (fun c => default VNaN (dict_get c rec)) retrieve_columns)
      with (record_row rec).
    rewrite IH. rewrite bind_run.
    destruct (lookup_all hmdbroot reparsed net db rest w1) as [[recs|e] w2]; [|reflexivity].
    unfold ret. cbn [imap]. rewrite Nat.add_0_r, <- app_assoc. cbn [app].
    do 5 f_equal. apply imap_ext. intros i d _. simpl. f_equal. lia.
Qed.

(** [retrieve] with a valid tag: the lookups in order, then the
    incomplete records dropped. *)
Lemma retrieve_run hmdbroot reparsed net (mids : list string) (db : Z) (w : world) :
  valid_db db = true ->
  retrieve hmdbroot reparsed net mids db w
  = match lookup_all hmdbroot reparsed net db mids w with
    | (Ok recs, w') => (Ok (dropna (frame_of_records recs)), w')
    | (Raise e, w') => (Raise e, w')
    end.
Proof.
  unfold valid_db. intros H. unfold retrieve. rewrite bind_run. unfold lift at 1.
  rewrite orb_comm, H. cbn [py_assert]. rewrite bind_run.
  pose proof (retrieve_loop hmdbroot reparsed net db mids [] [] w eq_refl) as L.
  cbn [length app] in L. unfold blank_row in L. unfold empty_frame.
  change (length ["InChI"; "MetaboliteID"; "InChIKey"; "SMILES"])
    with (length retrieve_columns).
  fold retrieve_columns. rewrite L.
  destruct (lookup_all hmdbroot reparsed net db mids w) as [[recs|e] w']; reflexivity.
Qed.

Lemma find_metabolite_not_assertion hmdbroot reparsed (xmlns mid : string) :
  is_assertion (find_metabolite hmdbroot reparsed xmlns mid) = false.
Proof.
  unfold find_metabolite.
  destruct (after_apostrophe (list_ascii_of_string mid)) as [rest|]; [|reflexivity].
  destruct (closes_predicate rest); [|reflexivity].
  destruct (reparsed mid); reflexivity.
Qed.

Lemma hmdb_lookup_not_assertion hmdbroot reparsed (mid : string) :
  is_assertion (hmdb_lookup hmdbroot reparsed mid) = false.
Proof.
  unfold hmdb_lookup.
  pose proof (find_metabolite_not_assertion hmdbroot reparsed "{http://www.hmdb.ca}" mid) as F.
  destruct (find_metabolite hmdbroot reparsed "{http://www.hmdb.ca}" mid) as [[e|]|ex];
    cbn [rbind]; [|reflexivity|exact F].
  unfold child.
  destruct (elem_children e !! 16); [|reflexivity]. cbn [rbind].
  destruct (elem_children e !! 17) as [c17|]; [|reflexivity]. cbn [rbind].
  destruct (elem_text c17); [|reflexivity]. cbn [rbind].
  destruct (elem_children e !! 18); reflexivity.
Qed.

Lemma lookup_one_not_assertion hmdbroot reparsed net (db : Z) (mid : string) (w : world) :
  is_assertion (fst (lookup_one hmdbroot reparsed net db mid w)) = false.
Proof.
  unfold lookup_one. destruct (db =? ecocyc)%Z.
  - rewrite ecocyc_lookup_run. cbn [fst].
    destruct (net (http_log w) (ecocyc_url mid)) as [resp|msg]; [|reflexivity].
    destruct (error_status resp); reflexivity.
  - apply hmdb_lookup_not_assertion.
Qed.

Lemma lookup_all_not_assertion hmdbroot reparsed net (db : Z) (mids : list string) (w : world) :
  is_assertion (fst (lookup_all hmdbroot reparsed net db mids w)) = false.
Proof.
  revert w. induction mids as [|mid mids IH]; intros w; [reflexivity|].
  cbn [lookup_all]. rewrite bind_run.
  pose proof (lookup_one_not_assertion hmdbroot reparsed net db mid w) as H1.
  destruct (lookup_one hmdbroot reparsed net db mid w) as [[rec|e] w1]; [|exact H1].
  rewrite bind_run. specialize (IH w1).
  destruct (lookup_all hmdbroot reparsed net db mids w1) as [[recs|e] w2]; [reflexivity|exact IH].
Qed.

Lemma dropna_complete (df : DataFrame) :
  Forall (fun r => complete (snd r) = true) (df_rows (dropna df)).
Proof.
  unfold dropna. cbn [df_rows]. apply List.Forall_forall. intros r Hr.
  apply List.filter_In in Hr as [_ Hr]. exact Hr.
Qed.

Lemma frame_of_records_width (recs : list dict) :
  Forall (fun r => length (snd r) = 4) (df_rows (frame_of_records recs)).
Proof.
  unfold frame_of_records. cbn [df_rows]. apply Forall_forall. intros r Hr.
  apply elem_of_lookup_imap in Hr as (i & d & -> & _). reflexivity.
Qed.

(** C8: for every list of metabolite IDs and valid database tag,
    [retrieve] performs the lookups in order and, when they all return,
    returns the frame of the lookup records from which every record
    with a missing ([None] or [nan]) field has been dropped: each row of
    the returned frame has the four columns InChI, MetaboliteID, InChIKey
    and SMILES, and none of its four cells is missing. *)
Theorem C8_retrieve_drops_incomplete hmdbroot reparsed net (mids : list string) (db : Z) (w : world) :
  db = ecocyc \/ db = hmdb ->
  (forall recs w',
     lookup_all hmdbroot reparsed net db mids w = (Ok recs, w') ->
     retrieve hmdbroot reparsed net mids db w = (Ok (dropna (frame_of_records recs)), w')) /\
  (forall df w',
     retrieve hmdbroot reparsed net mids db w = (Ok df, w') ->
     (exists recs,
        lookup_all hmdbroot reparsed net db mids w = (Ok recs, w') /\
        df_rows df =
          List.filter (fun r => complete (snd r)) (imap (fun i d => (i, record_row d)) recs)) /\
     df_columns df = ["InChI"; "MetaboliteID"; "InChIKey"; "SMILES"] /\
     Forall (fun r => length (snd r) = 4 /\ Forall (fun v => isna v = false) (snd r))
            (df_rows df)).
Proof.
  intros Hdb.
  assert (valid_db db = true) as Hv by (destruct Hdb; subst; reflexivity).
  rewrite (retrieve_run _ _ _ _ _ _ Hv). split.
  - intros recs w' ->. reflexivity.
  - intros df w' H.
    destruct (lookup_all hmdbroot reparsed net db mids w) as [[recs|e] w1]; [|discriminate].
    injection H as <- <-. split; [|split].
    + exists recs. split; reflexivity.
    + reflexivity.
    + apply Forall_forall. intros r Hr. split.
      * unfold dropna in Hr. cbn [df_rows] in Hr.
        apply list_elem_of_In, List.filter_In in Hr as [Hr _].
        pose proof (frame_of_records_width recs) as Hw.
        rewrite Forall_forall in Hw. apply Hw, list_elem_of_In, Hr.
      * pose proof (dropna_complete (frame_of_records recs)) as Hc.
        rewrite Forall_forall in Hc. specialize (Hc r Hr).
        unfold complete in Hc. rewrite forallb_forall in Hc.
        apply Forall_forall. intros v Hv'. apply list_elem_of_In in Hv'.
        specialize (Hc v Hv'). destruct (isna v); [discriminate|reflexivity].
Qed.

Lemma C8_retrieve_drops_incomplete_witness :
  (ecocyc = ecocyc \/ ecocyc = hmdb) /\
  retrieve Sample.hmdbroot Sample.reparsed Sample.net ["WATER"; "METHANE"] ecocyc Sample.w0
  = (Ok (mkDF ["InChI"; "MetaboliteID"; "InChIKey"; "SMILES"]
           [(1, [VStr "1S/CH4"; VStr "METHANE"; VStr "VNWKTOKETHGBQD"; VStr "C"])]),
     log_request (ecocyc_url "METHANE") (log_request (ecocyc_url "WATER") Sample.w0)).
Proof.
  split; [left; reflexivity|].
  apply (proj1 (C8_retrieve_drops_incomplete Sample.hmdbroot Sample.reparsed Sample.net
                  ["WATER"; "METHANE"] ecocyc Sample.w0 (or_introl eq_refl))
           [record_dict (VMatch "1S/H2O/h1H2") VNone VNone "WATER";
            record_dict (VStr "1S/CH4") (VStr "VNWKTOKETHGBQD") (VStr "C") "METHANE"]).
  reflexivity.
Defined.

(** ** The assertions *)

Lemma rfor_each_not_assertion {A S} (xs : list A) (body : S -> A -> result S) (acc : S) :
  (forall acc x, is_assertion (body acc x) = false) ->
  is_assertion (rfor_each xs body acc) = false.
Proof.
  intros Hbody. revert acc. induction xs as [|x xs IH]; intros acc; [reflexivity|].
  cbn [rfor_each]. specialize (Hbody acc x).
  destruct (body acc x) as [acc'|e]; cbn [rbind]; [apply IH | exact Hbody].
Qed.

Lemma joined_columns_not_assertion (df : DataFrame) :
  is_assertion (joined_columns df) = false.
Proof.
  unfold joined_columns. apply rfor_each_not_assertion. intros acc c.
  unfold frame_col. destruct (index_of c (df_columns df)); [|reflexivity].
  cbn [rbind]. unfold joinvalues.
  destruct (strs_of _) as [l|e] eqn:E; [reflexivity|]. cbn [rbind].
  assert (forall vs e', strs_of vs = Raise e' -> e' = TypeError) as Hty.
  { clear. induction vs as [|v vs IH]; intros e' H; [discriminate|].
    cbn [strs_of] in H. destruct v; try (injection H as <-; reflexivity).
    cbn [str_of rbind] in H. destruct (strs_of vs); [discriminate|].
    cbn [rbind] in H. injection H as <-. apply IH. reflexivity. }
  apply Hty in E. subst e. reflexivity.
Qed.

Lemma getdict_ambiguousinfo_invalid_db (ambig_df : loc) (db : Z) (w : world) :
  valid_db db = false ->
  getdict_ambiguousinfo ambig_df db w = (Raise (AssertionError "Invalid database"), w).
Proof.
  unfold valid_db. intros H. unfold getdict_ambiguousinfo, bind, lift.
  rewrite H. reflexivity.
Qed.

(** [getdict_ambiguousinfo] with a valid tag on a frame in the store. *)
Lemma getdict_ambiguousinfo_run (ambig_df : loc) (db : Z) (w : world) :
  valid_db db = true ->
  getdict_ambiguousinfo ambig_df db w
  = match store w !! ambig_df with
    | Some (OFrame df) =>
        (joined_columns (prefixed (db_prefix db) df),
         mkWorld (http_log w)
                 (<[ambig_df := OFrame (prefixed (db_prefix db) df)]> (store w))
                 (files w))
    | _ => (Raise DanglingReference, w)
    end.
Proof.
  unfold valid_db. intros H. unfold getdict_ambiguousinfo. rewrite bind_run.
  unfold lift at 1. rewrite H. cbn [py_assert]. rewrite bind_run.
  unfold read_frame. destruct (store w !! ambig_df) as [[s|df]|]; reflexivity.
Qed.

(** C6: the three assertions fire exactly on the inputs they guard.
    [retrieve] and [getdict_ambiguousinfo] end in [AssertionError] for
    every database tag other than [ecocyc] (0) and [hmdb] (1) and for no
    valid tag; [getlists] ends in [AssertionError] for every row that
    lacks an [EcoCyc] or [HMDB] key and for no row that has both. *)
Theorem C6_assertions_guard_tags_and_columns hmdbroot reparsed net :
  (forall mids db w,
     is_assertion (fst (retrieve hmdbroot reparsed net mids db w)) = negb (valid_db db)) /\
  (forall ambig_df db w,
     is_assertion (fst (getdict_ambiguousinfo ambig_df db w)) = negb (valid_db db)) /\
  (forall excelrow,
     is_assertion (getlists excelrow)
     = negb (has_key "HMDB" excelrow && has_key "EcoCyc" excelrow)).
Proof.
  split; [|split].
  - intros mids db w. destruct (valid_db db) eqn:Hv.
    + rewrite retrieve_run by exact Hv.
      pose proof (lookup_all_not_assertion hmdbroot reparsed net db mids w) as H.
      destruct (lookup_all hmdbroot reparsed net db mids w) as [[recs|e] w']; [reflexivity|exact H].
    + rewrite retrieve_invalid_db by exact Hv. reflexivity.
  - intros ambig_df db w. destruct (valid_db db) eqn:Hv.
    + rewrite getdict_ambiguousinfo_run by exact Hv.
      destruct (store w !! ambig_df) as [[s|df]|]; try reflexivity.
      apply joined_columns_not_assertion.
    + rewrite getdict_ambiguousinfo_invalid_db by exact Hv. reflexivity.
  - intros excelrow.
    destruct (has_key "HMDB" excelrow && has_key "EcoCyc" excelrow) eqn:Hk.
    + apply andb_prop in Hk as [Hh He]. rewrite getlists_unbound_j by assumption.
      reflexivity.
    + rewrite getlists_missing_column by exact Hk. reflexivity.
Qed.

(** ** In-place changes of the row and the info frames *)

Lemma process_ogrow_run (ogrow : loc) (w : world) :
  process_ogrow ogrow w
  = match store w !! ogrow with
    | Some (OSeries s) =>
        if has_key "EcoCyc" s && has_key "HMDB" s
        then (Ok (without_db_labels s), set_object ogrow (OSeries (without_db_labels s)) w)
        else (Raise (KeyError "labels not found in axis"), w)
    | _ => (Raise DanglingReference, w)
    end.
Proof.
  unfold process_ogrow. rewrite bind_run. unfold read_series.
  destruct (store w !! ogrow) as [[s|df]|]; try reflexivity.
  rewrite bind_run. unfold lift at 1, series_drop. cbn [forallb].
  rewrite andb_true_r.
  destruct (has_key "EcoCyc" s && has_key "HMDB" s); reflexivity.
Qed.

Lemma process_ogrow_ok (ogrow : loc) (w w' : world) (d : dict) :
  process_ogrow ogrow w = (Ok d, w') ->
  exists s,
    store w !! ogrow = Some (OSeries s) /\
    d = without_db_labels s /\
    w' = set_object ogrow (OSeries (without_db_labels s)) w.
Proof.
  rewrite process_ogrow_run. intros H.
  destruct (store w !! ogrow) as [[s|df]|]; try discriminate.
  destruct (has_key "EcoCyc" s && has_key "HMDB" s); [|discriminate].
  injection H as <- <-. eauto.
Qed.

Lemma getdict_ambiguousinfo_ok (ambig_df : loc) (db : Z) (w w' : world) (d : dict) :
  getdict_ambiguousinfo ambig_df db w = (Ok d, w') ->
  exists df,
    store w !! ambig_df = Some (OFrame df) /\
    joined_columns (prefixed (db_prefix db) df) = Ok d /\
    w' = set_object ambig_df (OFrame (prefixed (db_prefix db) df)) w.
Proof.
  destruct (valid_db db) eqn:Hv.
  - rewrite getdict_ambiguousinfo_run by exact Hv. intros H.
    destruct (store w !! ambig_df) as [[s|df]|]; try discriminate.
    injection H as H <-. eauto.
  - rewrite getdict_ambiguousinfo_invalid_db by exact Hv. discriminate.
Qed.

(** A frame found after a Series was stored elsewhere was there before. *)
Lemma insert_series_lookup_frame (st : list object) (r r' : loc) (s : Series)
    (df : DataFrame) :
  <[r := OSeries s]> st !! r' = Some (OFrame df) -> st !! r' = Some (OFrame df).
Proof.
  intros H. destruct (decide (r = r')) as [->|Hne].
  - destruct (decide (r' < length st)) as [Hlt|Hge].
    + rewrite list_lookup_insert_eq in H by exact Hlt. discriminate.
    + rewrite list_insert_ge in H by lia. exact H.
  - rewrite list_lookup_insert_ne in H by exact Hne. exact H.
Qed.

(** C10: a call of [build_ambiguousrow] that returns has changed its
    arguments in place.  The caller's row has lost its [EcoCyc] and
    [HMDB] entries and kept all others in order; the caller's first info
    frame, and the second when one is passed with its tag, has every
    column name prefixed with [e] or [h] according to the tag, its rows
    and cell values as before; no other object of the store, nothing of
    the HTTP log and no file has changed. *)
Theorem C10_build_ambiguousrow_mutates_arguments (ogrow minfo1 : loc) (db1 : Z)
    (minfo2 : option loc) (db2 : option Z) (w w' : world) (d : dict) :
  build_ambiguousrow ogrow minfo1 db1 minfo2 db2 w = (Ok d, w') ->
  exists s df1,
    store w !! ogrow = Some (OSeries s) /\
    store w !! minfo1 = Some (OFrame df1) /\
    http_log w' = http_log w /\ files w' = files w /\
    let store1 :=
      <[minfo1 := OFrame (prefixed (db_prefix db1) df1)]>
        (<[ogrow := OSeries (without_db_labels s)]> (store w)) in
    match minfo2, db2 with
    | Some m2, Some t2 =>
        exists df2,
          store1 !! m2 = Some (OFrame df2) /\
          (m2 <> minfo1 -> store w !! m2 = Some (OFrame df2)) /\
          store w' = <[m2 := OFrame (prefixed (db_prefix t2) df2)]> store1
    | _, _ => store w' = store1
    end.
Proof.
  unfold build_ambiguousrow. rewrite bind_run. intros H.
  destruct (process_ogrow ogrow w) as [[d0|e] w1] eqn:E0; [|discriminate].
  apply process_ogrow_ok in E0 as (s & Hs & -> & ->).
  rewrite bind_run in H.
  destruct (getdict_ambiguousinfo minfo1 db1 _) as [[d1|e] w2] eqn:E1; [|discriminate].
  apply getdict_ambiguousinfo_ok in E1 as (df1 & Hdf1 & _ & ->).
  cbn [store set_object] in Hdf1.
  apply insert_series_lookup_frame in Hdf1.
  exists s, df1. split; [exact Hs|]. split; [exact Hdf1|].
  destruct minfo2 as [m2|]; [destruct db2 as [t2|]|].
  - rewrite bind_run in H.
    destruct (getdict_ambiguousinfo m2 t2 _) as [[d2|e] w3] eqn:E2; [|discriminate].
    apply getdict_ambiguousinfo_ok in E2 as (df2 & Hdf2 & _ & ->).
    injection H as _ <-. cbn. split; [reflexivity|]. split; [reflexivity|].
    exists df2. split; [exact Hdf2|]. split; [|reflexivity].
    intros Hne. cbn [store set_object] in Hdf2.
    rewrite list_lookup_insert_ne in Hdf2 by congruence.
    apply insert_series_lookup_frame in Hdf2. exact Hdf2.
  - injection H as _ <-. cbn. auto.
  - injection H as _ <-. cbn. destruct db2; auto.
Qed.

Lemma C10_build_ambiguousrow_mutates_arguments_witness :
  build_ambiguousrow 0 1 ecocyc (Some 2) (Some hmdb)
    (mkWorld [] [OSeries Sample.row1; OFrame Sample.einfo; OFrame Sample.hinfo] [])
  = (Ok [("Name", VStr "methane");
         ("eInChI", VStr "1S/C2H6O|1S/CH4"); ("eMetaboliteID", VStr "ETOH|METHANE");
         ("eInChIKey", VStr "LFQSCWFLJHTTHZ|VNWKTOKETHGBQD"); ("eSMILES", VStr "CCO|C");
         ("hInChI", VStr "1S/CH4"); ("hMetaboliteID", VStr "methane");
         ("hInChIKey", VStr "VNWKTOKETHGBQD"); ("hSMILES", VStr "C")],
     mkWorld []
       [OSeries [("Name", VStr "methane")];
        OFrame (prefixed "e" Sample.einfo);
        OFrame (prefixed "h" Sample.hinfo)] []) /\
  exists s df1,
    s = Sample.row1 /\ df1 = Sample.einfo /\
    without_db_labels s = [("Name", VStr "methane")] /\
    df_rows (prefixed (db_prefix ecocyc) df1) = df_rows Sample.einfo.
Proof.
  split; [reflexivity|].
  destruct (C10_build_ambiguousrow_mutates_arguments 0 1 ecocyc (Some 2) (Some hmdb)
              (mkWorld [] [OSeries Sample.row1; OFrame Sample.einfo; OFrame Sample.hinfo] [])
              _ _ eq_refl) as (s & df1 & Hs & Hdf1 & _).
  cbn in Hs, Hdf1.
  exists s, df1. injection Hs as <-. injection Hdf1 as <-.
  repeat split; reflexivity.
Defined.

(** ** The single-database branch of the row loop *)

Lemma row_body_single_database hmdbroot reparsed net (row : loc) (emids hmids : list string)
    (o : outs) (w : world) :
  xorb (length emids =? 0)%nat (length hmids =? 0)%nat = true ->
  row_body hmdbroot reparsed net row emids hmids o w
  = (Raise (ValueError "too many values to unpack (expected 2)"), w).
Proof.
  intros H. unfold row_body.
  destruct (length emids =? 0)%nat, (length hmids =? 0)%nat; try discriminate H;
    reflexivity.
Qed.

(** C3 (defect of the code): for every row whose ID list is empty for
    exactly one of the two databases the loop body retrieves nothing and
    appends the row nowhere.  The right-hand side of
    [ids, database = (hmids, hmdb if len(emids)==0 else emids, ecocyc)]
    is a tuple of three, so the assignment raises [ValueError] before
    [retrieve] is called; the world is as it was. *)
Theorem C3_single_database_branch_raises hmdbroot reparsed net (row : loc)
    (emids hmids : list string) (o : outs) (w : world) :
  (emids = [] /\ hmids <> []) \/ (emids <> [] /\ hmids = []) ->
  row_body hmdbroot reparsed net row emids hmids o w
  = (Raise (ValueError "too many values to unpack (expected 2)"), w).
Proof.
  intros H. apply row_body_single_database.
  destruct H as [[-> Hh]|[He ->]].
  - destruct hmids; [congruence|reflexivity].
  - destruct emids; [congruence|reflexivity].
Qed.

Lemma C3_single_database_branch_raises_witness :
  (([] : list string) = [] /\ ["methane"] <> []) /\
  row_body Sample.hmdbroot Sample.reparsed Sample.net 0 [] ["methane"] Sample.no_outs Sample.w_row1
  = (Raise (ValueError "too many values to unpack (expected 2)"), Sample.w_row1).
Proof.
  split; [split; [reflexivity|discriminate]|].
  apply (C3_single_database_branch_raises Sample.hmdbroot Sample.reparsed Sample.net 0 [] ["methane"]).
  left. split; [reflexivity|discriminate].
Defined.

(** ** getmatches *)

Lemma rfor_each_invariant {A S} (P : S -> Prop) (xs : list A)
    (body : S -> A -> result S) (acc r : S) :
  (forall acc x acc', P acc -> body acc x = Ok acc' -> P acc') ->
  P acc -> rfor_each xs body acc = Ok r -> P r.
Proof.
  intros Hbody. revert acc. induction xs as [|x xs IH]; intros acc Hacc H.
  - injection H as <-. exact Hacc.
  - cbn [rfor_each] in H. destruct (body acc x) as [acc'|e] eqn:E; [|discriminate].
    cbn [rbind] in H. eapply IH; [|exact H]. eapply Hbody; eauto.
Qed.

(** [getmatches] returns [None] exactly when the two frames share no
    InChIKey. *)
Lemma getmatches_none_iff_disjoint (einfo hinfo : DataFrame) :
  getmatches einfo hinfo = Ok None <-> disjoint_keys einfo hinfo.
Proof.
  unfold getmatches, disjoint_keys. split.
  - intros H.
    destruct (frame_col "InChIKey" einfo) as [ekeys|] eqn:Ee; [|discriminate].
    destruct (frame_col "InChIKey" hinfo) as [hkeys|] eqn:Eh; [|discriminate].
    cbn [rbind] in H. exists ekeys, hkeys. split; [reflexivity|]. split; [reflexivity|].
    destruct (set_inter (map snd ekeys) (map snd hkeys)) as [|k ks] eqn:Ek; [reflexivity|].
    exfalso. cbn [length Nat.eqb] in H.
    eapply (rfor_each_invariant (fun r => r <> None)) in H; [congruence| |discriminate].
    clear. intros acc i acc' Hacc Hb. rbind_ok Hb.
    destruct acc as [f|]; [|congruence]. rbind_ok Hb. injection Hb as <-. discriminate.
  - intros (ekeys & hkeys & -> & -> & Hk). cbn [rbind]. rewrite Hk. reflexivity.
Qed.

(** C4 (defect of the code): two frames that share an InChIKey for which
    [getmatches] returns no frame at all.  The EcoCyc side is read with
    [...['MetaboliteID'][0]], a lookup of the row LABEL 0; when the
    EcoCyc row carrying the shared key is not the row labelled 0 the
    call raises [KeyError], although the key sets are not disjoint and
    the intersection has one key. *)
Theorem C4_getmatches_label_lookup_raises :
  getmatches Sample.einfo Sample.hinfo = Raise (KeyError "0") /\
  (exists ekeys hkeys,
     frame_col "InChIKey" Sample.einfo = Ok ekeys /\
     frame_col "InChIKey" Sample.hinfo = Ok hkeys /\
     set_inter (map snd ekeys) (map snd hkeys) = [VStr "VNWKTOKETHGBQD"]) /\
  ~ disjoint_keys Sample.einfo Sample.hinfo.
Proof.
  split; [reflexivity|]. split.
  - eexists _, _. repeat split; reflexivity.
  - intros (ekeys & hkeys & He & Hh & Hk).
    injection He as <-. injection Hh as <-. discriminate Hk.
Qed.

(** ** The row loop *)

(** The row loop never gets past [getlists]. *)
Lemma process_row_raises hmdbroot reparsed net (row : loc) (o : outs) (w : world) :
  exists e, process_row hmdbroot reparsed net row o w = (Raise e, w).
Proof.
  unfold process_row. rewrite bind_run. unfold read_series.
  destruct (store w !! row) as [[s|df]|]; eauto.
  rewrite bind_run. unfold lift at 1.
  destruct (has_key "HMDB" s && has_key "EcoCyc" s) eqn:Hk.
  - apply andb_prop in Hk as [Hh He]. rewrite getlists_unbound_j by assumption. eauto.
  - rewrite getlists_missing_column by exact Hk. eauto.
Qed.

(** A row with a cross-database match, past [getlists]: the row is
    dropped in place by [build_matchrow], and the second drop in
    [build_ambiguousrow] does not find the two labels any more. *)
Example matched_row_second_drop :
  fst (row_body Sample.hmdbroot Sample.reparsed Sample.net 0 ["METHANE"] ["methane"]
         Sample.no_outs Sample.w_row1)
  = Raise (KeyError "labels not found in axis").
Proof. vm_compute. reflexivity. Qed.

(** C1 (defect of the code): the row loop assigns no row to a category.
    For every row that has both identifier cells, the loop body stops in
    [getlists] with [NameError] (the unbound [j] of line 103) before any
    of the five output frames is touched: the world is as before, and
    there is no resulting state in which the row's data has been
    appended to some frame. *)
Theorem C1_row_reaches_no_category hmdbroot reparsed net (row : loc) (s : Series) (o : outs)
    (w : world) :
  store w !! row = Some (OSeries s) ->
  has_key "EcoCyc" s = true ->
  has_key "HMDB" s = true ->
  process_row hmdbroot reparsed net row o w = (Raise (NameError "j"), w) /\
  ~ (exists o' w',
       process_row hmdbroot reparsed net row o w = (Ok o', w') /\
       exists c, assigned_to [c] o o').
Proof.
  intros Hs He Hh.
  assert (process_row hmdbroot reparsed net row o w = (Raise (NameError "j"), w)) as Hr.
  { unfold process_row. rewrite bind_run. unfold read_series. rewrite Hs.
    rewrite bind_run. unfold lift at 1.
    rewrite getlists_unbound_j by assumption. reflexivity. }
  split; [exact Hr|]. intros (o' & w' & H & _). rewrite Hr in H. discriminate H.
Qed.

Lemma C1_row_reaches_no_category_witness :
  process_row Sample.hmdbroot Sample.reparsed Sample.net 0 Sample.no_outs Sample.w_row1
    = (Raise (NameError "j"), Sample.w_row1) /\
  ~ (exists o' w',
       process_row Sample.hmdbroot Sample.reparsed Sample.net 0 Sample.no_outs Sample.w_row1 = (Ok o', w') /\
       exists c, assigned_to [c] Sample.no_outs o').
Proof.
  apply (C1_row_reaches_no_category Sample.hmdbroot Sample.reparsed Sample.net 0 Sample.row1
           Sample.no_outs Sample.w_row1); reflexivity.
Defined.

Lemma length_eqb_0 {A} (l : list A) : (length l =? 0)%nat = true <-> l = [].
Proof. destruct l; cbn; split; congruence. Qed.

(** A row without valid identifiers whose database columns are still in
    place: the loop body completes and appends the rest of the row to
    [nodata]. *)
Lemma row_body_nodata hmdbroot reparsed net (row : loc) (s : Series) (o : outs) (w : world) :
  store w !! row = Some (OSeries s) ->
  has_key "EcoCyc" s && has_key "HMDB" s = true ->
  row_body hmdbroot reparsed net row [] [] o w
  = (Ok (mkOuts (nodata_df o ++ [without_db_labels s]) (simple_df o) (match_df o)
                (multimatch_df o) (ambiguous_df o)),
     set_object row (OSeries (without_db_labels s)) w).
Proof.
  intros Hs Hk. unfold row_body. cbn [length Nat.eqb andb].
  rewrite bind_run, process_ogrow_run, Hs, Hk. reflexivity.
Qed.


(** ** The sheet loop and the written workbooks *)

(** The row loop of a sheet that completes has had no row to process. *)
Lemma row_loop_ok hmdbroot reparsed net (sheet : DataFrame) (n : nat) (o o' : outs) (w w' : world) :
  for_each (seq 1 n)
    (fun o i =>
       r <- lift (frame_iloc i sheet) ;;
       row <- alloc (OSeries r) ;;
       process_row hmdbroot reparsed net row o)
    o w = (Ok o', w') ->
  n = 0 /\ o' = o /\ w' = w.
Proof.
  destruct n as [|n]; cbn [seq for_each].
  - intros H. injection H as <- <-. auto.
  - intros H. exfalso. step_as H Eb. clear H.
    step Eb. step Eb.
    match type of Eb with
    | process_row _ _ _ ?r ?o ?w = _ =>
        destruct (process_row_raises hmdbroot reparsed net r o w) as [e He]
    end.
    rewrite He in Eb. discriminate Eb.
Qed.

(** A sheet that is processed to the end leaves the world as it was and,
    unless its name is in [skipsheets], adds one tuple with its name to
    each of the five lists of [fdict]. *)
Lemma process_sheet_ok hmdbroot reparsed net (fdict fdict' : fdict_t) (tab : string * DataFrame)
    (w w' : world) :
  process_sheet hmdbroot reparsed net fdict tab w = (Ok fdict', w') ->
  w' = w /\
  if str_in (fst tab) skipsheets then fdict' = fdict
  else exists o,
      fdict' =
        fdict_append "ambiguous" (fst tab, ambiguous_df o)
          (fdict_append "multimatch" (fst tab, multimatch_df o)
             (fdict_append "match" (fst tab, match_df o)
                (fdict_append "simple" (fst tab, simple_df o)
                   (fdict_append "nodata" (fst tab, nodata_df o) fdict)))).
Proof.
  unfold process_sheet. intros H.
  destruct (str_in (fst tab) skipsheets).
  { injection H as <- <-. auto. }
  step H. step H. step H.
  match goal with E : lift (py_assert _ _) _ = _ |- _ =>
    unfold lift in E; injection E as _ <- end.
  match goal with E : lift (frame_iloc _ _) _ = _ |- _ =>
    unfold lift in E; injection E as _ <- end.
  match goal with E : lift (init_file_dfs _) _ = (Ok ?p, _) |- _ =>
    unfold lift in E; injection E as _ <-; destruct p as [[[[nd si] ma] mu] am] end.
  step_as H El. apply row_loop_ok in El as (_ & -> & ->).
  unfold ret in H. injection H as <- <-. split; [reflexivity|].
  exists (mkOuts nd si ma mu am). reflexivity.
Qed.

Lemma process_sheet_names hmdbroot reparsed net (fdict fdict' : fdict_t) (tab : string * DataFrame)
    (names : list string) (w w' : world) :
  sheet_names fdict = map (fun k => (k, names)) five_names ->
  process_sheet hmdbroot reparsed net fdict tab w = (Ok fdict', w') ->
  w' = w /\
  sheet_names fdict' = map (fun k => (k, names ++ kept_sheets [tab])) five_names.
Proof.
  intros Hn H. apply process_sheet_ok in H as [-> H]. split; [reflexivity|].
  unfold kept_sheets. cbn [map List.filter].
  destruct (str_in (fst tab) skipsheets); cbn [negb].
  - subst fdict'. rewrite app_nil_r. exact Hn.
  - destruct H as [o ->].
    destruct fdict as [|[k1 l1] [|[k2 l2] [|[k3 l3] [|[k4 l4] [|[k5 l5] [|? ?]]]]]];
      try discriminate Hn.
    cbn in Hn. injection Hn as -> H1 -> H2 -> H3 -> H4 -> H5.
    cbn. rewrite !map_app. cbn. rewrite H1, H2, H3, H4, H5. reflexivity.
Qed.

Lemma sheet_loop_names hmdbroot reparsed net (data : list (string * DataFrame))
    (fdict fdict' : fdict_t) (names : list string) (w w' : world) :
  sheet_names fdict = map (fun k => (k, names)) five_names ->
  for_each data (process_sheet hmdbroot reparsed net) fdict w = (Ok fdict', w') ->
  w' = w /\
  sheet_names fdict' = map (fun k => (k, names ++ kept_sheets data)) five_names.
Proof.
  revert fdict names w. induction data as [|tab data IH]; intros fdict names w Hn H.
  - injection H as <- <-. unfold kept_sheets. cbn. rewrite app_nil_r. auto.
  - cbn [for_each] in H. step_as H E1.
    apply (process_sheet_names _ _ _ _ _ _ names) in E1 as [-> Hn1]; [|exact Hn].
    apply (IH _ _ _ Hn1) in H as [-> Hn2]. split; [reflexivity|].
    rewrite Hn2. rewrite <- app_assoc. unfold kept_sheets. cbn [map List.filter].
    destruct (negb (str_in (fst tab) skipsheets)); reflexivity.
Qed.

(** The write loop that completes has saved the planned workbooks, one
    after the other. *)
Lemma write_loop_ok disk (outdir : string) (fdict : fdict_t) (w w' : world) :
  for_each fdict
    (fun _ item => write_workbook disk (outdir +:+ "/" +:+ fst item +:+ ".xlsx") (snd item))
    tt w = (Ok tt, w') ->
  files w' = files w ++ planned_workbooks outdir fdict.
Proof.
  revert w. induction fdict as [|item fdict IH]; intros w H.
  - injection H as <-. cbn. rewrite app_nil_r. reflexivity.
  - cbn [for_each] in H. rewrite bind_run in H. unfold write_workbook at 1 in H.
    destruct (disk (files w) (outdir +:+ "/" +:+ fst item +:+ ".xlsx", snd item));
      [discriminate H|].
    apply IH in H. cbn [files] in H. rewrite H, <- app_assoc. reflexivity.
Qed.

(** Claim C5 as it is worded fails: for a workbook with the sheets
    [TFs] and [Metabolites] the script runs to the end and each of the
    five workbooks it writes has the one sheet [Metabolites], not one
    sheet per sheet of the input. *)
Lemma C5_skipped_sheet_not_written :
  fst (main Sample.hmdbroot Sample.reparsed Sample.net Sample.disk Sample.workbook "processed-data" Sample.w0) = Ok tt /\
  map fst Sample.workbook = ["TFs"; "Metabolites"] /\
  map (fun f => (fst f, map fst (snd f)))
      (files (snd (main Sample.hmdbroot Sample.reparsed Sample.net Sample.disk Sample.workbook "processed-data" Sample.w0)))
  = [("processed-data/nodata.xlsx", ["Metabolites"]);
     ("processed-data/simple.xlsx", ["Metabolites"]);
     ("processed-data/match.xlsx", ["Metabolites"]);
     ("processed-data/multimatch.xlsx", ["Metabolites"]);
     ("processed-data/ambiguous.xlsx", ["Metabolites"])] /\
  ~ Forall (fun f => map fst (snd f) = map fst Sample.workbook)
      (files (snd (main Sample.hmdbroot Sample.reparsed Sample.net Sample.disk Sample.workbook "processed-data" Sample.w0))).
Proof.
  assert (map (fun f : xlsx => (fst f, map fst (snd f)))
            (files (snd (main Sample.hmdbroot Sample.reparsed Sample.net Sample.disk Sample.workbook
                           "processed-data" Sample.w0)))
          = [("processed-data/nodata.xlsx", ["Metabolites"]);
             ("processed-data/simple.xlsx", ["Metabolites"]);
             ("processed-data/match.xlsx", ["Metabolites"]);
             ("processed-data/multimatch.xlsx", ["Metabolites"]);
             ("processed-data/ambiguous.xlsx", ["Metabolites"])]) as Hnames
    by (vm_compute; reflexivity).
  split; [vm_compute; reflexivity|]. split; [reflexivity|].
  split; [exact Hnames|].
  intros H.
  assert (Forall (fun p : string * list string => snd p = map fst Sample.workbook)
            (map (fun f : xlsx => (fst f, map fst (snd f)))
               (files (snd (main Sample.hmdbroot Sample.reparsed Sample.net Sample.disk Sample.workbook
                              "processed-data" Sample.w0))))) as H'.
  { apply Forall_map. exact H. }
  rewrite Hnames in H'. apply Forall_inv in H'. discriminate H'.
Qed.

(** C5 (amended): when the script runs to the end it has written exactly
    five workbooks, [nodata], [simple], [match], [multimatch] and
    [ambiguous] in this order, into the output directory, and the sheets
    written to each of them are, in input order, the sheets of the input
    workbook whose name is not in [skipsheets]. *)
Theorem C5_five_workbooks_of_kept_sheets hmdbroot reparsed net disk
    (data : list (string * DataFrame)) (outdir : string) (w w' : world) :
  main hmdbroot reparsed net disk data outdir w = (Ok tt, w') ->
  exists written,
    files w' = files w ++ written /\
    map fst written = file_names outdir /\
    Forall (fun f => map fst (snd f) = kept_sheets data) written.
Proof.
  unfold main. intros H. step_as H El.
  apply (sheet_loop_names _ _ _ _ _ _ []) in El as [-> Hn]; [|reflexivity].
  match goal with Hn : sheet_names ?f = _ |- _ =>
    destruct f as [|[k1 l1] [|[k2 l2] [|[k3 l3] [|[k4 l4] [|[k5 l5] [|? ?]]]]]];
      try discriminate Hn
  end.
  cbn in Hn. injection Hn as -> H1 -> H2 -> H3 -> H4 -> H5.
  apply write_loop_ok in H. unfold planned_workbooks in H. cbn [map fst snd] in H.
  eexists. split; [exact H|]. split; [reflexivity|].
  repeat constructor; assumption.
Qed.

Lemma C5_five_workbooks_of_kept_sheets_witness :
  main Sample.hmdbroot Sample.reparsed Sample.net Sample.disk Sample.workbook "processed-data" Sample.w0
  = (Ok tt, snd (main Sample.hmdbroot Sample.reparsed Sample.net Sample.disk Sample.workbook "processed-data" Sample.w0)) /\
  exists written,
    files (snd (main Sample.hmdbroot Sample.reparsed Sample.net Sample.disk Sample.workbook "processed-data" Sample.w0))
      = files Sample.w0 ++ written /\
    map fst written = file_names "processed-data" /\
    Forall (fun f => map fst (snd f) = kept_sheets Sample.workbook) written.
Proof.
  assert (main Sample.hmdbroot Sample.reparsed Sample.net Sample.disk Sample.workbook "processed-data" Sample.w0
          = (Ok tt, snd (main Sample.hmdbroot Sample.reparsed Sample.net Sample.disk Sample.workbook
                           "processed-data" Sample.w0))) as Hrun
    by (vm_compute; reflexivity).
  split; [exact Hrun|].
  exact (C5_five_workbooks_of_kept_sheets Sample.hmdbroot Sample.reparsed Sample.net
           Sample.disk Sample.workbook "processed-data" Sample.w0 _ Hrun).
Defined.

(** * Further properties of the lookups and of [retrieve] *)

(** ** hmdb_lookup *)




(** X2: a record returned by [hmdb_lookup] has the four keys InChI,
    InChIKey, SMILES and MetaboliteID, in this order; MetaboliteID is
    the identifier asked for; and InChI is [None] exactly when the
    identifier is not in the dump (an entry that is found gives a string
    or raises). *)
Theorem hmdb_lookup_record hmdbroot reparsed (mid : string) (d : dict) :
  hmdb_lookup hmdbroot reparsed mid = Ok d ->
  map fst d = ["InChI"; "InChIKey"; "SMILES"; "MetaboliteID"] /\
  dict_get "MetaboliteID" d = Some (VStr mid) /\
  (dict_get "InChI" d = Some VNone <->
   find_metabolite hmdbroot reparsed "{http://www.hmdb.ca}" mid = Ok None) /\
  ((exists s, dict_get "InChI" d = Some (VStr s)) <->
   exists e, find_metabolite hmdbroot reparsed "{http://www.hmdb.ca}" mid = Ok (Some e)).
Proof.
  unfold hmdb_lookup.
  destruct (find_metabolite hmdbroot reparsed "{http://www.hmdb.ca}" mid) as [[e|]|ex];
    cbn [rbind]; [| |discriminate].
  - intros H. rbind_ok H.
    match goal with E : match elem_text _ with _ => _ end = Ok _ |- _ =>
      destruct (elem_text _); [injection E as <-|discriminate E] end.
    injection H as <-. cbn. repeat split; try discriminate; eauto.
  - intros [= <-]. cbn. repeat split; try discriminate; eauto.
    + intros [s Hs]. discriminate.
    + intros [e He]. discriminate.
Qed.

Lemma hmdb_lookup_record_witness :
  hmdb_lookup Sample.hmdbroot Sample.reparsed "caffeine"
    = Ok (record_dict VNone VNone VNone "caffeine") /\
  dict_get "MetaboliteID" (record_dict VNone VNone VNone "caffeine") = Some (VStr "caffeine").
Proof.
  split; [reflexivity|].
  apply (hmdb_lookup_record Sample.hmdbroot Sample.reparsed "caffeine"). reflexivity.
Defined.

(** ** retrieve *)

Lemma lookup_all_hmdb_world hmdbroot reparsed net (mids : list string) (w : world) :
  snd (lookup_all hmdbroot reparsed net hmdb mids w) = w.
Proof.
  revert w. induction mids as [|mid mids IH]; intros w; [reflexivity|].
  cbn [lookup_all]. rewrite bind_run. unfold lookup_one. cbn [Z.eqb hmdb ecocyc].
  unfold lift at 1. destruct (hmdb_lookup hmdbroot reparsed mid); [|reflexivity].
  rewrite bind_run. specialize (IH w).
  destruct (lookup_all hmdbroot reparsed net hmdb mids w) as [[recs|e] w']; exact IH.
Qed.

Lemma retrieve_hmdb_world hmdbroot reparsed net (mids : list string) (w : world) :
  snd (retrieve hmdbroot reparsed net mids hmdb w) = w.
Proof.
  rewrite retrieve_run by reflexivity.
  pose proof (lookup_all_hmdb_world hmdbroot reparsed net mids w) as H.
  destruct (lookup_all hmdbroot reparsed net hmdb mids w) as [[recs|e] w']; exact H.
Qed.

(** X3: HMDB lookups are local: whatever the identifiers and whether or not
    it returns, [retrieve] with the tag [hmdb] makes no request and
    leaves the world as it was. *)
Theorem retrieve_hmdb_leaves_world hmdbroot reparsed net (mids : list string) (w : world) :
  snd (retrieve hmdbroot reparsed net mids hmdb w) = w.
Proof. exact (retrieve_hmdb_world hmdbroot reparsed net mids w). Qed.

Lemma lookup_all_ecocyc_log hmdbroot reparsed net (mids : list string) (w : world) :
  exists n,
    n <= length mids /\
    snd (lookup_all hmdbroot reparsed net ecocyc mids w)
      = log_requests (map ecocyc_url (take n mids)) w /\
    (forall recs, fst (lookup_all hmdbroot reparsed net ecocyc mids w) = Ok recs ->
       n = length mids /\ length recs = length mids).
Proof.
  revert w. induction mids as [|mid mids IH]; intros w.
  - exists 0. cbn. split; [lia|]. split.
    + unfold log_requests. rewrite app_nil_r. destruct w; reflexivity.
    + intros recs [= <-]. auto.
  - cbn [lookup_all]. rewrite bind_run. unfold lookup_one. cbn [Z.eqb ecocyc].
    rewrite ecocyc_lookup_run.
    assert (forall n, log_requests (map ecocyc_url (take n mids))
                        (log_request (ecocyc_url mid) w)
                      = log_requests (map ecocyc_url (take (S n) (mid :: mids))) w) as Hlog.
    { intros n. unfold log_requests, log_request. cbn. rewrite <- app_assoc. reflexivity. }
    assert (log_request (ecocyc_url mid) w
            = log_requests (map ecocyc_url (take 1 (mid :: mids))) w) as H1.
    { reflexivity. }
    destruct (net (http_log w) (ecocyc_url mid)) as [resp|msg].
    + destruct (error_status resp).
      * exists 1. cbn [length fst snd]. split; [lia|]. split; [exact H1|]. discriminate.
      * rewrite bind_run.
        destruct (IH (log_request (ecocyc_url mid) w)) as (n & Hn & Hw & Hok).
        destruct (lookup_all hmdbroot reparsed net ecocyc mids (log_request (ecocyc_url mid) w))
          as [[recs|e] w'] eqn:E; cbn [fst snd] in *.
        -- exists (S n). cbn [length]. split; [lia|]. split; [rewrite Hw; apply Hlog|].
           intros recs' [= <-]. destruct (Hok recs eq_refl) as [-> Hl]. cbn. lia.
        -- exists (S n). cbn [length]. split; [lia|]. split; [rewrite Hw; apply Hlog|].
           discriminate.
    + exists 1. cbn [length fst snd]. split; [lia|]. split; [exact H1|]. discriminate.
Qed.

Lemma retrieve_ecocyc_world hmdbroot reparsed net (mids : list string) (w : world) :
  exists n, snd (retrieve hmdbroot reparsed net mids ecocyc w)
            = log_requests (map ecocyc_url (take n mids)) w.
Proof.
  rewrite retrieve_run by reflexivity.
  destruct (lookup_all_ecocyc_log hmdbroot reparsed net mids w) as (n & _ & Hw & _).
  exists n. destruct (lookup_all hmdbroot reparsed net ecocyc mids w) as [[recs|e] w']; exact Hw.
Qed.

Lemma lookup_all_ecocyc_trace hmdbroot reparsed net (mids : list string) (w : world) :
  exists n,
    n <= length mids /\
    snd (lookup_all hmdbroot reparsed net ecocyc mids w)
      = log_requests (map ecocyc_url (take n mids)) w /\
    (forall i mid, S i < n -> mids !! i = Some mid ->
       lookup_fails net (http_log w ++ map ecocyc_url (take i mids)) mid = None) /\
    match fst (lookup_all hmdbroot reparsed net ecocyc mids w) with
    | Ok _ =>
        n = length mids /\
        forall i mid, i < n -> mids !! i = Some mid ->
          lookup_fails net (http_log w ++ map ecocyc_url (take i mids)) mid = None
    | Raise e =>
        exists i mid,
          n = S i /\ mids !! i = Some mid /\
          lookup_fails net (http_log w ++ map ecocyc_url (take i mids)) mid = Some e
    end.
Proof.
  revert w. induction mids as [|mid mids IH]; intros w.
  - exists 0. cbn. split; [lia|]. split.
    { unfold log_requests. rewrite app_nil_r. destruct w; reflexivity. }
    split; [intros i mid Hi; lia|]. split; [reflexivity|]. intros i mid Hi; lia.
  - cbn [lookup_all]. rewrite bind_run. unfold lookup_one. cbn [Z.eqb ecocyc].
    rewrite ecocyc_lookup_run.
    assert (forall n, log_requests (map ecocyc_url (take n mids))
                        (log_request (ecocyc_url mid) w)
                      = log_requests (map ecocyc_url (take (S n) (mid :: mids))) w) as Hlog.
    { intros n. unfold log_requests, log_request. cbn. rewrite <- app_assoc. reflexivity. }
    assert (forall i, http_log (log_request (ecocyc_url mid) w)
                        ++ map ecocyc_url (take i mids)
                      = http_log w ++ map ecocyc_url (take (S i) (mid :: mids))) as Hpre.
    { intros i. unfold log_request. cbn. rewrite <- app_assoc. reflexivity. }
    assert (lookup_fails net (http_log w ++ map ecocyc_url (take 0 (mid :: mids))) mid
            = lookup_fails net (http_log w) mid) as H0.
    { cbn. rewrite app_nil_r. reflexivity. }
    destruct (lookup_fails net (http_log w) mid) as [e|] eqn:Hf.
    + exists 1. split; [cbn; lia|].
      unfold lookup_fails in Hf.
      destruct (net (http_log w) (ecocyc_url mid)) as [resp|msg].
      * destruct (error_status resp); [|discriminate Hf]. injection Hf as <-.
        cbn [fst snd]. split; [reflexivity|]. split; [intros i m Hi; lia|].
        exists 0, mid. split; [reflexivity|]. split; [reflexivity|].
        rewrite H0. reflexivity.
      * injection Hf as <-.
        cbn [fst snd]. split; [reflexivity|]. split; [intros i m Hi; lia|].
        exists 0, mid. split; [reflexivity|]. split; [reflexivity|].
        rewrite H0. reflexivity.
    + assert ((match net (http_log w) (ecocyc_url mid) with
               | Failed msg => Raise (RequestException msg)
               | Responded resp =>
                   if error_status resp then Raise (HTTPError (status_code resp))
                   else Ok (ecocyc_record (text resp) mid)
               end) = Ok (match net (http_log w) (ecocyc_url mid) with
                          | Responded resp => ecocyc_record (text resp) mid
                          | Failed _ => []
                          end)) as ->.
      { unfold lookup_fails in Hf.
        destruct (net (http_log w) (ecocyc_url mid)) as [resp|msg]; [|discriminate Hf].
        destruct (error_status resp); [discriminate Hf | reflexivity]. }
      rewrite bind_run.
      destruct (IH (log_request (ecocyc_url mid) w)) as (n & Hn & Hw & Hbefore & Hlast).
      exists (S n). split; [cbn; lia|].
      assert (forall i m, (mid :: mids) !! i = Some m ->
                (i = 0 -> lookup_fails net
                            (http_log w ++ map ecocyc_url (take i (mid :: mids))) m = None) /\
                (forall j, i = S j ->
                   mids !! j = Some m /\
                   lookup_fails net (http_log w ++ map ecocyc_url (take i (mid :: mids))) m
                   = lookup_fails net (http_log (log_request (ecocyc_url mid) w)
                                         ++ map ecocyc_url (take j mids)) m)) as Hidx.
      { intros i m Hm. split.
        - intros ->. injection Hm as <-. exact H0.
        - intros j ->. split; [exact Hm|]. rewrite Hpre. reflexivity. }
      destruct (lookup_all hmdbroot reparsed net ecocyc mids (log_request (ecocyc_url mid) w))
        as [[recs|e] w'] eqn:E; cbn [fst snd] in *.
      * split; [rewrite Hw; apply Hlog|].
        destruct Hlast as [-> Hall].
        assert (forall i m, i < S (length mids) -> (mid :: mids) !! i = Some m ->
                  lookup_fails net (http_log w ++ map ecocyc_url (take i (mid :: mids))) m
                  = None) as Hall'.
        { intros i m Hi Hm. destruct (Hidx i m Hm) as [Hz Hs]. destruct i as [|j].
          - apply Hz. reflexivity.
          - destruct (Hs j eq_refl) as [Hj ->]. apply Hall; [lia | exact Hj]. }
        split; [intros i m Hi; apply Hall'; lia|].
        split; [reflexivity | exact Hall'].
      * split; [rewrite Hw; apply Hlog|]. split.
        { intros i m Hi Hm. destruct (Hidx i m Hm) as [Hz Hs]. destruct i as [|j].
          - apply Hz. reflexivity.
          - destruct (Hs j eq_refl) as [Hj ->]. apply Hbefore; [lia | exact Hj]. }
        destruct Hlast as (i & m & -> & Hm & Hfail).
        exists (S i), m. split; [reflexivity|]. split; [exact Hm|].
        destruct (Hidx (S i) m Hm) as [_ Hs]. destruct (Hs i eq_refl) as [_ ->]. exact Hfail.
Qed.

(** X4: the requests of [retrieve] with the tag [ecocyc] are the EcoCyc
    URLs of the first [n] identifiers, in order, one request each, and
    store and files are not touched.  Every lookup before the last of
    the [n] went through.  When [retrieve] returns, all identifiers were
    looked up and every lookup went through; when it raises, the last
    of the [n] lookups is the one that failed, and [retrieve] raises
    the exception of that lookup ([RequestException] of the request or
    [HTTPError] of the status check): the lookups stop at the first one
    that raises. *)
Theorem retrieve_ecocyc_requests hmdbroot reparsed net (mids : list string) (w : world) :
  exists n,
    n <= length mids /\
    snd (retrieve hmdbroot reparsed net mids ecocyc w)
      = log_requests (map ecocyc_url (take n mids)) w /\
    (forall i mid, S i < n -> mids !! i = Some mid ->
       lookup_fails net (http_log w ++ map ecocyc_url (take i mids)) mid = None) /\
    match fst (retrieve hmdbroot reparsed net mids ecocyc w) with
    | Ok _ =>
        n = length mids /\
        forall i mid, i < n -> mids !! i = Some mid ->
          lookup_fails net (http_log w ++ map ecocyc_url (take i mids)) mid = None
    | Raise e =>
        exists i mid,
          n = S i /\ mids !! i = Some mid /\
          lookup_fails net (http_log w ++ map ecocyc_url (take i mids)) mid = Some e
    end.
Proof.
  rewrite retrieve_run by reflexivity.
  destruct (lookup_all_ecocyc_trace hmdbroot reparsed net mids w)
    as (n & Hn & Hw & Hbefore & Hlast).
  exists n. split; [exact Hn|].
  destruct (lookup_all hmdbroot reparsed net ecocyc mids w) as [[recs|e] w']; cbn [fst snd] in *;
    (split; [exact Hw|]); (split; [exact Hbefore | exact Hlast]).
Qed.

Lemma retrieve_ecocyc_requests_witness :
  fst (retrieve Sample.hmdbroot Sample.reparsed Sample.net ["WATER"; "UNKNOWN"; "METHANE"]
         ecocyc Sample.w0)
    = Raise (HTTPError 404) /\
  http_log (snd (retrieve Sample.hmdbroot Sample.reparsed Sample.net
                   ["WATER"; "UNKNOWN"; "METHANE"] ecocyc Sample.w0))
    = [ecocyc_url "WATER"; ecocyc_url "UNKNOWN"] /\
  lookup_fails Sample.net [ecocyc_url "WATER"] "UNKNOWN" = Some (HTTPError 404) /\
  exists n,
    n <= 3 /\
    snd (retrieve Sample.hmdbroot Sample.reparsed Sample.net ["WATER"; "UNKNOWN"; "METHANE"]
           ecocyc Sample.w0)
      = log_requests (map ecocyc_url (take n ["WATER"; "UNKNOWN"; "METHANE"])) Sample.w0.
Proof.
  split; [reflexivity|]. split; [reflexivity|]. split; [reflexivity|].
  destruct (retrieve_ecocyc_requests Sample.hmdbroot Sample.reparsed Sample.net
              ["WATER"; "UNKNOWN"; "METHANE"] Sample.w0)
    as (n & Hn & Hw & _).
  exists n. split; [exact Hn | exact Hw].
Defined.

Lemma ecocyc_record_fields (t mid : string) :
  dict_get "MetaboliteID" (ecocyc_record t mid) = Some (VStr mid) /\
  (complete (record_row (ecocyc_record t mid)) = true ->
   Forall is_string (record_row (ecocyc_record t mid))).
Proof.
  unfold ecocyc_record.
  destruct (found_inchi t), (found_inchikey t), (found_smiles t);
    (split; [reflexivity|]); cbn; try discriminate.
  intros _. repeat constructor; eexists; reflexivity.
Qed.

Lemma lookup_one_fields hmdbroot reparsed net (db : Z) (mid : string) (w w' : world) (d : dict) :
  lookup_one hmdbroot reparsed net db mid w = (Ok d, w') ->
  dict_get "MetaboliteID" d = Some (VStr mid) /\
  (complete (record_row d) = true -> Forall is_string (record_row d)).
Proof.
  unfold lookup_one. destruct (db =? ecocyc)%Z.
  - rewrite ecocyc_lookup_run.
    destruct (net (http_log w) (ecocyc_url mid)) as [resp|msg]; [|discriminate].
    destruct (error_status resp); [discriminate|].
    intros [= <- _]. apply ecocyc_record_fields.
  - unfold lift, hmdb_lookup.
    destruct (find_metabolite hmdbroot reparsed "{http://www.hmdb.ca}" mid) as [[e|]|ex];
      cbn [rbind]; [| |discriminate].
    + intros [= H _]. rbind_ok H.
      match goal with E : match elem_text _ with _ => _ end = Ok _ |- _ =>
        destruct (elem_text _); [injection E as <-|discriminate E] end.
      injection H as <-. split; [reflexivity|].
      match goal with |- context [of_text (elem_text ?a)] => destruct (elem_text a) end;
        match goal with |- context [of_text (elem_text ?a)] => destruct (elem_text a) end;
        cbn; try discriminate.
      intros _. repeat constructor; eexists; reflexivity.
    + intros [= <- _]. split; [reflexivity|]. cbn. discriminate.
Qed.

Lemma lookup_all_fields hmdbroot reparsed net (db : Z) (mids : list string) (w w' : world)
    (recs : list dict) :
  lookup_all hmdbroot reparsed net db mids w = (Ok recs, w') ->
  Forall2 (fun mid d =>
             dict_get "MetaboliteID" d = Some (VStr mid) /\
             (complete (record_row d) = true -> Forall is_string (record_row d)))
          mids recs.
Proof.
  revert w w' recs. induction mids as [|mid mids IH]; intros w w' recs H.
  - injection H as <- _. constructor.
  - cbn [lookup_all] in H. step_as H E1. step_as H E2. injection H as <- _.
    constructor; [eapply lookup_one_fields; exact E1 | eapply IH; exact E2].
Qed.

Lemma retrieve_ok hmdbroot reparsed net (mids : list string) (db : Z) (w w' : world)
    (df : DataFrame) :
  retrieve hmdbroot reparsed net mids db w = (Ok df, w') ->
  exists recs,
    lookup_all hmdbroot reparsed net db mids w = (Ok recs, w') /\
    df = dropna (frame_of_records recs).
Proof.
  destruct (valid_db db) eqn:Hv.
  - rewrite retrieve_run by exact Hv.
    destruct (lookup_all hmdbroot reparsed net db mids w) as [[recs|e] w1]; [|discriminate].
    intros [= <- <-]. eauto.
  - rewrite retrieve_invalid_db by exact Hv. discriminate.
Qed.

(** X5: every row of a frame returned by [retrieve] goes back to one of the
    identifiers asked for: the row labelled [i] carries [mids[i]] in its
    MetaboliteID cell, and all four of its cells are strings; no [None]
    and no match object gets into the frame. *)
Theorem retrieve_rows_are_string_records hmdbroot reparsed net (mids : list string) (db : Z)
    (w w' : world) (df : DataFrame) :
  retrieve hmdbroot reparsed net mids db w = (Ok df, w') ->
  Forall (fun r => exists mid,
                     mids !! fst r = Some mid /\
                     snd r !! 1 = Some (VStr mid) /\
                     Forall is_string (snd r))
         (df_rows df).
Proof.
  intros H. apply retrieve_ok in H as (recs & Hall & ->).
  apply lookup_all_fields in Hall.
  apply Forall_forall. intros r Hr.
  unfold dropna, frame_of_records in Hr. cbn [df_rows] in Hr.
  apply list_elem_of_In, List.filter_In in Hr as [Hr Hc].
  apply list_elem_of_In, elem_of_lookup_imap in Hr as (i & d & -> & Hd).
  destruct (Forall2_lookup_r _ _ _ _ _ Hall Hd) as (mid & Hmid & Hid & Hstr).
  exists mid. cbn [fst snd]. split; [exact Hmid|]. split.
  - unfold record_row. cbn. rewrite Hid. reflexivity.
  - apply Hstr. exact Hc.
Qed.

Lemma retrieve_rows_are_string_records_witness :
  retrieve Sample.hmdbroot Sample.reparsed Sample.net ["WATER"; "METHANE"] ecocyc Sample.w0
  = (Ok (mkDF ["InChI"; "MetaboliteID"; "InChIKey"; "SMILES"]
           [(1, [VStr "1S/CH4"; VStr "METHANE"; VStr "VNWKTOKETHGBQD"; VStr "C"])]),
     log_requests [ecocyc_url "WATER"; ecocyc_url "METHANE"] Sample.w0) /\
  Forall (fun r => exists mid,
                     ["WATER"; "METHANE"] !! fst r = Some mid /\
                     snd r !! 1 = Some (VStr mid) /\
                     Forall is_string (snd r))
         [(1, [VStr "1S/CH4"; VStr "METHANE"; VStr "VNWKTOKETHGBQD"; VStr "C"])].
Proof.
  split; [reflexivity|].
  apply (retrieve_rows_are_string_records Sample.hmdbroot Sample.reparsed Sample.net
           ["WATER"; "METHANE"] ecocyc Sample.w0
           (log_requests [ecocyc_url "WATER"; ecocyc_url "METHANE"] Sample.w0)
           (mkDF ["InChI"; "MetaboliteID"; "InChIKey"; "SMILES"]
              [(1, [VStr "1S/CH4"; VStr "METHANE"; VStr "VNWKTOKETHGBQD"; VStr "C"])])).
  reflexivity.
Defined.

Lemma filter_imap_labels {A B} (P : nat * B -> bool) (f : A -> B) (l : list A) (k : nat) :
  StronglySorted lt (map fst (List.filter P (imap (fun i d => (k + i, f d)) l))) /\
  Forall (fun j => k <= j < k + length l)
         (map fst (List.filter P (imap (fun i d => (k + i, f d)) l))).
Proof.
  revert k. induction l as [|x l IH]; intros k.
  - cbn. split; constructor.
  - cbn [imap List.filter].
    assert (imap ((fun i d => (k + i, f d)) ∘ S) l = imap (fun i d => (S k + i, f d)) l) as ->.
    { apply imap_ext. intros i d _. cbn. f_equal. lia. }
    destruct (IH (S k)) as [Hs Hb].
    assert (Forall (fun j => k <= j < k + length (x :: l))
              (map fst (List.filter P (imap (fun i d => (S k + i, f d)) l)))) as Hb'.
    { eapply Forall_impl; [exact Hb|]. cbn. intros j Hj. lia. }
    destruct (P (k + 0, f x)).
    + cbn [map fst]. split.
      * constructor; [exact Hs|]. eapply Forall_impl; [exact Hb|]. cbn. intros j Hj. lia.
      * constructor; [cbn; lia | exact Hb'].
    + split; [exact Hs | exact Hb'].
Qed.

(** X6: the labels of a frame returned by [retrieve] are positions in the
    list of identifiers, in strictly increasing order: the surviving
    rows keep the label under which they were filled in, so the frame
    has at most one row per identifier and its first row is labelled 0
    only if the first identifier gave a complete record. *)
Theorem retrieve_labels_increasing hmdbroot reparsed net (mids : list string) (db : Z)
    (w w' : world) (df : DataFrame) :
  retrieve hmdbroot reparsed net mids db w = (Ok df, w') ->
  StronglySorted lt (map fst (df_rows df)) /\
  Forall (fun j => j < length mids) (map fst (df_rows df)) /\
  length (df_rows df) <= length mids.
Proof.
  intros H. apply retrieve_ok in H as (recs & Hall & ->).
  apply lookup_all_fields, Forall2_length in Hall.
  unfold dropna, frame_of_records. cbn [df_rows].
  destruct (filter_imap_labels (fun r : nat * list value => forallb (fun v => negb (isna v)) (snd r))
              record_row recs 0) as [Hs Hb].
  cbn [Nat.add] in Hs, Hb. split; [exact Hs|]. split.
  - eapply Forall_impl; [exact Hb|]. cbn. intros j Hj. rewrite Hall. apply Hj.
  - etransitivity; [apply List.filter_length_le|]. rewrite length_imap, Hall. reflexivity.
Qed.

Lemma retrieve_labels_increasing_witness :
  retrieve Sample.hmdbroot Sample.reparsed Sample.net ["caffeine"; "ethanol"; "methane"] hmdb Sample.w0
  = (Ok (mkDF ["InChI"; "MetaboliteID"; "InChIKey"; "SMILES"]
           [(1, [VStr "1S/C2H6O"; VStr "ethanol"; VStr "LFQSCWFLJHTTHZ"; VStr "CCO"]);
            (2, [VStr "1S/CH4"; VStr "methane"; VStr "VNWKTOKETHGBQD"; VStr "C"])]),
     Sample.w0) /\
  StronglySorted lt [1; 2].
Proof.
  split; [reflexivity|].
  apply (retrieve_labels_increasing Sample.hmdbroot Sample.reparsed Sample.net
           ["caffeine"; "ethanol"; "methane"] hmdb Sample.w0 Sample.w0
           (mkDF ["InChI"; "MetaboliteID"; "InChIKey"; "SMILES"]
              [(1, [VStr "1S/C2H6O"; VStr "ethanol"; VStr "LFQSCWFLJHTTHZ"; VStr "CCO"]);
               (2, [VStr "1S/CH4"; VStr "methane"; VStr "VNWKTOKETHGBQD"; VStr "C"])])).
  reflexivity.
Defined.

(** * Further properties of the row functions and of the row loop *)

(** ** process_ogrow *)

Lemma dict_get_filter_keys {V} (keep : string -> bool) (k : string) (d : list (string * V)) :
  dict_get k (List.filter (fun kv => keep (fst kv)) d)
  = if keep k then dict_get k d else None.
Proof.
  induction d as [|[k' v] d IH]; cbn [List.filter dict_get fst].
  - destruct (keep k); reflexivity.
  - destruct (keep k') eqn:Hk'; cbn [dict_get].
    + destruct (String.eqb_spec k k') as [->|Hne]; [rewrite Hk'; reflexivity | exact IH].
    + rewrite IH. destruct (String.eqb_spec k k') as [->|Hne]; [rewrite Hk'|]; reflexivity.
Qed.

Lemma dict_get_without_db_labels (k : string) (s : Series) :
  dict_get k (without_db_labels s)
  = if str_in k ["EcoCyc"; "HMDB"] then None else dict_get k s.
Proof.
  unfold without_db_labels.
  rewrite (dict_get_filter_keys (fun k => negb (str_in k ["EcoCyc"; "HMDB"]))).
  destruct (str_in k ["EcoCyc"; "HMDB"]); reflexivity.
Qed.

Lemma has_key_without_db_labels (k : string) (s : Series) :
  str_in k ["EcoCyc"; "HMDB"] = true -> has_key k (without_db_labels s) = false.
Proof.
  intros Hk. destruct (has_key k (without_db_labels s)) eqn:E; [|reflexivity].
  apply has_key_dict_get in E as [v Hv].
  rewrite dict_get_without_db_labels, Hk in Hv. discriminate.
Qed.

(** X7: the dict returned by [process_ogrow] has no [EcoCyc] and no [HMDB]
    entry, and under every other label the value the row had; the row
    must have had both labels, otherwise the drop raises. *)
Theorem process_ogrow_result (ogrow : loc) (w w' : world) (d : dict) :
  process_ogrow ogrow w = (Ok d, w') ->
  exists s,
    store w !! ogrow = Some (OSeries s) /\
    has_key "EcoCyc" s = true /\ has_key "HMDB" s = true /\
    dict_get "EcoCyc" d = None /\ dict_get "HMDB" d = None /\
    (forall k, k <> "EcoCyc" -> k <> "HMDB" -> dict_get k d = dict_get k s).
Proof.
  rewrite process_ogrow_run. intros H.
  destruct (store w !! ogrow) as [[s|df]|]; try discriminate.
  destruct (has_key "EcoCyc" s && has_key "HMDB" s) eqn:Hk; [|discriminate].
  apply andb_prop in Hk as [He Hh]. injection H as <- _.
  exists s. repeat split; try assumption.
  - rewrite dict_get_without_db_labels. reflexivity.
  - rewrite dict_get_without_db_labels. reflexivity.
  - intros k H1 H2. rewrite dict_get_without_db_labels. cbn.
    destruct (String.eqb_spec k "EcoCyc"); [congruence|].
    destruct (String.eqb_spec k "HMDB"); [congruence|]. reflexivity.
Qed.

Lemma process_ogrow_result_witness :
  process_ogrow 0 Sample.w_row1
  = (Ok [("Name", VStr "methane")],
     set_object 0 (OSeries [("Name", VStr "methane")]) Sample.w_row1) /\
  exists s,
    store Sample.w_row1 !! 0 = Some (OSeries s) /\
    has_key "EcoCyc" s = true /\ has_key "HMDB" s = true /\
    dict_get "EcoCyc" [("Name", VStr "methane")] = None /\
    dict_get "HMDB" [("Name", VStr "methane")] = None /\
    (forall k, k <> "EcoCyc" -> k <> "HMDB" ->
       dict_get k [("Name", VStr "methane")] = dict_get k s).
Proof.
  split; [reflexivity|].
  apply (process_ogrow_result 0 Sample.w_row1
           (set_object 0 (OSeries [("Name", VStr "methane")]) Sample.w_row1)).
  reflexivity.
Defined.

Lemma process_ogrow_twice (ogrow : loc) (w w' : world) (d : dict) :
  process_ogrow ogrow w = (Ok d, w') ->
  process_ogrow ogrow w' = (Raise (KeyError "labels not found in axis"), w').
Proof.
  intros H. apply process_ogrow_ok in H as (s & Hs & _ & ->).
  rewrite process_ogrow_run. unfold set_object. cbn [store].
  rewrite list_lookup_insert_eq by (eapply lookup_lt_Some; exact Hs).
  rewrite (has_key_without_db_labels "EcoCyc") by reflexivity. reflexivity.
Qed.

(** X8: [process_ogrow] cannot be repeated on a row: the first call drops
    the two labels from the caller's Series, so a second call on the
    same Series raises [KeyError] and changes nothing. *)
Theorem process_ogrow_not_repeatable (ogrow : loc) (w w' : world) (d : dict) :
  process_ogrow ogrow w = (Ok d, w') ->
  process_ogrow ogrow w' = (Raise (KeyError "labels not found in axis"), w').
Proof. exact (process_ogrow_twice ogrow w w' d). Qed.

Lemma process_ogrow_not_repeatable_witness :
  process_ogrow 0 Sample.w_row1
  = (Ok [("Name", VStr "methane")],
     set_object 0 (OSeries [("Name", VStr "methane")]) Sample.w_row1) /\
  process_ogrow 0 (set_object 0 (OSeries [("Name", VStr "methane")]) Sample.w_row1)
  = (Raise (KeyError "labels not found in axis"),
     set_object 0 (OSeries [("Name", VStr "methane")]) Sample.w_row1).
Proof.
  split; [reflexivity|].
  apply (process_ogrow_not_repeatable 0 Sample.w_row1 _ [("Name", VStr "methane")]).
  reflexivity.
Defined.

(** ** The row loop, as the code stands *)

Lemma build_matchrow_ok (ogrow : loc) (m : DataFrame) (w w' : world) (d : dict) :
  build_matchrow ogrow m w = (Ok d, w') ->
  exists d0, process_ogrow ogrow w = (Ok d0, w').
Proof.
  unfold build_matchrow. intros H. step_as H E0. step_as H E1.
  unfold lift in E1. injection E1 as _ <-. unfold ret in H. injection H as _ <-. eauto.
Qed.

Lemma build_ambiguousrow_after_drop (ogrow minfo1 : loc) (db1 : Z)
    (minfo2 : option loc) (db2 : option Z) (w w' : world) (d : dict) :
  process_ogrow ogrow w = (Ok d, w') ->
  build_ambiguousrow ogrow minfo1 db1 minfo2 db2 w'
  = (Raise (KeyError "labels not found in axis"), w').
Proof.
  intros H. unfold build_ambiguousrow. rewrite bind_run.
  rewrite (process_ogrow_twice _ _ _ _ H). reflexivity.
Qed.

(** X9: as the code stands, the loop body completes only for a row without
    valid identifiers, which goes to [nodata] alone, and for a row with
    identifiers in both databases and no shared InChIKey, which goes to
    [ambiguous] alone.  It never completes having added a row to
    [simple], [match] or [multimatch]: the single-database branch stops
    at its tuple assignment, and after [build_matchrow] the second
    in-place drop in [build_ambiguousrow] raises. *)
Theorem row_body_completes_in_nodata_or_ambiguous hmdbroot reparsed net (row : loc)
    (emids hmids : list string) (o o' : outs) (w w' : world) :
  row_body hmdbroot reparsed net row emids hmids o w = (Ok o', w') ->
  (emids = [] /\ hmids = [] /\ assigned_to [Nodata] o o') \/
  (emids <> [] /\ hmids <> [] /\ assigned_to [Ambiguous] o o').
Proof.
  unfold row_body. intros H.
  destruct ((length emids =? 0)%nat && (length hmids =? 0)%nat) eqn:Cboth.
  { step H. injection H as <- _. left.
    apply andb_prop in Cboth as [Ce Ch]. apply length_eqb_0 in Ce, Ch.
    split; [exact Ce|]. split; [exact Ch|]. solve_assigned. }
  destruct ((length emids =? 0)%nat || (length hmids =? 0)%nat) eqn:Cone.
  { rewrite bind_run in H. discriminate H. }
  apply orb_false_elim in Cone as [Ce Ch]. right.
  split; [intros ->; discriminate Ce|]. split; [intros ->; discriminate Ch|].
  step H. step H. step H. step H. step H.
  match goal with E : lift (getmatches _ _) _ = (Ok ?x, _) |- _ => destruct x as [mt|] end.
  - exfalso. step_as H Em. step_as H Ea. step_as Em Eb.
    apply build_matchrow_ok in Eb as [d0 Hd0].
    unfold ret in Em.
    destruct (length (df_rows mt) =? 1)%nat; injection Em as _ <-;
      rewrite (build_ambiguousrow_after_drop _ _ _ _ _ _ _ _ Hd0) in Ea; discriminate Ea.
  - step_as H Em. step H. unfold ret in H, Em. injection H as <- _. injection Em as <- _.
    solve_assigned.
Qed.

Lemma row_body_completes_in_nodata_or_ambiguous_witness :
  row_body Sample.hmdbroot Sample.reparsed Sample.net 0 [] [] Sample.no_outs Sample.w_row1
  = (Ok (mkOuts [[("Name", VStr "methane")]] [] [] [] []),
     set_object 0 (OSeries [("Name", VStr "methane")]) Sample.w_row1) /\
  ((([] : list string) = [] /\ ([] : list string) = [] /\
    assigned_to [Nodata] Sample.no_outs (mkOuts [[("Name", VStr "methane")]] [] [] [] [])) \/
   (([] : list string) <> [] /\ ([] : list string) <> [] /\
    assigned_to [Ambiguous] Sample.no_outs (mkOuts [[("Name", VStr "methane")]] [] [] [] []))).
Proof.
  split; [reflexivity|].
  apply (row_body_completes_in_nodata_or_ambiguous Sample.hmdbroot Sample.reparsed Sample.net 0 [] []
           Sample.no_outs _ Sample.w_row1
           (set_object 0 (OSeries [("Name", VStr "methane")]) Sample.w_row1)).
  reflexivity.
Defined.

(** * Further properties of the sheet loop and of the whole run *)

Lemma str_in_filter (keep : string -> bool) (k : string) (cols : list string) :
  keep k = true -> str_in k (List.filter keep cols) = str_in k cols.
Proof.
  intros Hk. induction cols as [|c cols IH]; [reflexivity|].
  cbn [List.filter]. unfold str_in in *. destruct (keep c) eqn:Hc; cbn [existsb].
  - rewrite IH. reflexivity.
  - rewrite IH. destruct (String.eqb_spec k c) as [->|Hne]; [congruence|reflexivity].
Qed.

Lemma has_key_combine_map {V} (f : string -> V) (k : string) (cols : list string) :
  has_key k (combine cols (map f cols)) = str_in k cols.
Proof.
  induction cols as [|c cols IH]; [reflexivity|].
  cbn. unfold has_key, str_in in IH. rewrite IH. reflexivity.
Qed.

Lemma has_key_row_series (sheet : DataFrame) (r : nat * list value) :
  has_db_columns sheet = true ->
  has_key "EcoCyc" (row_series sheet r) = true /\
  has_key "HMDB" (row_series sheet r) = true.
Proof.
  unfold has_db_columns, row_series, kept_columns. intros H.
  apply andb_prop in H as [He Hh].
  rewrite !has_key_combine_map.
  rewrite !(str_in_filter (fun i => negb (String.eqb (substring 0 7 i) "Unnamed")))
    by reflexivity.
  auto.
Qed.

Lemma init_file_dfs_returns (subheaders : Series) :
  has_key "EcoCyc" subheaders = true ->
  has_key "HMDB" subheaders = true ->
  exists dfs, init_file_dfs subheaders = Ok dfs.
Proof.
  intros He Hh. unfold init_file_dfs, series_drop. cbn [forallb].
  rewrite He, Hh. cbn [andb rbind]. eauto.
Qed.

Lemma kept_columns_db (sheet : DataFrame) :
  str_in "EcoCyc" (kept_columns sheet) && str_in "HMDB" (kept_columns sheet)
  = has_db_columns sheet.
Proof.
  unfold kept_columns, has_db_columns.
  rewrite !(str_in_filter (fun i => negb (String.eqb (substring 0 7 i) "Unnamed")))
    by reflexivity.
  reflexivity.
Qed.

(** The start of the sheet loop body for a sheet that is not skipped:
    the column check, then the sub-header row. *)
Lemma process_sheet_no_columns hmdbroot reparsed net (fdict : fdict_t) (name : string)
    (sheet : DataFrame) (w : world) :
  str_in name skipsheets = false ->
  has_db_columns sheet = false ->
  process_sheet hmdbroot reparsed net fdict (name, sheet) w
  = (Raise (AssertionError "Sheet lacks EcoCyc and HMDB columns"), w).
Proof.
  intros Hs Hc. unfold process_sheet, select_columns. cbn [fst snd df_rows df_columns].
  fold (kept_columns sheet). rewrite Hs.
  rewrite bind_run, lift_run, kept_columns_db, Hc. reflexivity.
Qed.

Lemma process_sheet_rows hmdbroot reparsed net (fdict : fdict_t) (name : string)
    (sheet : DataFrame) (w : world) :
  str_in name skipsheets = false ->
  has_db_columns sheet = true ->
  match df_rows sheet with
  | [] => process_sheet hmdbroot reparsed net fdict (name, sheet) w = (Raise IndexError, w)
  | [_] =>
      process_sheet hmdbroot reparsed net fdict (name, sheet) w
      = (Ok (with_sheet fdict (name, sheet)), w)
  | _ :: r1 :: _ =>
      process_sheet hmdbroot reparsed net fdict (name, sheet) w
      = (Raise (NameError "j"),
         mkWorld (http_log w) (store w ++ [OSeries (row_series sheet r1)]) (files w))
  end.
Proof.
  intros Hs Hc. unfold with_sheet, header_frames, process_sheet, select_columns, frame_iloc.
  cbn [fst snd df_rows df_columns]. fold (kept_columns sheet). rewrite Hs.
  rewrite bind_run, lift_run, kept_columns_db, Hc. cbn [py_assert].
  rewrite bind_run, lift_run.
  destruct (df_rows sheet) as [|r0 [|r1 rest]]; [reflexivity| |].
  - cbn [map lookup list_lookup snd]. fold (row_series sheet r0).
    destruct (has_key_row_series sheet r0 Hc) as [He Hh].
    destruct (init_file_dfs_returns _ He Hh) as [[[[[nd si] ma] mu] am] Hi].
    rewrite bind_run, lift_run, Hi. reflexivity.
  - cbn [map lookup list_lookup snd]. fold (row_series sheet r0).
    destruct (has_key_row_series sheet r0 Hc) as [He Hh].
    destruct (init_file_dfs_returns _ He Hh) as [[[[[nd si] ma] mu] am] Hi].
    rewrite bind_run, lift_run, Hi.
    cbn [length Nat.sub seq for_each lookup list_lookup snd].
    fold (row_series sheet r1).
    assert (forall o,
              (row <- alloc (OSeries (row_series sheet r1)) ;;
               process_row hmdbroot reparsed net row o) w
              = (Raise (NameError "j"),
                 mkWorld (http_log w) (store w ++ [OSeries (row_series sheet r1)]) (files w)))
      as Hrow.
    { intros o. rewrite bind_run. unfold alloc. unfold process_row.
      rewrite bind_run. unfold read_series. cbn [store].
      rewrite lookup_app_r by lia. rewrite Nat.sub_diag. cbn [lookup list_lookup].
      rewrite bind_run, lift_run.
      destruct (has_key_row_series sheet r1 Hc) as [He1 Hh1].
      rewrite getlists_unbound_j by assumption. reflexivity. }
    rewrite bind_run, bind_run, bind_run, lift_run. cbv beta iota.
    rewrite Hrow. reflexivity.
Qed.



(** ** The whole run *)

Lemma process_sheet_run hmdbroot reparsed net (fdict : fdict_t) (tab : string * DataFrame)
    (w : world) :
  if sheet_completes tab
  then process_sheet hmdbroot reparsed net fdict tab w = (Ok (with_sheet fdict tab), w)
  else exists e w',
      process_sheet hmdbroot reparsed net fdict tab w = (Raise e, w') /\
      http_log w' = http_log w /\ files w' = files w.
Proof.
  destruct tab as [name sheet]. unfold sheet_completes. cbn [fst snd].
  destruct (str_in name skipsheets) eqn:Hs; cbn [orb].
  { unfold process_sheet, with_sheet. cbn [fst]. rewrite Hs. reflexivity. }
  destruct (has_db_columns sheet) eqn:Hc; cbn [andb].
  - pose proof (process_sheet_rows hmdbroot reparsed net fdict name sheet w Hs Hc) as H.
    destruct (df_rows sheet) as [|r0 [|r1 rest]]; cbn [length Nat.eqb].
    + eexists _, _. split; [exact H|]. auto.
    + exact H.
    + eexists _, _. split; [exact H|]. auto.
  - eexists _, _. split; [apply process_sheet_no_columns; assumption|]. auto.
Qed.

Lemma sheet_loop_run hmdbroot reparsed net (data : list (string * DataFrame))
    (fdict : fdict_t) (w : world) :
  if forallb sheet_completes data
  then for_each data (process_sheet hmdbroot reparsed net) fdict w
       = (Ok (fold_left with_sheet data fdict), w)
  else exists e w',
      for_each data (process_sheet hmdbroot reparsed net) fdict w = (Raise e, w') /\
      http_log w' = http_log w /\ files w' = files w.
Proof.
  revert fdict. induction data as [|tab data IH]; intros fdict.
  - reflexivity.
  - cbn [forallb for_each fold_left]. rewrite bind_run.
    pose proof (process_sheet_run hmdbroot reparsed net fdict tab w) as H1.
    destruct (sheet_completes tab); cbn [andb].
    + rewrite H1. apply IH.
    + destruct H1 as (e & w' & -> & Hl & Hf). eauto.
Qed.

(** The write loop saves the planned workbooks in order up to the first
    one that the disk refuses. *)
Lemma write_loop_run disk (outdir : string) (fdict : fdict_t) (w : world) :
  exists k,
    k <= length (planned_workbooks outdir fdict) /\
    snd (for_each fdict
           (fun _ item =>
              write_workbook disk (outdir +:+ "/" +:+ fst item +:+ ".xlsx") (snd item))
           tt w)
    = mkWorld (http_log w) (store w) (files w ++ take k (planned_workbooks outdir fdict)) /\
    (forall i b, i < k -> planned_workbooks outdir fdict !! i = Some b ->
       disk (files w ++ take i (planned_workbooks outdir fdict)) b = None) /\
    match planned_workbooks outdir fdict !! k with
    | None =>
        fst (for_each fdict
               (fun _ item =>
                  write_workbook disk (outdir +:+ "/" +:+ fst item +:+ ".xlsx") (snd item))
               tt w) = Ok tt
    | Some b =>
        exists msg,
          disk (files w ++ take k (planned_workbooks outdir fdict)) b = Some msg /\
          fst (for_each fdict
                 (fun _ item =>
                    write_workbook disk (outdir +:+ "/" +:+ fst item +:+ ".xlsx") (snd item))
                 tt w) = Raise (WriteError msg)
    end.
Proof.
  revert w. induction fdict as [|item fdict IH]; intros w.
  - exists 0. cbn. rewrite app_nil_r. split; [lia|]. split; [destruct w; reflexivity|].
    split; [intros i b Hi; lia | reflexivity].
  - cbn [for_each planned_workbooks map]. fold (planned_workbooks outdir fdict).
    rewrite bind_run. unfold write_workbook at 1 3 5.
    destruct (disk (files w) (outdir +:+ "/" +:+ fst item +:+ ".xlsx", snd item))
      as [msg|] eqn:Hd.
    + exists 0. cbn [take lookup list_lookup fst snd length]. rewrite app_nil_r.
      split; [lia|]. split; [destruct w; reflexivity|].
      split; [intros i b Hi; lia|]. exists msg. split; [exact Hd | reflexivity].
    + destruct (IH (mkWorld (http_log w) (store w)
                      (files w ++ [(outdir +:+ "/" +:+ fst item +:+ ".xlsx", snd item)])))
        as (k & Hk & Hw & Hbefore & Hlast).
      cbn [http_log store files] in Hw, Hbefore, Hlast.
      exists (S k). cbn [length take lookup list_lookup].
      split; [lia|]. split.
      { rewrite Hw. rewrite <- app_assoc. reflexivity. }
      split.
      { intros i b Hi Hb. destruct i as [|i].
        - injection Hb as <-. cbn [take]. rewrite app_nil_r. exact Hd.
        - cbn [take lookup list_lookup] in *.
          specialize (Hbefore i b ltac:(lia) Hb).
          rewrite <- app_assoc in Hbefore. exact Hbefore. }
      rewrite <- app_assoc in Hlast. exact Hlast.
Qed.


Lemma main_sheets_complete hmdbroot reparsed net disk (data : list (string * DataFrame))
    (outdir : string) (w : world) :
  forallb sheet_completes data = true ->
  main hmdbroot reparsed net disk data outdir w
  = for_each (header_books data)
      (fun _ item => write_workbook disk (outdir +:+ "/" +:+ fst item +:+ ".xlsx") (snd item))
      tt w.
Proof.
  intros Hc. unfold main. rewrite bind_run.
  pose proof (sheet_loop_run hmdbroot reparsed net data empty_fdict w) as H.
  rewrite Hc in H. unfold empty_fdict in H. rewrite H. reflexivity.
Qed.

Lemma main_sheet_raises hmdbroot reparsed net disk (data : list (string * DataFrame))
    (outdir : string) (w : world) :
  forallb sheet_completes data = false ->
  exists e w',
    main hmdbroot reparsed net disk data outdir w = (Raise e, w') /\
    http_log w' = http_log w /\ files w' = files w.
Proof.
  intros Hc. unfold main. rewrite bind_run.
  pose proof (sheet_loop_run hmdbroot reparsed net data empty_fdict w) as H.
  rewrite Hc in H. unfold empty_fdict in H.
  destruct H as (e & w' & -> & Hl & Hf). eauto.
Qed.



(** X13: as the code stands the script never contacts EcoCyc: on every
    workbook the log of requests after the run is the log before it
    (the row loop stops in [getlists] before any lookup).  Its output
    is written only after all sheets are processed, one workbook saved
    after the other: when a sheet makes the script raise, no workbook
    has been written; otherwise the workbooks written are the planned
    ones, in order, up to the first that the disk refuses, those before
    it stay on disk, and the script raises the exception of that write;
    it returns when none is refused. *)
Theorem main_no_request_output_up_to_failed_write hmdbroot reparsed net disk
    (data : list (string * DataFrame)) (outdir : string) (w : world) :
  http_log (snd (main hmdbroot reparsed net disk data outdir w)) = http_log w /\
  (forallb sheet_completes data = false ->
   files (snd (main hmdbroot reparsed net disk data outdir w)) = files w /\
   exists e, fst (main hmdbroot reparsed net disk data outdir w) = Raise e) /\
  (forallb sheet_completes data = true ->
   exists k,
     k <= length (planned_workbooks outdir (header_books data)) /\
     files (snd (main hmdbroot reparsed net disk data outdir w))
     = files w ++ take k (planned_workbooks outdir (header_books data)) /\
     (forall i b, i < k -> planned_workbooks outdir (header_books data) !! i = Some b ->
        disk (files w ++ take i (planned_workbooks outdir (header_books data))) b = None) /\
     match planned_workbooks outdir (header_books data) !! k with
     | None => fst (main hmdbroot reparsed net disk data outdir w) = Ok tt
     | Some b =>
         exists msg,
           disk (files w ++ take k (planned_workbooks outdir (header_books data))) b
           = Some msg /\
           fst (main hmdbroot reparsed net disk data outdir w) = Raise (WriteError msg)
     end).
Proof.
  destruct (forallb sheet_completes data) eqn:Hc.
  - rewrite (main_sheets_complete hmdbroot reparsed net disk data outdir w Hc).
    destruct (write_loop_run disk outdir (header_books data) w)
      as (k & Hk & Hw & Hbefore & Hlast).
    split; [rewrite Hw; reflexivity|]. split; [discriminate|]. intros _.
    exists k. split; [exact Hk|]. split; [rewrite Hw; reflexivity|].
    split; [exact Hbefore | exact Hlast].
  - destruct (main_sheet_raises hmdbroot reparsed net disk data outdir w Hc)
      as (e & w1 & -> & Hl & Hf).
    split; [exact Hl|]. split; [|discriminate]. intros _. split; [exact Hf | eauto].
Qed.

Lemma main_no_request_output_up_to_failed_write_witness :
  (fst (main Sample.hmdbroot Sample.reparsed Sample.net Sample.disk
          [("Metabolites", Sample.sheet_one_row)] "processed-data" Sample.w0)
     = Raise (NameError "j") /\
   files (snd (main Sample.hmdbroot Sample.reparsed Sample.net Sample.disk
                 [("Metabolites", Sample.sheet_one_row)] "processed-data" Sample.w0))
     = files Sample.w0) /\
  (fst (main Sample.hmdbroot Sample.reparsed Sample.net Sample.disk_full Sample.workbook
          "processed-data" Sample.w0)
     = Raise (WriteError "No space left on device") /\
   exists k,
     k <= length (planned_workbooks "processed-data" (header_books Sample.workbook)) /\
     files (snd (main Sample.hmdbroot Sample.reparsed Sample.net Sample.disk_full
                   Sample.workbook "processed-data" Sample.w0))
     = files Sample.w0
       ++ take k (planned_workbooks "processed-data" (header_books Sample.workbook))).
Proof.
  assert (fst (main Sample.hmdbroot Sample.reparsed Sample.net Sample.disk
                 [("Metabolites", Sample.sheet_one_row)] "processed-data" Sample.w0)
          = Raise (NameError "j")) as Hrun by (vm_compute; reflexivity).
  assert (fst (main Sample.hmdbroot Sample.reparsed Sample.net Sample.disk_full
                 Sample.workbook "processed-data" Sample.w0)
          = Raise (WriteError "No space left on device")) as Hfull
    by (vm_compute; reflexivity).
  split.
  - split; [exact Hrun|].
    exact (proj1 (proj1 (proj2 (main_no_request_output_up_to_failed_write
                                  Sample.hmdbroot Sample.reparsed Sample.net Sample.disk
                                  [("Metabolites", Sample.sheet_one_row)]
                                  "processed-data" Sample.w0))
                   eq_refl)).
  - split; [exact Hfull|].
    destruct (proj2 (proj2 (main_no_request_output_up_to_failed_write
                              Sample.hmdbroot Sample.reparsed Sample.net Sample.disk_full
                              Sample.workbook "processed-data" Sample.w0))
                eq_refl) as (k & Hk & Hfiles & _).
    exists k. split; [exact Hk | exact Hfiles].
Defined.

(** * Further properties of the frame set-up and of the row builders *)

(** ** Dicts *)

Lemma dict_get_set {V} (k k' : string) (v : V) (d : list (string * V)) :
  dict_get k (dict_set k' v d) = if String.eqb k k' then Some v else dict_get k d.
Proof.
  induction d as [|[k0 v0] d IH]; cbn [dict_set dict_get].
  - destruct (String.eqb k k'); reflexivity.
  - destruct (String.eqb_spec k' k0) as [->|Hne]; cbn [dict_get].
    + destruct (String.eqb k k0); reflexivity.
    + rewrite IH. destruct (String.eqb_spec k k0) as [->|Hne0]; [|reflexivity].
      destruct (String.eqb_spec k0 k'); [congruence|reflexivity].
Qed.

Lemma dict_get_chain_assign (k : string) (keys : list string) (v : value) (d : dict) :
  dict_get k (chain_assign keys v d) = if str_in k keys then Some v else dict_get k d.
Proof.
  unfold chain_assign. revert d. induction keys as [|k0 keys IH]; intros d; [reflexivity|].
  cbn [fold_left]. rewrite IH, dict_get_set. unfold str_in. cbn [existsb].
  destruct (existsb (String.eqb k) keys); [rewrite orb_true_r; reflexivity|].
  rewrite orb_false_r. reflexivity.
Qed.

Lemma dict_get_app {V} (k : string) (d1 d2 : list (string * V)) :
  dict_get k (d1 ++ d2) = match dict_get k d1 with
                          | Some v => Some v
                          | None => dict_get k d2
                          end.
Proof.
  induction d1 as [|[k0 v0] d1 IH]; [reflexivity|].
  cbn [app dict_get]. destruct (String.eqb k k0); [reflexivity | exact IH].
Qed.

(** After [d.update(d2)] a key of [d2] has its (last) value in [d2],
    every other key the value it had in [d]. *)
Lemma dict_get_update (k : string) (d d2 : dict) :
  dict_get k (dict_update d d2) = match dict_get k (rev d2) with
                                  | Some v => Some v
                                  | None => dict_get k d
                                  end.
Proof.
  unfold dict_update. revert d. induction d2 as [|[k0 v0] d2 IH]; intros d; [reflexivity|].
  cbn [fold_left rev fst snd]. rewrite IH, dict_get_app, dict_get_set. cbn [dict_get].
  destruct (dict_get k (rev d2)); [reflexivity|].
  destruct (String.eqb k k0); reflexivity.
Qed.

(** ** init_file_dfs *)

(** X14: the five frames start with one row each, built from the sub-header
    row.  Without an [EcoCyc] or [HMDB] entry in that row the drop
    raises [KeyError].  Otherwise [nodata] starts with the sub-header
    row minus its two database entries; [simple], [match], [multimatch]
    and [ambiguous] start with the same row plus their structure
    columns, filled with [nan], ["EcoCyc"] or ["HMDB"]; [multimatch]
    starts as a copy of [match]. *)
Theorem init_file_dfs_first_rows (subheaders : Series) :
  (has_key "EcoCyc" subheaders && has_key "HMDB" subheaders = false ->
   init_file_dfs subheaders = Raise (KeyError "labels not found in axis")) /\
  (has_key "EcoCyc" subheaders && has_key "HMDB" subheaders = true ->
   exists s m a,
     init_file_dfs subheaders = Ok ([without_db_labels subheaders], [s], [m], [m], [a]) /\
     (forall k, dict_get k s =
        if str_in k ["InChI"; "InChIKey"; "SMILES"; "MetaboliteID"; "Database"]
        then Some VNaN
        else dict_get k (without_db_labels subheaders)) /\
     (forall k, dict_get k m =
        if str_in k ["hMetaboliteID"; "hSMILES"] then Some (VStr "HMDB")
        else if str_in k ["eMetaboliteID"; "eSMILES"] then Some (VStr "EcoCyc")
        else if str_in k ["InChI"; "InChIKey"] then Some VNaN
        else dict_get k (without_db_labels subheaders)) /\
     (forall k, dict_get k a =
        if str_in k ["hMetaboliteID"; "hInChI"; "hInChIKey"; "hSMILES"]
        then Some (VStr "HMDB")
        else if str_in k ["eMetaboliteID"; "eInChI"; "eInChIKey"; "eSMILES"]
        then Some (VStr "EcoCyc")
        else dict_get k (without_db_labels subheaders))).
Proof.
  unfold init_file_dfs, series_drop. cbn [forallb]. rewrite andb_true_r. split.
  - intros ->. reflexivity.
  - intros ->. cbn [rbind]. fold (without_db_labels subheaders).
    eexists _, _, _. split; [reflexivity|]. split; [|split]; intros k.
    + rewrite dict_get_chain_assign. reflexivity.
    + rewrite !dict_get_chain_assign. reflexivity.
    + rewrite !dict_get_chain_assign. reflexivity.
Qed.

Lemma init_file_dfs_first_rows_witness :
  has_key "EcoCyc" Sample.row1 && has_key "HMDB" Sample.row1 = true /\
  exists s m a,
    init_file_dfs Sample.row1 = Ok ([without_db_labels Sample.row1], [s], [m], [m], [a]) /\
    dict_get "Database" s = Some VNaN /\
    dict_get "eSMILES" m = Some (VStr "EcoCyc") /\
    dict_get "hInChI" a = Some (VStr "HMDB").
Proof.
  split; [reflexivity|].
  destruct (proj2 (init_file_dfs_first_rows Sample.row1) eq_refl)
    as (s & m & a & Hi & Hs & Hm & Ha).
  exists s, m, a. split; [exact Hi|].
  rewrite Hs, Hm, Ha. repeat split; reflexivity.
Defined.

(** ** joinvalues *)

Lemma strs_of_strings (l : list string) : strs_of (map VStr l) = Ok l.
Proof.
  induction l as [|s l IH]; [reflexivity|].
  cbn [map strs_of str_of rbind]. rewrite IH. reflexivity.
Qed.

Lemma strs_of_result (x : list value) :
  match strs_of x with
  | Ok l => x = map VStr l
  | Raise e => e = TypeError /\ ~ Forall is_string x
  end.
Proof.
  induction x as [|v x IH]; [reflexivity|].
  cbn [strs_of]. destruct v; cbn [str_of rbind];
    try (split; [reflexivity|]; intros H; apply Forall_inv in H as [s Hs]; discriminate Hs).
  destruct (strs_of x) as [l|e]; cbn [rbind].
  - rewrite IH. reflexivity.
  - destruct IH as [-> Hn]. split; [reflexivity|].
    intros H. apply Hn. eapply Forall_inv_tail. exact H.
Qed.

(** X15: [joinvalues] returns exactly on lists of strings, with the strings
    joined by ["|"] (the empty string for no value, the value itself for
    a single one); a list with any other value, such as [nan] or a
    number, raises [TypeError]. *)
Theorem joinvalues_strings_only (x : list value) :
  (forall l, x = map VStr l -> joinvalues x = Ok (VStr (String.concat "|" l))) /\
  ((exists v, joinvalues x = Ok v) <-> Forall is_string x) /\
  (~ Forall is_string x -> joinvalues x = Raise TypeError).
Proof.
  unfold joinvalues. pose proof (strs_of_result x) as H. split; [|split].
  - intros l ->. rewrite strs_of_strings. reflexivity.
  - destruct (strs_of x) as [l|e]; cbn [rbind].
    + split; [|eauto]. intros _. subst x. apply Forall_forall.
      intros v Hv. apply list_elem_of_fmap in Hv as (s & -> & _). eexists. reflexivity.
    + destruct H as [-> Hn]. split; [intros [v Hv]; discriminate Hv | tauto].
  - intros Hn. destruct (strs_of x) as [l|e]; cbn [rbind].
    + exfalso. apply Hn. subst x. apply Forall_forall.
      intros v Hv. apply list_elem_of_fmap in Hv as (s & -> & _). eexists. reflexivity.
    + destruct H as [-> _]. reflexivity.
Qed.

Lemma joinvalues_strings_only_witness :
  joinvalues [VStr "ETOH"; VStr "METHANE"] = Ok (VStr "ETOH|METHANE") /\
  joinvalues [VStr "ETOH"; VNaN] = Raise TypeError.
Proof.
  split.
  - apply (proj1 (joinvalues_strings_only [VStr "ETOH"; VStr "METHANE"])
             ["ETOH"; "METHANE"]). reflexivity.
  - apply (proj2 (proj2 (joinvalues_strings_only [VStr "ETOH"; VNaN]))).
    intros H. apply Forall_inv_tail, Forall_inv in H. destruct H as [s Hs]. discriminate Hs.
Defined.

(** ** build_simplerow *)

(** X16: a returning call of [build_simplerow]: the caller's row has lost its
    two database entries in place; the info frame has a first row; in
    the dict returned, [Database] is the tag, a column of the info frame
    has the value of the first row, and every other key the value the
    row had. *)
Theorem build_simplerow_result (ogrow minfo : loc) (db : Z) (w w' : world) (d : dict) :
  build_simplerow ogrow minfo db w = (Ok d, w') ->
  exists s m first rest,
    store w !! ogrow = Some (OSeries s) /\
    store w !! minfo = Some (OFrame m) /\
    df_rows m = first :: rest /\
    w' = set_object ogrow (OSeries (without_db_labels s)) w /\
    dict_get "Database" d = Some (VInt db) /\
    (forall c, c <> "Database" ->
       dict_get c d = match dict_get c (rev (combine (df_columns m) (snd first))) with
                      | Some v => Some v
                      | None => dict_get c (without_db_labels s)
                      end).
Proof.
  unfold build_simplerow. intros H. step_as H E0. step_as H E1. step_as H E2.
  apply process_ogrow_ok in E0 as (s & Hs & -> & ->).
  unfold read_frame in E1. cbn [store set_object] in E1.
  destruct (<[ogrow:=OSeries (without_db_labels s)]> (store w) !! minfo)
    as [[?|m]|] eqn:Em; try discriminate E1.
  injection E1 as <- <-. apply insert_series_lookup_frame in Em.
  unfold lift, iloc0_to_dict in E2.
  destruct (df_rows m) as [|first rest] eqn:Er; [discriminate E2|].
  injection E2 as <- <-. unfold ret in H. injection H as <- <-.
  exists s, m, first, rest. repeat split; try assumption.
  - rewrite dict_get_set. reflexivity.
  - intros c Hc. rewrite dict_get_set.
    destruct (String.eqb_spec c "Database"); [congruence|]. apply dict_get_update.
Qed.

Lemma build_simplerow_result_witness :
  build_simplerow 0 1 hmdb (mkWorld [] [OSeries Sample.row1; OFrame Sample.hinfo] [])
  = (Ok [("Name", VStr "methane"); ("InChI", VStr "1S/CH4");
         ("MetaboliteID", VStr "methane"); ("InChIKey", VStr "VNWKTOKETHGBQD");
         ("SMILES", VStr "C"); ("Database", VInt 1)],
     mkWorld [] [OSeries [("Name", VStr "methane")]; OFrame Sample.hinfo] []) /\
  exists s m first rest,
    s = Sample.row1 /\ m = Sample.hinfo /\ df_rows m = first :: rest /\
    dict_get "Database"
      [("Name", VStr "methane"); ("InChI", VStr "1S/CH4");
       ("MetaboliteID", VStr "methane"); ("InChIKey", VStr "VNWKTOKETHGBQD");
       ("SMILES", VStr "C"); ("Database", VInt 1)] = Some (VInt hmdb).
Proof.
  split; [reflexivity|].
  destruct (build_simplerow_result 0 1 hmdb
              (mkWorld [] [OSeries Sample.row1; OFrame Sample.hinfo] []) _ _ eq_refl)
    as (s & m & first & rest & Hs & Hm & Hr & _ & Hd & _).
  cbn in Hs, Hm. injection Hs as <-. injection Hm as <-.
  exists Sample.row1, Sample.hinfo, first, rest. repeat split; assumption.
Defined.

(** ** getmatches *)

Lemma iloc_set_shape (i : nat) (d : dict) (f f' : DataFrame) :
  iloc_set i d f = Ok f' ->
  df_columns f' = df_columns f /\ length (df_rows f') = length (df_rows f).
Proof.
  unfold iloc_set. destruct (df_rows f !! i) as [[lbl old]|]; [|discriminate].
  intros [= <-]. cbn [df_columns df_rows]. rewrite length_insert. auto.
Qed.

Lemma label0_ok (col : list (nat * value)) (v : value) :
  label0 col = Ok v -> In (0, v) col.
Proof.
  unfold label0. destruct (List.find _ col) as [[l x]|] eqn:E; [|discriminate].
  intros [= <-]. apply List.find_some in E as [Hin Hl]. cbn in Hl.
  apply Nat.eqb_eq in Hl. subst l. exact Hin.
Qed.

Lemma loc_eq_rows (c : string) (key : value) (df sel : DataFrame) (r : nat * list value) :
  loc_eq c key df = Ok sel -> In r (df_rows sel) -> In r (df_rows df).
Proof.
  unfold loc_eq. destruct (index_of c (df_columns df)); [|discriminate].
  intros [= <-]. cbn [df_rows]. intros H. apply List.filter_In in H. tauto.
Qed.

Lemma frame_col_label (c : string) (df : DataFrame) (col : list (nat * value))
    (l : nat) (v : value) :
  frame_col c df = Ok col -> In (l, v) col -> exists cells, In (l, cells) (df_rows df).
Proof.
  unfold frame_col. destruct (index_of c (df_columns df)); [|discriminate].
  intros [= <-] H. apply List.in_map_iff in H as ([l' cells] & [= <- _] & Hin). eauto.
Qed.

(** X17: when [getmatches] returns a frame, it has the six match columns and
    one row per shared InChIKey, and the EcoCyc frame has a row
    labelled 0: the EcoCyc values are read by the label 0, so a match
    can only be returned when the record of the first EcoCyc identifier
    is in the frame. *)
Theorem getmatches_frame_needs_label_0 (einfo hinfo df : DataFrame) :
  getmatches einfo hinfo = Ok (Some df) ->
  df_columns df
    = ["InChI"; "InChIKey"; "hSMILES"; "eSMILES"; "eMetaboliteID"; "hMetaboliteID"] /\
  (exists ekeys hkeys,
     frame_col "InChIKey" einfo = Ok ekeys /\
     frame_col "InChIKey" hinfo = Ok hkeys /\
     length (df_rows df) = length (set_inter (map snd ekeys) (map snd hkeys)) /\
     0 < length (df_rows df)) /\
  exists cells, In (0, cells) (df_rows einfo).
Proof.
  unfold getmatches. intros H.
  destruct (frame_col "InChIKey" einfo) as [ekeys|] eqn:Ee; [|discriminate].
  destruct (frame_col "InChIKey" hinfo) as [hkeys|] eqn:Eh; [|discriminate].
  cbn [rbind] in H.
  destruct (set_inter (map snd ekeys) (map snd hkeys)) as [|k ks] eqn:Ek; [discriminate H|].
  cbn [length Nat.eqb] in H.
  assert (df_columns df
            = ["InChI"; "InChIKey"; "hSMILES"; "eSMILES"; "eMetaboliteID"; "hMetaboliteID"] /\
          length (df_rows df) = S (length ks)) as [Hcols Hlen].
  { eapply (rfor_each_invariant
              (fun r => exists f, r = Some f /\
                 df_columns f = ["InChI"; "InChIKey"; "hSMILES"; "eSMILES";
                                 "eMetaboliteID"; "hMetaboliteID"] /\
                 length (df_rows f) = S (length ks))) in H as (f & [= <-] & Hc & Hl);
      [auto| |].
    - clear. intros acc i acc' (f & -> & Hc & Hl) Hb. rbind_ok Hb.
      injection Hb as <-.
      match goal with E : iloc_set _ _ f = Ok ?f' |- _ =>
        apply iloc_set_shape in E as [Hc' Hl']; exists f' end.
      split; [reflexivity|]. split; congruence.
    - eexists. split; [reflexivity|]. unfold empty_frame. cbn [df_columns df_rows].
      rewrite length_map, length_seq. auto. }
  split; [exact Hcols|]. split.
  { exists ekeys, hkeys. rewrite Ek, Hlen. cbn [length]. repeat split; lia. }
  cbn [seq rfor_each] in H.
  match type of H with rbind ?b _ = _ => destruct b as [acc'|] eqn:Eb; [|discriminate H] end.
  clear H. rbind_ok Eb.
  repeat match goal with
         | E : label0 ?col = Ok ?v |- _ => apply label0_ok in E
         end.
  match goal with
  | Ec : frame_col "MetaboliteID" ?sel = Ok ?col, Hin : In (0, _) ?col,
    El : loc_eq "InChIKey" _ einfo = Ok ?sel |- _ =>
      destruct (frame_col_label _ _ _ _ _ Ec Hin) as [cells Hcells];
      exists cells; exact (loc_eq_rows _ _ _ _ _ El Hcells)
  end.
Qed.

Lemma getmatches_frame_needs_label_0_witness :
  getmatches
    (mkDF Sample.columns
       [(0, [VStr "1S/CH4"; VStr "METHANE"; VStr "VNWKTOKETHGBQD"; VStr "C"])])
    Sample.hinfo
  = Ok (Some (mkDF ["InChI"; "InChIKey"; "hSMILES"; "eSMILES"; "eMetaboliteID";
                    "hMetaboliteID"]
                [(0, [VStr "1S/CH4"; VStr "VNWKTOKETHGBQD"; VStr "C"; VStr "C";
                      VStr "METHANE"; VStr "methane"])])) /\
  exists cells,
    In (0, cells) [(0, [VStr "1S/CH4"; VStr "METHANE"; VStr "VNWKTOKETHGBQD"; VStr "C"])].
Proof.
  split; [reflexivity|].
  apply (getmatches_frame_needs_label_0
           (mkDF Sample.columns
              [(0, [VStr "1S/CH4"; VStr "METHANE"; VStr "VNWKTOKETHGBQD"; VStr "C"])])
           Sample.hinfo
           (mkDF ["InChI"; "InChIKey"; "hSMILES"; "eSMILES"; "eMetaboliteID";
                  "hMetaboliteID"]
              [(0, [VStr "1S/CH4"; VStr "VNWKTOKETHGBQD"; VStr "C"; VStr "C";
                    VStr "METHANE"; VStr "methane"])])).
  reflexivity.
Defined.

(** ** getdict_ambiguousinfo on the frames of [retrieve] *)

Lemma retrieve_rows_shape hmdbroot reparsed net (mids : list string) (db : Z) (w w' : world)
    (df : DataFrame) :
  retrieve hmdbroot reparsed net mids db w = (Ok df, w') ->
  df_columns df = retrieve_columns /\
  Forall (fun r => exists a b c d, snd r = [VStr a; VStr b; VStr c; VStr d]) (df_rows df).
Proof.
  intros H. apply retrieve_ok in H as (recs & Hall & ->). split; [reflexivity|].
  apply lookup_all_fields in Hall.
  apply Forall_forall. intros r Hr.
  unfold dropna, frame_of_records in Hr. cbn [df_rows] in Hr.
  apply list_elem_of_In, List.filter_In in Hr as [Hr Hc].
  apply list_elem_of_In, elem_of_lookup_imap in Hr as (i & d & -> & Hd).
  destruct (Forall2_lookup_r _ _ _ _ _ Hall Hd) as (mid & _ & _ & Hstr).
  specialize (Hstr Hc). cbn [snd]. unfold record_row in *. cbn [map retrieve_columns] in *.
  apply Forall_cons_1 in Hstr as [[a ->] Hstr].
  apply Forall_cons_1 in Hstr as [[b ->] Hstr].
  apply Forall_cons_1 in Hstr as [[c ->] Hstr].
  apply Forall_cons_1 in Hstr as [[d' ->] _].
  eauto.
Qed.

Lemma joinvalues_of_strings (x : list value) :
  Forall is_string x -> exists s, joinvalues x = Ok (VStr s).
Proof.
  intros H. unfold joinvalues. pose proof (strs_of_result x) as Hr.
  destruct (strs_of x) as [l|e]; cbn [rbind]; [eauto|]. tauto.
Qed.

Lemma joinvalues_column (rows : list (nat * list value)) (j : nat) :
  Forall (fun r => exists a b c d, snd r = [VStr a; VStr b; VStr c; VStr d]) rows ->
  j < 4 ->
  exists s, joinvalues (map snd (map (fun r => (fst r, nth j (snd r) VNaN)) rows))
            = Ok (VStr s).
Proof.
  intros H Hj. apply joinvalues_of_strings.
  rewrite List.map_map. cbn [snd]. apply Forall_forall. intros v Hv.
  apply list_elem_of_fmap in Hv as (r & -> & Hr).
  rewrite Forall_forall in H. destruct (H r Hr) as (a & b & c & d & ->).
  destruct j as [|[|[|[|j]]]]; cbn; try (eexists; reflexivity). lia.
Qed.

Lemma getdict_ambiguousinfo_retrieved_frame hmdbroot reparsed net (mids : list string) (db : Z)
    (w0 w1 : world) (df : DataFrame) (ambig_df : loc) (tag : Z) (w : world) :
  retrieve hmdbroot reparsed net mids db w0 = (Ok df, w1) ->
  store w !! ambig_df = Some (OFrame df) ->
  valid_db tag = true ->
  exists i m k s,
    getdict_ambiguousinfo ambig_df tag w
    = (Ok [(db_prefix tag +:+ "InChI", VStr i);
           (db_prefix tag +:+ "MetaboliteID", VStr m);
           (db_prefix tag +:+ "InChIKey", VStr k);
           (db_prefix tag +:+ "SMILES", VStr s)],
       set_object ambig_df (OFrame (prefixed (db_prefix tag) df)) w).
Proof.
  intros Hret Hst Hv. apply retrieve_rows_shape in Hret as [Hcols Hrows].
  rewrite getdict_ambiguousinfo_run by exact Hv. rewrite Hst.
  destruct (joinvalues_column _ 0 Hrows ltac:(lia)) as [i Hi].
  destruct (joinvalues_column _ 1 Hrows ltac:(lia)) as [m Hm].
  destruct (joinvalues_column _ 2 Hrows ltac:(lia)) as [k Hk].
  destruct (joinvalues_column _ 3 Hrows ltac:(lia)) as [s Hs].
  exists i, m, k, s. unfold set_object. f_equal.
  unfold joined_columns, prefixed, frame_col. rewrite Hcols.
  unfold db_prefix. destruct (tag =? ecocyc)%Z.
  - change ("e" +:+ "InChI") with "eInChI".
    change ("e" +:+ "MetaboliteID") with "eMetaboliteID".
    change ("e" +:+ "InChIKey") with "eInChIKey".
    change ("e" +:+ "SMILES") with "eSMILES".
    cbn [df_columns df_rows map retrieve_columns rfor_each].
    change ("e" +:+ "InChI") with "eInChI".
    change ("e" +:+ "MetaboliteID") with "eMetaboliteID".
    change ("e" +:+ "InChIKey") with "eInChIKey".
    change ("e" +:+ "SMILES") with "eSMILES".
    cbn [index_of String.eqb Ascii.eqb Bool.eqb fmap option_fmap option_map rbind].
    rewrite Hi; cbn [rbind]; rewrite Hm; cbn [rbind]; rewrite Hk; cbn [rbind];
    rewrite Hs; reflexivity.
  - change ("h" +:+ "InChI") with "hInChI".
    change ("h" +:+ "MetaboliteID") with "hMetaboliteID".
    change ("h" +:+ "InChIKey") with "hInChIKey".
    change ("h" +:+ "SMILES") with "hSMILES".
    cbn [df_columns df_rows map retrieve_columns rfor_each].
    change ("h" +:+ "InChI") with "hInChI".
    change ("h" +:+ "MetaboliteID") with "hMetaboliteID".
    change ("h" +:+ "InChIKey") with "hInChIKey".
    change ("h" +:+ "SMILES") with "hSMILES".
    cbn [index_of String.eqb Ascii.eqb Bool.eqb fmap option_fmap option_map rbind].
    rewrite Hi; cbn [rbind]; rewrite Hm; cbn [rbind]; rewrite Hk; cbn [rbind];
    rewrite Hs; reflexivity.
Qed.

(** X18: the two functions fit together: on a frame returned by [retrieve],
    [getdict_ambiguousinfo] with a valid tag never raises.  It returns
    the four keys InChI, MetaboliteID, InChIKey and SMILES with the
    prefix of the tag, each with a string (the joined column, the empty
    string for a frame without rows), and renames the frame in the
    store. *)
Theorem getdict_ambiguousinfo_on_retrieved hmdbroot reparsed net (mids : list string) (db : Z)
    (w0 w1 : world) (df : DataFrame) (ambig_df : loc) (tag : Z) (w : world) :
  retrieve hmdbroot reparsed net mids db w0 = (Ok df, w1) ->
  store w !! ambig_df = Some (OFrame df) ->
  valid_db tag = true ->
  exists i m k s,
    getdict_ambiguousinfo ambig_df tag w
    = (Ok [(db_prefix tag +:+ "InChI", VStr i);
           (db_prefix tag +:+ "MetaboliteID", VStr m);
           (db_prefix tag +:+ "InChIKey", VStr k);
           (db_prefix tag +:+ "SMILES", VStr s)],
       set_object ambig_df (OFrame (prefixed (db_prefix tag) df)) w).
Proof.
  exact (getdict_ambiguousinfo_retrieved_frame hmdbroot reparsed net mids db w0 w1 df ambig_df tag w).
Qed.

Lemma getdict_ambiguousinfo_on_retrieved_witness :
  retrieve Sample.hmdbroot Sample.reparsed Sample.net ["ETOH"; "METHANE"] ecocyc Sample.w0
  = (Ok Sample.einfo,
     log_requests [ecocyc_url "ETOH"; ecocyc_url "METHANE"] Sample.w0) /\
  exists i m k s,
    getdict_ambiguousinfo 0 ecocyc (mkWorld [] [OFrame Sample.einfo] [])
    = (Ok [("eInChI", VStr i); ("eMetaboliteID", VStr m);
           ("eInChIKey", VStr k); ("eSMILES", VStr s)],
       mkWorld [] [OFrame (prefixed "e" Sample.einfo)] []).
Proof.
  split; [reflexivity|].
  apply (getdict_ambiguousinfo_on_retrieved Sample.hmdbroot Sample.reparsed Sample.net
           ["ETOH"; "METHANE"] ecocyc Sample.w0
           (log_requests [ecocyc_url "ETOH"; ecocyc_url "METHANE"] Sample.w0)
           Sample.einfo 0 ecocyc (mkWorld [] [OFrame Sample.einfo] []));
    reflexivity.
Defined.

(** ** The branch of the row loop that completes with lookups *)

(** X10: a row with identifiers in both databases completes the loop body
    whenever its two database entries are in place, the lookups return
    and no InChIKey is shared: the row's data, with the joined EcoCyc
    and HMDB columns, is appended to [ambiguous], and the only requests
    made are those of the EcoCyc lookups. *)
Theorem row_body_unmatched_completes hmdbroot reparsed net (row : loc) (emids hmids : list string)
    (o : outs) (w w1 : world) (s : Series) (einfo hinfo : DataFrame) :
  emids <> [] -> hmids <> [] ->
  store w !! row = Some (OSeries s) ->
  has_key "EcoCyc" s && has_key "HMDB" s = true ->
  retrieve hmdbroot reparsed net emids ecocyc w = (Ok einfo, w1) ->
  fst (retrieve hmdbroot reparsed net hmids hmdb (snd (alloc (OFrame einfo) w1))) = Ok hinfo ->
  disjoint_keys einfo hinfo ->
  exists rowdict w',
    row_body hmdbroot reparsed net row emids hmids o w
    = (Ok (mkOuts (nodata_df o) (simple_df o) (match_df o) (multimatch_df o)
                  (ambiguous_df o ++ [rowdict])), w') /\
    http_log w' = http_log w1 /\
    files w' = files w /\
    store w' !! row = Some (OSeries (without_db_labels s)) /\
    (forall k, k <> "EcoCyc" -> k <> "HMDB" -> has_key k s = true ->
       dict_get k rowdict = dict_get k s \/
       str_in k ["eInChI"; "eMetaboliteID"; "eInChIKey"; "eSMILES";
                 "hInChI"; "hMetaboliteID"; "hInChIKey"; "hSMILES"] = true).
Proof.
  intros He Hh Hrow Hkeys Hre Hrh Hdis.
  assert (store w1 = store w /\ files w1 = files w) as [Hst1 Hf1].
  { destruct (retrieve_ecocyc_world hmdbroot reparsed net emids w) as [n Hn].
    rewrite Hre in Hn. cbn [snd] in Hn. subst w1. split; reflexivity. }
  pose proof (retrieve_hmdb_world hmdbroot reparsed net hmids (snd (alloc (OFrame einfo) w1))) as Hwh.
  assert (retrieve hmdbroot reparsed net hmids hmdb (snd (alloc (OFrame einfo) w1))
          = (Ok hinfo, snd (alloc (OFrame einfo) w1))) as Hrh'.
  { destruct (retrieve hmdbroot reparsed net hmids hmdb (snd (alloc (OFrame einfo) w1))) as [r w2].
    cbn [fst snd] in *. subst. reflexivity. }
  assert (row < length (store w)) as Hlt by (eapply lookup_lt_Some; exact Hrow).
  unfold row_body.
  destruct emids as [|e0 emids]; [congruence|]. destruct hmids as [|h0 hmids]; [congruence|].
  cbn [length Nat.eqb andb orb].
  rewrite bind_run, Hre. rewrite bind_run. unfold alloc at 1.
  unfold alloc in Hrh', Hwh. cbn [snd] in Hrh', Hwh.
  rewrite bind_run, Hrh'. rewrite bind_run. unfold alloc at 1. cbn [store http_log files].
  rewrite bind_run, lift_run.
  apply getmatches_none_iff_disjoint in Hdis. rewrite Hdis.
  rewrite bind_run. unfold ret at 1. rewrite bind_run.
  unfold build_ambiguousrow. rewrite bind_run, process_ogrow_run. cbn [store].
  rewrite Hst1. rewrite !lookup_app_l by (rewrite ?length_app; cbn [length]; lia).
  unfold loc in *. rewrite Hrow, Hkeys. rewrite bind_run.
  destruct (getdict_ambiguousinfo_retrieved_frame hmdbroot reparsed net (e0 :: emids) ecocyc w w1 einfo
              (length (store w)) ecocyc
              (set_object row (OSeries (without_db_labels s))
                 (mkWorld (http_log w1) ((store w ++ [OFrame einfo]) ++ [OFrame hinfo])
                    (files w1)))
              Hre) as (i1 & m1 & k1 & s1 & Hg1).
  { unfold set_object. cbn [store]. rewrite list_lookup_insert_ne by lia.
    rewrite lookup_app_l by (rewrite length_app; cbn [length]; lia).
    rewrite lookup_app_r by lia. rewrite Nat.sub_diag. reflexivity. }
  { reflexivity. }
  rewrite Hg1. rewrite bind_run.
  match goal with |- context [getdict_ambiguousinfo ?r hmdb ?w5] =>
    destruct (getdict_ambiguousinfo_retrieved_frame hmdbroot reparsed net (h0 :: hmids) hmdb _ _ hinfo
                r hmdb w5 Hrh') as (i2 & m2 & k2 & s2 & Hg2)
  end.
  { unfold set_object. cbn [store]. rewrite length_app. cbn [length].
    rewrite !list_lookup_insert_ne by lia.
    rewrite lookup_app_r by (rewrite length_app; cbn [length]; lia).
    rewrite length_app. cbn [length].
    replace (length (store w) + 1 - (length (store w) + 1)) with 0 by lia. reflexivity. }
  { reflexivity. }
  rewrite Hg2. unfold ret. eexists _, _. split; [reflexivity|].
  unfold set_object. cbn [http_log files store]. split; [reflexivity|].
  split; [exact Hf1|]. split.
  - rewrite length_app. cbn [length]. rewrite !list_lookup_insert_ne by lia.
    rewrite list_lookup_insert_eq by (rewrite !length_app; cbn [length]; lia). reflexivity.
  - intros k Hk1 Hk2 _. rewrite !dict_get_update.
    change (db_prefix hmdb) with "h". change (db_prefix ecocyc) with "e". cbn [rev app dict_get].
    change ("h" +:+ "InChI") with "hInChI". change ("h" +:+ "MetaboliteID") with "hMetaboliteID".
    change ("h" +:+ "InChIKey") with "hInChIKey". change ("h" +:+ "SMILES") with "hSMILES".
    change ("e" +:+ "InChI") with "eInChI". change ("e" +:+ "MetaboliteID") with "eMetaboliteID".
    change ("e" +:+ "InChIKey") with "eInChIKey". change ("e" +:+ "SMILES") with "eSMILES".
    unfold str_in. cbn [existsb].
    destruct (String.eqb k "hSMILES"); [right; rewrite ?orb_true_r; reflexivity|].
    destruct (String.eqb k "hInChIKey"); [right; rewrite ?orb_true_r; reflexivity|].
    destruct (String.eqb k "hMetaboliteID"); [right; rewrite ?orb_true_r; reflexivity|].
    destruct (String.eqb k "hInChI"); [right; rewrite ?orb_true_r; reflexivity|].
    destruct (String.eqb k "eSMILES"); [right; rewrite ?orb_true_r; reflexivity|].
    destruct (String.eqb k "eInChIKey"); [right; rewrite ?orb_true_r; reflexivity|].
    destruct (String.eqb k "eMetaboliteID"); [right; rewrite ?orb_true_r; reflexivity|].
    destruct (String.eqb k "eInChI"); [right; reflexivity|].
    left. rewrite dict_get_without_db_labels. cbn.
    destruct (String.eqb_spec k "EcoCyc"); [congruence|].
    destruct (String.eqb_spec k "HMDB"); [congruence|]. reflexivity.
Qed.

Lemma row_body_unmatched_completes_witness :
  retrieve Sample.hmdbroot Sample.reparsed Sample.net ["ETOH"] ecocyc Sample.w_row1
  = (Ok (mkDF Sample.columns
           [(0, [VStr "1S/C2H6O"; VStr "ETOH"; VStr "LFQSCWFLJHTTHZ"; VStr "CCO"])]),
     log_requests [ecocyc_url "ETOH"] Sample.w_row1) /\
  exists rowdict w',
    row_body Sample.hmdbroot Sample.reparsed Sample.net 0 ["ETOH"] ["methane"] Sample.no_outs Sample.w_row1
    = (Ok (mkOuts [] [] [] [] [rowdict]), w') /\
    http_log w' = [ecocyc_url "ETOH"].
Proof.
  split; [reflexivity|].
  destruct (row_body_unmatched_completes Sample.hmdbroot Sample.reparsed Sample.net 0 ["ETOH"] ["methane"]
              Sample.no_outs Sample.w_row1 (log_requests [ecocyc_url "ETOH"] Sample.w_row1)
              Sample.row1
              (mkDF Sample.columns
                 [(0, [VStr "1S/C2H6O"; VStr "ETOH"; VStr "LFQSCWFLJHTTHZ"; VStr "CCO"])])
              Sample.hinfo)
    as (rowdict & w' & Hrun & Hlog & _).
  - discriminate.
  - discriminate.
  - reflexivity.
  - reflexivity.
  - reflexivity.
  - reflexivity.
  - eexists _, _. repeat split; reflexivity.
  - exists rowdict, w'. split; [exact Hrun | exact Hlog].
Defined.

(** * Further properties of the text patterns *)

(** ** The searches of ecocyc_lookup *)

Lemma starts_with_iff (p s : list ascii) :
  starts_with p s = true <-> exists t, s = p ++ t.
Proof.
  revert s. induction p as [|a p IH]; intros s.
  - cbn. split; eauto.
  - destruct s as [|b s]; cbn.
    + split; [discriminate | intros [t Ht]; discriminate Ht].
    + rewrite andb_true_iff, IH. split.
      * intros [Hab [t ->]]. apply Ascii.eqb_eq in Hab. subst. eauto.
      * intros [t [= -> ->]]. split; [apply Ascii.eqb_refl | eauto].
Qed.

Lemma longest_before_sound (post rest : list ascii) (n : nat) (g : list ascii) :
  longest_before post rest n = Some g ->
  exists m, m <= n /\ g = take m rest /\ starts_with post (drop m rest) = true.
Proof.
  induction n as [|n IH]; cbn [longest_before].
  - destruct (starts_with post (drop 0 rest)) eqn:E; [|discriminate].
    intros [= <-]. exists 0. auto.
  - destruct (starts_with post (drop (S n) rest)) eqn:E.
    + intros [= <-]. exists (S n). auto.
    + intros H. destruct (IH H) as (m & Hm & Hg & Hp). exists m. split; [lia|]. auto.
Qed.

Lemma longest_before_complete (post rest : list ascii) (n m : nat) :
  m <= n -> starts_with post (drop m rest) = true ->
  exists g, longest_before post rest n = Some g.
Proof.
  induction n as [|n IH]; intros Hm Hp; cbn [longest_before].
  - assert (m = 0) as -> by lia. rewrite Hp. eauto.
  - destruct (starts_with post (drop (S n) rest)) eqn:E; [eauto|].
    apply IH; [|exact Hp]. destruct (decide (m = S n)) as [->|]; [congruence|lia].
Qed.

Lemma take_in_run (cls : ascii -> bool) (l : list ascii) (m : nat) :
  m <= length (take_while cls l) -> forallb cls (take m l) = true.
Proof.
  revert m. induction l as [|c l IH]; intros m Hm.
  - destruct m; reflexivity.
  - destruct m as [|m]; [reflexivity|]. cbn [take_while] in Hm. cbn [take firstn forallb].
    destruct (cls c); [|cbn in Hm; lia]. cbn [length] in Hm. rewrite IH by lia. reflexivity.
Qed.

Lemma run_covers (cls : ascii -> bool) (g rest : list ascii) :
  forallb cls g = true -> length g <= length (take_while cls (g ++ rest)).
Proof.
  induction g as [|c g IH]; intros H; [cbn; lia|].
  cbn [forallb] in H. apply andb_prop in H as [Hc Hg].
  cbn [app take_while]. rewrite Hc. cbn [length]. specialize (IH Hg). lia.
Qed.

Lemma search_aux_sound (pre_rev post : list ascii) (cls : ascii -> bool)
    (seen rest g : list ascii) :
  search_aux pre_rev post cls seen rest = Some g ->
  exists a b, rev seen ++ rest = a ++ rev pre_rev ++ g ++ post ++ b /\
              forallb cls g = true.
Proof.
  revert seen. induction rest as [|c rest IH]; intros seen H; cbn [search_aux] in H.
  - destruct (starts_with pre_rev seen) eqn:Es.
    + destruct (longest_before post [] (length (take_while cls []))) as [g'|] eqn:El;
        [|discriminate].
      injection H as ->. apply starts_with_iff in Es as [t ->].
      apply longest_before_sound in El as (m & Hm & -> & Hp).
      apply starts_with_iff in Hp as [b Hb].
      exists (rev t), b. split; [|apply take_in_run; exact Hm].
      rewrite rev_app_distr, <- !app_assoc. f_equal. f_equal.
      rewrite <- Hb. symmetry. apply take_drop.
    + discriminate.
  - assert (forall g',
              (if starts_with pre_rev seen
               then longest_before post (c :: rest) (length (take_while cls (c :: rest)))
               else None) = Some g' ->
              exists a b, rev seen ++ c :: rest = a ++ rev pre_rev ++ g' ++ post ++ b /\
                          forallb cls g' = true) as Hhere.
    { intros g' Hg'. destruct (starts_with pre_rev seen) eqn:Es; [|discriminate].
      apply starts_with_iff in Es as [t ->].
      apply longest_before_sound in Hg' as (m & Hm & -> & Hp).
      apply starts_with_iff in Hp as [b Hb].
      exists (rev t), b. split; [|apply take_in_run; exact Hm].
      rewrite rev_app_distr, <- !app_assoc. f_equal. f_equal.
      rewrite <- Hb. symmetry. apply take_drop. }
    destruct (if starts_with pre_rev seen
              then longest_before post (c :: rest) (length (take_while cls (c :: rest)))
              else None) as [g'|].
    + injection H as ->. apply Hhere. reflexivity.
    + apply IH in H as (a & b & Heq & Hcls). exists a, b. split; [|exact Hcls].
      rewrite <- Heq. cbn [rev]. rewrite <- app_assoc. reflexivity.
Qed.

Lemma search_aux_complete (pre_rev post : list ascii) (cls : ascii -> bool)
    (l seen g b : list ascii) :
  starts_with pre_rev (rev l ++ seen) = true ->
  forallb cls g = true ->
  exists g', search_aux pre_rev post cls seen (l ++ g ++ post ++ b) = Some g'.
Proof.
  revert seen. induction l as [|c l IH]; intros seen Hs Hg.
  - cbn [rev app] in *.
    destruct (longest_before_complete post (g ++ post ++ b)
                (length (take_while cls (g ++ post ++ b))) (length g)) as [g' Hg'].
    + apply run_covers. exact Hg.
    + rewrite drop_app_length. apply starts_with_iff. eauto.
    + exists g'. destruct (g ++ post ++ b); cbn [search_aux]; rewrite Hs, Hg'; reflexivity.
  - cbn [app search_aux].
    destruct (if starts_with pre_rev seen
              then longest_before post (c :: l ++ g ++ post ++ b)
                     (length (take_while cls (c :: l ++ g ++ post ++ b)))
              else None) as [g'|]; [eauto|].
    apply IH; [|exact Hg]. cbn [rev] in Hs. rewrite <- app_assoc in Hs. exact Hs.
Qed.

(** X19: the searches of [ecocyc_lookup], patterns of the form
    [(?<=pre)C*(?=post)]: a value is found exactly when the text has an
    occurrence of [pre], a run of class-[C] characters and [post]; the
    value found sits between a [pre] and a [post] of the text and
    consists of class-[C] characters only (no ["<"] in an InChI, no
    line break in an InChIKey or SMILES). *)
Theorem re_search_finds_bracketed_text (pre post s : string) (cls : ascii -> bool) :
  (forall g, re_search pre cls post s = Some g ->
     exists a b,
       list_ascii_of_string s
       = a ++ list_ascii_of_string pre ++ list_ascii_of_string g
           ++ list_ascii_of_string post ++ b /\
       forallb cls (list_ascii_of_string g) = true) /\
  ((exists g, re_search pre cls post s = Some g) <->
   (exists a g b,
      list_ascii_of_string s
      = a ++ list_ascii_of_string pre ++ g ++ list_ascii_of_string post ++ b /\
      forallb cls g = true)).
Proof.
  unfold re_search.
  assert (forall g,
            search_aux (rev (list_ascii_of_string pre)) (list_ascii_of_string post) cls []
              (list_ascii_of_string s) = Some g ->
            exists a b,
              list_ascii_of_string s
              = a ++ list_ascii_of_string pre ++ g ++ list_ascii_of_string post ++ b /\
              forallb cls g = true) as Hsound.
  { intros g H. apply search_aux_sound in H as (a & b & Heq & Hcls).
    rewrite rev_involutive in Heq. cbn [rev app] in Heq. eauto. }
  split; [|split].
  - intros g H.
    destruct (search_aux _ _ cls [] (list_ascii_of_string s)) as [g0|] eqn:E;
      [|discriminate H].
    injection H as <-. rewrite list_ascii_of_string_of_list_ascii. apply Hsound. reflexivity.
  - intros [g H].
    destruct (search_aux _ _ cls [] (list_ascii_of_string s)) as [g0|] eqn:E;
      [|discriminate H].
    destruct (Hsound g0 eq_refl) as (a & b & Heq & Hcls). eauto.
  - intros (a & g & b & Heq & Hcls). rewrite Heq.
    destruct (search_aux_complete (rev (list_ascii_of_string pre))
                (list_ascii_of_string post) cls (a ++ list_ascii_of_string pre) [] g b)
      as [g' Hg'].
    + rewrite app_nil_r, rev_app_distr. apply starts_with_iff. eauto.
    + exact Hcls.
    + rewrite <- app_assoc in Hg'. rewrite Hg'. cbn. eauto.
Qed.

Lemma re_search_finds_bracketed_text_witness :
  found_inchi "<inchi>InChI=1S/H2O/h1H2</inchi>" = Some "1S/H2O/h1H2" /\
  exists a b,
    list_ascii_of_string "<inchi>InChI=1S/H2O/h1H2</inchi>"
    = a ++ list_ascii_of_string "InChI=" ++ list_ascii_of_string "1S/H2O/h1H2"
        ++ list_ascii_of_string "</inchi>" ++ b /\
    forallb not_lt (list_ascii_of_string "1S/H2O/h1H2") = true.
Proof.
  split; [reflexivity|].
  apply (proj1 (re_search_finds_bracketed_text "InChI=" "</inchi>"
                  "<inchi>InChI=1S/H2O/h1H2</inchi>" not_lt)).
  reflexivity.
Defined.

(** ** The split of getlists *)

Lemma split_ids_aux_plain (s cur : list ascii) :
  forallb plain s = true -> split_ids_aux s cur = [rev cur ++ s].
Proof.
  revert cur. induction s as [|c s IH]; intros cur H.
  - cbn. rewrite app_nil_r. reflexivity.
  - cbn [forallb] in H. apply andb_prop in H as [Hc Hs]. unfold plain in Hc.
    apply andb_prop in Hc as [H1 H2]. apply negb_true_iff in H1, H2.
    cbn [split_ids_aux]. rewrite H1, H2. cbn [andb]. rewrite IH by exact Hs.
    cbn [rev]. rewrite <- app_assoc. reflexivity.
Qed.

Lemma split_ids_aux_semicolon (a rest cur : list ascii) :
  forallb plain a = true ->
  split_ids_aux (a ++ ";"%char :: " "%char :: rest) cur
  = (rev cur ++ a) :: split_ids_aux rest [].
Proof.
  revert cur. induction a as [|c a IH]; intros cur H.
  - cbn. rewrite app_nil_r. reflexivity.
  - cbn [forallb] in H. apply andb_prop in H as [Hc Hs]. unfold plain in Hc.
    apply andb_prop in Hc as [H1 H2]. apply negb_true_iff in H1, H2.
    cbn [app split_ids_aux]. rewrite H1, H2. cbn [andb]. rewrite IH by exact Hs.
    cbn [rev]. rewrite <- app_assoc. reflexivity.
Qed.

Lemma list_ascii_of_string_app (s t : string) :
  list_ascii_of_string (s +:+ t) = list_ascii_of_string s ++ list_ascii_of_string t.
Proof.
  induction s as [|c s IH]; [reflexivity|].
  change (String c s +:+ t) with (String c (s +:+ t)).
  cbn [list_ascii_of_string app]. rewrite IH. reflexivity.
Qed.

(** X20: the split of a cell.  A text without [";"] and ["/"] is one piece,
    itself (so an empty cell gives the one piece [""]); and a first
    identifier without these characters followed by ["; "] is split
    off, the rest being split on its own. *)
Theorem split_ids_on_semicolons (a rest : string) :
  forallb plain (list_ascii_of_string a) = true ->
  split_ids a = [a] /\
  split_ids (a +:+ "; " +:+ rest) = a :: split_ids rest.
Proof.
  intros H. unfold split_ids. split.
  - rewrite split_ids_aux_plain by exact H. cbn.
    rewrite string_of_list_ascii_of_string. reflexivity.
  - rewrite !list_ascii_of_string_app. cbn [list_ascii_of_string app].
    rewrite split_ids_aux_semicolon by exact H. cbn [map rev app].
    rewrite string_of_list_ascii_of_string. reflexivity.
Qed.

Lemma split_ids_on_semicolons_witness :
  forallb plain (list_ascii_of_string "CPD-123") = true /\
  split_ids "CPD-123" = ["CPD-123"] /\
  split_ids ("CPD-123" +:+ "; " +:+ "NA; GLC") = "CPD-123" :: split_ids "NA; GLC".
Proof.
  split; [reflexivity|].
  apply (split_ids_on_semicolons "CPD-123" "NA; GLC"). reflexivity.
Defined.
